(** * Student manager (src/app.py): the store, its writers and its reports

    A shallow embedding of the storage and reporting core of [app.py]:
    the sqlite tables as lists of rows in storage order, the functions
    that read them ([calculate_subject_progress], [get_daily_report],
    [get_weekly_analysis], [get_study_schedule], [login_user]) as pure
    functions of the store, and the writers ([register_user], the form
    submit handlers, [repair_database]) as store transformers.

    Conventions of the embedding
    - INTEGER columns are [Z], TEXT columns are [string], BOOLEAN is [bool].
    - FLOAT columns are exact rationals [Q]; the properties below are
      bounds, sums of one or two literals and comparisons.
    - a [date] is the day ordinal of [datetime.date.toordinal] (day 1 is
      Monday 0001-01-01); [timedelta(days=1)] adds 1.  sqlite stores the
      date as 'YYYY-MM-DD' text whose order is the order of the ordinals.
    - [created_at] (CURRENT_TIMESTAMP) is written by sqlite and read by
      none of the functions below; it is left out of the rows.
    - a Python value that may be [None] is an [option]. *)

From Stdlib Require Import ZArith QArith Qminmax List Bool Ascii String Sorting.Sorted
  Sorting.Permutation Structures.OrderedTypeEx.
From stdpp Require Import base gmap strings list fin_maps.

Local Open Scope string_scope.
Local Open Scope Z_scope.

(** ** Rows of the tables created by [init_database] *)

Definition date := Z.

Module User.
Record row := mk {
  id : Z;
  username : string;
  password : string;
  name : string;
  email : string;
  phone : string
}.
End User.

Module Student.
Record row := mk {
  id : Z;
  user_id : Z;
  name : string;
  photo : option string;
  email : string;
  phone : string;
  target_study_hours : Z;
  wakeup_time : string;
  bedtime : string
}.
End Student.

Module Subject.
Record row := mk {
  id : Z;
  user_id : Z;
  subject_name : string;
  weightage : Q;
  target_total_hours : Q;
  daily_lecture_hours : Q;
  daily_question_hours : Q;
  difficulty : string;
  target_completion_date : date
}.
End Subject.

Module Exercise.
Record row := mk {
  id : Z;
  user_id : Z;
  exercise_type : string;
  day_of_week : string;
  duration_minutes : Z;
  intensity : string;
  notes : string
}.
End Exercise.

Module DailyProgress.
Record row := mk {
  id : Z;
  user_id : Z;
  subject_id : Z;
  date : date;
  lecture_hours_actual : Q;
  question_hours_actual : Q;
  questions_solved : Z;
  exercise_done : bool;
  exercise_minutes : Z;
  mood : string;
  notes : string
}.
End DailyProgress.

Module StudySchedule.
Record row := mk {
  id : Z;
  user_id : Z;
  day_of_week : string;
  subject_id : Z;
  start_time : string;
  end_time : string;
  session_type : string;
  priority : Z
}.
End StudySchedule.

(** The database file: one list of rows per table, in rowid order, and the
    AUTOINCREMENT counter sqlite keeps for each table in [sqlite_sequence]. *)
Record db := mkdb {
  users : list User.row;
  users_seq : Z;
  students : list Student.row;
  students_seq : Z;
  subjects : list Subject.row;
  subjects_seq : Z;
  exercises : list Exercise.row;
  exercises_seq : Z;
  daily_progress : list DailyProgress.row;
  daily_progress_seq : Z;
  study_schedule : list StudySchedule.row;
  study_schedule_seq : Z
}.

Definition empty_db : db :=
  mkdb [] 0 [] 0 [] 0 [] 0 [] 0 [] 0.

(** INTEGER PRIMARY KEY AUTOINCREMENT: one more than the largest rowid the
    table holds or ever held. *)
Definition next_rowid (ids : list Z) (seq : Z) : Z :=
  Z.max (fold_right Z.max 0 ids) seq + 1.

(** [cursor.fetchone()] *)
Definition fetchone {A : Type} (rows : list A) : option A :=
  match rows with
  | [] => None
  | r :: _ => Some r
  end.

(** ** SQL aggregates and Python arithmetic *)

(** [SUM(col)] is NULL over no row. *)
Definition sql_sum_Q (l : list Q) : option Q :=
  match l with
  | [] => None
  | _ => Some (fold_left Qplus l (0 : Q))
  end.

Definition sql_sum_Z (l : list Z) : option Z :=
  match l with
  | [] => None
  | _ => Some (fold_left Z.add l 0)
  end.

(** [x or 0]: None and a zero both give 0. *)
Definition or_zero_Q (o : option Q) : Q :=
  match o with
  | Some q => if Qeq_bool q 0 then 0%Q else q
  | None => 0%Q
  end.

Definition or_zero_Z (o : option Z) : Z :=
  match o with
  | Some z => z
  | None => 0
  end.

(** [a < b] on floats. *)
Definition Qlt_bool (a b : Q) : bool := negb (Qle_bool b a).

(** Python's [min(a, b)]: [b] when [b < a], else [a]. *)
Definition py_min (a b : Q) : Q :=
  if Qlt_bool b a then b else a.

(** Python's [sum(l)]: left to right from 0. *)
Definition py_sum_Q (l : list Q) : Q := fold_left Qplus l (0 : Q).
Definition py_sum_Z (l : list Z) : Z := fold_left Z.add l 0.

(** ORDER BY: a stable insertion sort by the comparison [leb]; rows that tie
    stay in the order the scan produced them. *)
Fixpoint insert_by {A : Type} (leb : A -> A -> bool) (x : A) (l : list A)
  : list A :=
  match l with
  | [] => [x]
  | y :: l' => if leb x y then x :: y :: l' else y :: insert_by leb x l'
  end.

Definition sort_by {A : Type} (leb : A -> A -> bool) (l : list A) : list A :=
  fold_right (insert_by leb) [] l.

(** ORDER BY k1, k2, ...: the first key that differs decides. *)
Definition lex (c1 c2 : comparison) : comparison :=
  match c1 with
  | Eq => c2
  | _ => c1
  end.

Definition lex_cmp {A B : Type} (cmpA : A -> A -> comparison)
    (cmpB : B -> B -> comparison) (x y : A * B) : comparison :=
  lex (cmpA (fst x) (fst y)) (cmpB (snd x) (snd y)).

Definition not_gt (c : comparison) : bool :=
  match c with
  | Gt => false
  | _ => true
  end.

(** ** calculate_subject_progress *)

Definition select_subject (d : db) (subject_id user_id : Z) : list Subject.row :=
  List.filter
    (fun s => (Subject.id s =? subject_id) && (Subject.user_id s =? user_id))
    (subjects d).

Definition progress_of (d : db) (user_id subject_id : Z) : list DailyProgress.row :=
  List.filter
    (fun r => (DailyProgress.user_id r =? user_id)
              && (DailyProgress.subject_id r =? subject_id))
    (daily_progress d).

Definition calculate_subject_progress (d : db) (user_id subject_id : Z)
  : Q * Q * Z :=
  match fetchone (select_subject d subject_id user_id) with
  | None => (0%Q, 0%Q, 0)
  | Some subject =>
      let target_total_hours := Subject.target_total_hours subject in
      let rows := progress_of d user_id subject_id in
      let total_lecture_hours :=
        or_zero_Q (sql_sum_Q (List.map DailyProgress.lecture_hours_actual rows)) in
      let total_question_hours :=
        or_zero_Q (sql_sum_Q (List.map DailyProgress.question_hours_actual rows)) in
      let total_questions :=
        or_zero_Z (sql_sum_Z (List.map DailyProgress.questions_solved rows)) in
      let lecture_progress :=
        if Qlt_bool 0 target_total_hours
        then (total_lecture_hours / target_total_hours * 100)%Q else 0%Q in
      let question_progress :=
        if Qlt_bool 0 target_total_hours
        then (total_question_hours / target_total_hours * 100)%Q else 0%Q in
      (py_min lecture_progress 100, py_min question_progress 100, total_questions)
  end.

(** ** get_daily_report *)

(** One tuple of [subjects_progress]: the subject's id, name and daily
    targets, then the seven columns of its daily_progress row for the date,
    all [None] when there is no such row. *)
Record subject_progress := mk_subject_progress {
  sp_sub_id : Z;
  sp_sub_name : string;
  sp_daily_lecture : Q;
  sp_daily_question : Q;
  sp_lecture_actual : option Q;
  sp_question_actual : option Q;
  sp_questions_solved : option Z;
  sp_exercise_done : option bool;
  sp_exercise_minutes : option Z;
  sp_mood : option string;
  sp_notes : option string
}.

(** The ['totals'] dictionary. *)
Record totals := mk_totals {
  lecture_target : Q;
  question_target : Q;
  lecture_actual : Q;
  question_actual : Q;
  questions : Z
}.

(** A row of the exercises query: exercise_type, duration_minutes,
    intensity, notes. *)
Definition planned_exercise : Type := string * Z * string * string.

Record daily_report := mk_daily_report {
  report_subjects : list subject_progress;
  report_exercises : list planned_exercise;
  report_totals : totals
}.

(** ORDER BY weightage DESC, subject_name *)
Definition subject_order (a b : Subject.row) : bool :=
  not_gt (lex (Qcompare (Subject.weightage b) (Subject.weightage a))
              (String.compare (Subject.subject_name a) (Subject.subject_name b))).

Definition subjects_of (d : db) (user_id : Z) : list Subject.row :=
  sort_by subject_order
    (List.filter (fun s => Subject.user_id s =? user_id) (subjects d)).

Definition days_of_week : list string :=
  ["Monday"; "Tuesday"; "Wednesday"; "Thursday"; "Friday"; "Saturday"; "Sunday"].

(** [d.strftime('%A')] *)
Definition day_name (d : date) : string :=
  nth (Z.to_nat ((d + 6) mod 7)) days_of_week "".

Definition progress_on (d : db) (user_id subject_id : Z) (day : date)
  : list DailyProgress.row :=
  List.filter
    (fun r => (DailyProgress.user_id r =? user_id)
              && (DailyProgress.subject_id r =? subject_id)
              && (DailyProgress.date r =? day))
    (daily_progress d).

Definition subject_progress_on (d : db) (user_id : Z) (report_date : date)
    (subject : Subject.row) : subject_progress :=
  let sub_id := Subject.id subject in
  let sub_name := Subject.subject_name subject in
  let daily_lecture := Subject.daily_lecture_hours subject in
  let daily_question := Subject.daily_question_hours subject in
  match fetchone (progress_on d user_id sub_id report_date) with
  | Some progress =>
      mk_subject_progress sub_id sub_name daily_lecture daily_question
        (Some (DailyProgress.lecture_hours_actual progress))
        (Some (DailyProgress.question_hours_actual progress))
        (Some (DailyProgress.questions_solved progress))
        (Some (DailyProgress.exercise_done progress))
        (Some (DailyProgress.exercise_minutes progress))
        (Some (DailyProgress.mood progress))
        (Some (DailyProgress.notes progress))
  | None =>
      mk_subject_progress sub_id sub_name daily_lecture daily_question
        None None None None None None None
  end.

(** [[x or 0 for s in l if x is not None]] *)
Definition present_Q (l : list (option Q)) : list Q :=
  flat_map (fun o => match o with
                     | Some q => [or_zero_Q (Some q)]
                     | None => []
                     end) l.

Definition present_Z (l : list (option Z)) : list Z :=
  flat_map (fun o => match o with
                     | Some z => [z]
                     | None => []
                     end) l.

Definition get_daily_report (d : db) (user_id : Z) (report_date : date)
  : daily_report :=
  match subjects_of d user_id with
  | [] => mk_daily_report [] [] (mk_totals 0 0 0 0 0)
  | subjects =>
      let subjects_progress :=
        List.map (subject_progress_on d user_id report_date) subjects in
      let exercises :=
        List.map
          (fun e => (Exercise.exercise_type e, Exercise.duration_minutes e,
                     Exercise.intensity e, Exercise.notes e))
          (List.filter
             (fun e => (Exercise.user_id e =? user_id)
                       && String.eqb (Exercise.day_of_week e) (day_name report_date))
             (exercises d)) in
      let total_lecture_target :=
        py_sum_Q (List.map sp_daily_lecture subjects_progress) in
      let total_question_target :=
        py_sum_Q (List.map sp_daily_question subjects_progress) in
      let total_lecture_actual :=
        py_sum_Q (present_Q (List.map sp_lecture_actual subjects_progress)) in
      let total_question_actual :=
        py_sum_Q (present_Q (List.map sp_question_actual subjects_progress)) in
      let total_questions :=
        py_sum_Z (present_Z (List.map sp_questions_solved subjects_progress)) in
      mk_daily_report subjects_progress exercises
        (mk_totals total_lecture_target total_question_target
           total_lecture_actual total_question_actual total_questions)
  end.

(** ** get_weekly_analysis *)

(** A row of [daily_data_with_exercise]: the five columns of the GROUP BY
    date query and the exercise rate appended to them. *)
Record day_summary := mk_day_summary {
  ds_date : date;
  ds_total_lecture : Q;
  ds_total_question : Q;
  ds_total_questions : Z;
  ds_subjects_studied : Z;
  ds_exercise_rate : Q
}.

(** A row of [subject_data]. *)
Record subject_summary := mk_subject_summary {
  ss_subject_name : string;
  ss_total_lecture : Q;
  ss_total_question : Q;
  ss_total_questions : Z;
  ss_days_studied : Z
}.

(** COUNT(DISTINCT col) *)
Definition count_distinct (l : list Z) : Z :=
  Z.of_nat (length (nodup Z.eq_dec l)).

(** WHERE user_id = ? AND date BETWEEN ? AND ? *)
Definition progress_between (d : db) (user_id : Z) (start_date end_date : date)
  : list DailyProgress.row :=
  List.filter
    (fun r => (DailyProgress.user_id r =? user_id)
              && (start_date <=? DailyProgress.date r)
              && (DailyProgress.date r <=? end_date))
    (daily_progress d).

(** SELECT date, SUM(..), SUM(..), SUM(..), COUNT(DISTINCT subject_id)
    ... GROUP BY date ORDER BY date.  The columns are COALESCEd before they
    are summed, and a group has at least one row, so no sum is NULL. *)
Definition daily_data (d : db) (user_id : Z) (start_date end_date : date)
  : list (date * Q * Q * Z * Z) :=
  let rows := progress_between d user_id start_date end_date in
  List.map
    (fun day =>
       let group := List.filter (fun r => DailyProgress.date r =? day) rows in
       (day,
        py_sum_Q (List.map DailyProgress.lecture_hours_actual group),
        py_sum_Q (List.map DailyProgress.question_hours_actual group),
        py_sum_Z (List.map DailyProgress.questions_solved group),
        count_distinct (List.map DailyProgress.subject_id group)))
    (sort_by Z.leb (nodup Z.eq_dec (List.map DailyProgress.date rows))).

(** The dates the [while current_date <= end_date] loop visits. *)
Definition dates_from_to (start_date end_date : date) : list date :=
  List.map (fun i => start_date + Z.of_nat i)
    (seq 0 (Z.to_nat (end_date - start_date + 1))).

(** One pass of the loop body: (exercise_count > 0, exercise_minutes). *)
Definition exercise_on (d : db) (user_id : Z) (current_date : date)
  : bool * Z :=
  let rows :=
    List.filter
      (fun r => (DailyProgress.user_id r =? user_id)
                && (DailyProgress.date r =? current_date)
                && DailyProgress.exercise_done r)
      (daily_progress d) in
  let exercise_count := Z.of_nat (length rows) in
  let exercise_minutes :=
    or_zero_Z (sql_sum_Z (List.map DailyProgress.exercise_minutes rows)) in
  (0 <? exercise_count, exercise_minutes).

Definition exercise_data (d : db) (user_id : Z) (start_date end_date : date)
  : list (bool * Z) :=
  List.map (exercise_on d user_id) (dates_from_to start_date end_date).

(** COALESCE(SUM(col), 0) *)
Definition coalesce_Q (o : option Q) : Q :=
  match o with
  | Some q => q
  | None => 0%Q
  end.

(** FROM subjects s LEFT JOIN daily_progress dp ON ... WHERE s.user_id = ?
    GROUP BY s.id, s.subject_name ORDER BY total_lecture + total_question DESC.
    [id] is the primary key, so every subject is a group of its own. *)
Definition subject_data (d : db) (user_id : Z) (start_date end_date : date)
  : list subject_summary :=
  sort_by
    (fun a b =>
       Qle_bool (ss_total_lecture b + ss_total_question b)
                (ss_total_lecture a + ss_total_question a))
    (List.map
       (fun s =>
          let joined :=
            List.filter
              (fun dp => (Subject.id s =? DailyProgress.subject_id dp)
                         && (start_date <=? DailyProgress.date dp)
                         && (DailyProgress.date dp <=? end_date)
                         && (DailyProgress.user_id dp =? user_id))
              (daily_progress d) in
          mk_subject_summary (Subject.subject_name s)
            (coalesce_Q (sql_sum_Q (List.map DailyProgress.lecture_hours_actual joined)))
            (coalesce_Q (sql_sum_Q (List.map DailyProgress.question_hours_actual joined)))
            (or_zero_Z (sql_sum_Z (List.map DailyProgress.questions_solved joined)))
            (count_distinct (List.map DailyProgress.date joined)))
       (List.filter (fun s => Subject.user_id s =? user_id) (subjects d))).

(** [for i, day in enumerate(daily_data)]: the rate of the i-th visited
    date is appended to the i-th group, whatever its date. *)
Fixpoint with_exercise (daily : list (date * Q * Q * Z * Z))
    (exercise : list (bool * Z)) (i : nat) : list day_summary :=
  match daily with
  | [] => []
  | (day, total_lecture, total_question, total_questions, subjects_studied) :: rest =>
      let exercise_rate :=
        match nth_error exercise i with
        | Some (done, _) => if done then 1%Q else 0%Q
        | None => 0%Q
        end in
      mk_day_summary day total_lecture total_question total_questions
        subjects_studied exercise_rate
      :: with_exercise rest exercise (S i)
  end.

Definition get_weekly_analysis (d : db) (user_id : Z) (start_date end_date : date)
  : list day_summary * list subject_summary :=
  (with_exercise (daily_data d user_id start_date end_date)
                 (exercise_data d user_id start_date end_date) 0,
   subject_data d user_id start_date end_date).

(** ** get_study_schedule and the Save Study Schedule submit *)

(** A row of the schedule query: day_of_week, subject_name, start_time,
    end_time, session_type, priority. *)
Definition schedule_entry : Type := string * string * string * string * string * Z.

(** CASE ss.day_of_week WHEN 'Monday' THEN 1 ... WHEN 'Sunday' THEN 7 END:
    NULL for any other text. *)
Definition day_rank (day : string) : option Z :=
  if String.eqb day "Monday" then Some 1
  else if String.eqb day "Tuesday" then Some 2
  else if String.eqb day "Wednesday" then Some 3
  else if String.eqb day "Thursday" then Some 4
  else if String.eqb day "Friday" then Some 5
  else if String.eqb day "Saturday" then Some 6
  else if String.eqb day "Sunday" then Some 7
  else None.

(** sqlite sorts NULL before every value. *)
Definition rank_compare (a b : option Z) : comparison :=
  match a, b with
  | None, None => Eq
  | None, Some _ => Lt
  | Some _, None => Gt
  | Some x, Some y => Z.compare x y
  end.

(** The three ORDER BY keys of a slot. *)
Definition schedule_key (ss : StudySchedule.row) : option Z * (Z * string) :=
  (day_rank (StudySchedule.day_of_week ss),
   (StudySchedule.priority ss, StudySchedule.start_time ss)).

Definition key_compare : option Z * (Z * string) -> option Z * (Z * string)
                         -> comparison :=
  lex_cmp rank_compare (lex_cmp Z.compare String.compare).

Definition key_leb (a b : option Z * (Z * string)) : bool :=
  not_gt (key_compare a b).

(** FROM study_schedule ss JOIN subjects s ON ss.subject_id = s.id
    WHERE ss.user_id = ? *)
Definition schedule_join (d : db) (user_id : Z)
  : list (StudySchedule.row * Subject.row) :=
  flat_map
    (fun ss =>
       List.map (fun s => (ss, s))
         (List.filter (fun s => StudySchedule.subject_id ss =? Subject.id s)
            (subjects d)))
    (List.filter (fun ss => StudySchedule.user_id ss =? user_id)
       (study_schedule d)).

Definition schedule_order (a b : StudySchedule.row * Subject.row) : bool :=
  key_leb (schedule_key (fst a)) (schedule_key (fst b)).

Definition schedule_select (j : StudySchedule.row * Subject.row)
  : schedule_entry :=
  let '(ss, s) := j in
  (StudySchedule.day_of_week ss, Subject.subject_name s,
   StudySchedule.start_time ss, StudySchedule.end_time ss,
   StudySchedule.session_type ss, StudySchedule.priority ss).

Definition get_study_schedule (d : db) (user_id : Z) : list schedule_entry :=
  List.map schedule_select (sort_by schedule_order (schedule_join d user_id)).

(** An item of [schedule_data]. *)
Record schedule_item := mk_schedule_item {
  item_day : string;
  item_subject : string;
  item_start_time : string;
  item_end_time : string;
  item_session_type : string
}.

(** 1 if 'Morning' else 2 if 'Afternoon' else 3 *)
Definition priority_of (session_type : string) : Z :=
  if String.eqb session_type "Morning" then 1
  else if String.eqb session_type "Afternoon" then 2
  else 3.

Definition set_study_schedule (d : db) (rows : list StudySchedule.row)
    (seq : Z) : db :=
  mkdb (users d) (users_seq d) (students d) (students_seq d)
       (subjects d) (subjects_seq d) (exercises d) (exercises_seq d)
       (daily_progress d) (daily_progress_seq d) rows seq.

(** The body of [for item in schedule_data]. *)
Definition save_schedule_item (user_id : Z) (d : db) (item : schedule_item)
  : db :=
  if String.eqb (item_subject item) "" then d
  else
    match fetchone
            (List.filter
               (fun s => String.eqb (Subject.subject_name s) (item_subject item)
                         && (Subject.user_id s =? user_id))
               (subjects d)) with
    | None => d
    | Some subject_result =>
        let subject_id := Subject.id subject_result in
        let priority := priority_of (item_session_type item) in
        let rowid :=
          next_rowid (List.map StudySchedule.id (study_schedule d))
                     (study_schedule_seq d) in
        set_study_schedule d
          (study_schedule d ++
           [StudySchedule.mk rowid user_id (item_day item) subject_id
              (item_start_time item) (item_end_time item)
              (item_session_type item) priority])
          rowid
    end.

(** The submit handler: DELETE FROM study_schedule WHERE user_id = ?, then
    one INSERT per item whose subject resolves. *)
Definition save_study_schedule (d : db) (user_id : Z)
    (schedule_data : list schedule_item) : db :=
  let cleared :=
    set_study_schedule d
      (List.filter (fun ss => negb (StudySchedule.user_id ss =? user_id))
         (study_schedule d))
      (study_schedule_seq d) in
  fold_left (save_schedule_item user_id) schedule_data cleared.

(** ** The Manage Subjects page *)

Definition set_subjects (d : db) (rows : list Subject.row) (seq : Z) : db :=
  mkdb (users d) (users_seq d) (students d) (students_seq d)
       rows seq (exercises d) (exercises_seq d)
       (daily_progress d) (daily_progress_seq d)
       (study_schedule d) (study_schedule_seq d).

(** What a subject form holds when it is submitted. *)
Record subject_form := mk_subject_form {
  form_subject_name : string;
  form_weightage : Q;
  form_target_total_hours : Q;
  form_daily_lecture_hours : Q;
  form_daily_question_hours : Q;
  form_difficulty : string;
  form_target_date : date
}.

(** What the handler shows: [st.error], [st.success], or nothing. *)
Inductive feedback :=
  | Error (msg : string)
  | Success (msg : string)
  | Nothing.

Definition insert_subject (d : db) (user_id : Z) (f : subject_form) : db :=
  let rowid := next_rowid (List.map Subject.id (subjects d)) (subjects_seq d) in
  set_subjects d
    (subjects d ++
     [Subject.mk rowid user_id (form_subject_name f) (form_weightage f)
        (form_target_total_hours f) (form_daily_lecture_hours f)
        (form_daily_question_hours f) (form_difficulty f) (form_target_date f)])
    rowid.

(** [if submitted and subject_name:] of the Add New Subject form. *)
Definition add_new_subject (d : db) (user_id : Z) (f : subject_form)
  : db * feedback :=
  let subject_name := form_subject_name f in
  if String.eqb subject_name "" then (d, Nothing)
  else
    let count :=
      Z.of_nat
        (length
           (List.filter
              (fun s => (Subject.user_id s =? user_id)
                        && String.eqb (Subject.subject_name s) subject_name)
              (subjects d))) in
    if 0 <? count
    then (d, Error ("❌ Subject '" ++ subject_name ++ "' already exists!"))
    else (insert_subject d user_id f,
          Success ("✅ Subject '" ++ subject_name ++ "' added successfully!")).

(** [if submitted and subject_name:] of the Add First Subject form. *)
Definition add_first_subject (d : db) (user_id : Z) (f : subject_form)
  : db * feedback :=
  let subject_name := form_subject_name f in
  if String.eqb subject_name "" then (d, Nothing)
  else (insert_subject d user_id f,
        Success ("✅ Subject '" ++ subject_name ++ "' added successfully!")).

(** [if save_changes:] UPDATE subjects SET ... WHERE id = ? AND user_id = ? *)
Definition save_changes (d : db) (user_id sub_id : Z) (f : subject_form)
  : db * feedback :=
  (set_subjects d
     (List.map
        (fun s =>
           if (Subject.id s =? sub_id) && (Subject.user_id s =? user_id)
           then Subject.mk (Subject.id s) (Subject.user_id s)
                  (form_subject_name f) (form_weightage f)
                  (form_target_total_hours f) (form_daily_lecture_hours f)
                  (form_daily_question_hours f) (form_difficulty f)
                  (form_target_date f)
           else s)
        (subjects d))
     (subjects_seq d),
   Success "✅ Subject updated successfully!").

(** [if delete_subject:] DELETE FROM subjects WHERE id = ? AND user_id = ? *)
Definition delete_subject (d : db) (user_id sub_id : Z) : db * feedback :=
  (set_subjects d
     (List.filter
        (fun s => negb ((Subject.id s =? sub_id) && (Subject.user_id s =? user_id)))
        (subjects d))
     (subjects_seq d),
   Success "✅ Subject deleted successfully!").

(** The buttons of the page. *)
Inductive subject_action :=
  | SaveChanges (sub_id : Z) (f : subject_form)
  | DeleteSubject (sub_id : Z)
  | AddNewSubject (f : subject_form)
  | AddFirstSubject (f : subject_form).

(** The page renders the edit forms (one per existing subject) and the Add
    New Subject form when the user has subjects, and only the Add First
    Subject form when there is none; a button that is not rendered cannot
    be pressed. *)
Definition manage_subjects (d : db) (user_id : Z) (a : subject_action)
  : db * feedback :=
  let existing_subjects := subjects_of d user_id in
  match existing_subjects, a with
  | [], AddFirstSubject f => add_first_subject d user_id f
  | [], _ => (d, Nothing)
  | _ :: _, SaveChanges sub_id f =>
      if existsb (fun s => Subject.id s =? sub_id) existing_subjects
      then save_changes d user_id sub_id f else (d, Nothing)
  | _ :: _, DeleteSubject sub_id =>
      if existsb (fun s => Subject.id s =? sub_id) existing_subjects
      then delete_subject d user_id sub_id else (d, Nothing)
  | _ :: _, AddNewSubject f => add_new_subject d user_id f
  | _ :: _, AddFirstSubject _ => (d, Nothing)
  end.

(** ** The Daily Entry submit *)

Definition set_daily_progress (d : db) (rows : list DailyProgress.row)
    (seq : Z) : db :=
  mkdb (users d) (users_seq d) (students d) (students_seq d)
       (subjects d) (subjects_seq d) (exercises d) (exercises_seq d)
       rows seq (study_schedule d) (study_schedule_seq d).

(** The ten values bound to one INSERT OR REPLACE INTO daily_progress. *)
Record progress_values := mk_progress_values {
  v_user_id : Z;
  v_subject_id : Z;
  v_date : date;
  v_lecture_hours_actual : Q;
  v_question_hours_actual : Q;
  v_questions_solved : Z;
  v_exercise_done : bool;
  v_exercise_minutes : Z;
  v_mood : string;
  v_notes : string
}.

(** UNIQUE(user_id, subject_id, date) *)
Definition same_key (v : progress_values) (r : DailyProgress.row) : bool :=
  (DailyProgress.user_id r =? v_user_id v)
  && (DailyProgress.subject_id r =? v_subject_id v)
  && (DailyProgress.date r =? v_date v).

(** The row the statement writes: the ten bound values under [rowid]. *)
Definition row_of (rowid : Z) (v : progress_values) : DailyProgress.row :=
  DailyProgress.mk rowid (v_user_id v) (v_subject_id v) (v_date v)
    (v_lecture_hours_actual v) (v_question_hours_actual v)
    (v_questions_solved v) (v_exercise_done v) (v_exercise_minutes v)
    (v_mood v) (v_notes v).

(** INSERT OR REPLACE: the rows that would violate the UNIQUE constraint
    are deleted, then the new row is inserted under a fresh rowid. *)
Definition insert_or_replace (d : db) (v : progress_values) : db :=
  let rowid :=
    next_rowid (List.map DailyProgress.id (daily_progress d))
               (daily_progress_seq d) in
  set_daily_progress d
    (List.filter (fun r => negb (same_key v r)) (daily_progress d)
     ++ [row_of rowid v])
    rowid.

(** An item of the form's [daily_data]. *)
Record subject_entry := mk_subject_entry {
  entry_subject_id : Z;
  entry_lecture_hours : Q;
  entry_question_hours : Q;
  entry_questions_solved : Z
}.

(** [if submitted:] one INSERT OR REPLACE per subject of the form, each
    carrying the day's exercise, mood and notes. *)
Definition save_daily_entry (d : db) (user_id : Z) (entry_date : date)
    (daily_data : list subject_entry) (exercise_done : bool)
    (exercise_minutes : Z) (mood notes : string) : db :=
  fold_left
    (fun d data =>
       insert_or_replace d
         (mk_progress_values user_id (entry_subject_id data) entry_date
            (entry_lecture_hours data) (entry_question_hours data)
            (entry_questions_solved data)
            exercise_done exercise_minutes mood notes))
    daily_data d.

(** ** Authentication *)

Section Authentication.

(** [hashlib.sha256(b).hexdigest()] *)
Variable sha256_hexdigest : string -> string.

Definition hash_password (password : string) : string :=
  sha256_hexdigest password.

Definition verify_password (stored_password provided_password : string)
  : bool :=
  String.eqb stored_password (hash_password provided_password).

Definition set_users_students (d : db) (us : list User.row) (useq : Z)
    (sts : list Student.row) (sseq : Z) : db :=
  mkdb us useq sts sseq
       (subjects d) (subjects_seq d) (exercises d) (exercises_seq d)
       (daily_progress d) (daily_progress_seq d)
       (study_schedule d) (study_schedule_seq d).

(** SELECT ... FROM users WHERE username = ? *)
Definition users_named (d : db) (username : string) : list User.row :=
  List.filter (fun u => String.eqb (User.username u) username) (users d).

(** No statement of the [try] block raises on a store of this shape, so
    the [except] branch ("Registration failed: ...") has no counterpart. *)
Definition register_user (d : db) (username password name email phone : string)
  : db * (bool * string) :=
  match fetchone (users_named d username) with
  | Some _ => (d, (false, "Username already exists"))
  | None =>
      let hashed_password := hash_password password in
      let user_id := next_rowid (List.map User.id (users d)) (users_seq d) in
      let student_id :=
        next_rowid (List.map Student.id (students d)) (students_seq d) in
      (set_users_students d
         (users d ++ [User.mk user_id username hashed_password name email phone])
         user_id
         (students d ++
          [Student.mk student_id user_id name None email phone 6 "07:00" "23:00"])
         student_id,
       (true, "Registration successful"))
  end.

(** The dictionary a successful login returns. *)
Record session := mk_session {
  session_user_id : Z;
  session_student_id : option Z;
  session_username : string;
  session_name : string
}.

(** The second component of the pair [login_user] returns. *)
Inductive login_payload :=
  | Message (msg : string)
  | Identity (s : session).

Definition login_user (d : db) (username password : string)
  : bool * login_payload :=
  match fetchone (users_named d username) with
  | None => (false, Message "Invalid username or password")
  | Some user =>
      let user_id := User.id user in
      let stored_password := User.password user in
      let name := User.name user in
      if verify_password stored_password password then
        let student_result :=
          fetchone
            (List.filter (fun st => Student.user_id st =? user_id) (students d)) in
        let student_id :=
          match student_result with
          | Some st => Some (Student.id st)
          | None => None
          end in
        (true, Identity (mk_session user_id student_id username name))
      else (false, Message "Invalid username or password")
  end.

End Authentication.

(** ** repair_database

    The repair acts on the shape of the database file, not on its rows:
    [sqlite_master] as a map from the name of a table to the names of its
    columns, in the order PRAGMA table_info lists them. *)

Definition ascii_lower (c : ascii) : ascii :=
  let n := N_of_ascii c in
  if ((65 <=? n) && (n <=? 90))%N then ascii_of_N (n + 32) else c.

Fixpoint lower (s : string) : string :=
  match s with
  | EmptyString => EmptyString
  | String c s' => String (ascii_lower c) (lower s')
  end.

(** sqlite compares column names without regard to ASCII case. *)
Definition has_column (columns : list string) (column_name : string) : bool :=
  existsb (fun c => String.eqb (lower c) (lower column_name)) columns.

(** The double quote of the column types below. *)
Definition dq : string := String (ascii_of_nat 34) EmptyString.

Definition tables_to_repair : list (string * list (string * string)) :=
  [("students",
    [("user_id", "INTEGER DEFAULT 1");
     ("target_study_hours", "INTEGER DEFAULT 6");
     ("wakeup_time", "TEXT DEFAULT " ++ dq ++ "07:00" ++ dq);
     ("bedtime", "TEXT DEFAULT " ++ dq ++ "23:00" ++ dq);
     ("photo", "TEXT");
     ("email", "TEXT");
     ("phone", "TEXT")]);
   ("subjects",
    [("user_id", "INTEGER DEFAULT 1");
     ("weightage", "FLOAT DEFAULT 1.0");
     ("target_total_hours", "FLOAT DEFAULT 100.0");
     ("daily_lecture_hours", "FLOAT DEFAULT 2.0");
     ("daily_question_hours", "FLOAT DEFAULT 1.0");
     ("difficulty", "TEXT DEFAULT " ++ dq ++ "Medium" ++ dq);
     ("target_completion_date", "DATE");
     ("created_at", "TIMESTAMP DEFAULT CURRENT_TIMESTAMP")]);
   ("exercises",
    [("user_id", "INTEGER DEFAULT 1");
     ("duration_minutes", "INTEGER DEFAULT 30");
     ("intensity", "TEXT DEFAULT " ++ dq ++ "Moderate" ++ dq);
     ("notes", "TEXT");
     ("created_at", "TIMESTAMP DEFAULT CURRENT_TIMESTAMP")]);
   ("daily_progress",
    [("user_id", "INTEGER DEFAULT 1");
     ("mood", "TEXT DEFAULT " ++ dq ++ "🙂 Good" ++ dq);
     ("notes", "TEXT");
     ("created_at", "TIMESTAMP DEFAULT CURRENT_TIMESTAMP")]);
   ("study_schedule",
    [("user_id", "INTEGER DEFAULT 1");
     ("priority", "INTEGER DEFAULT 1");
     ("created_at", "TIMESTAMP DEFAULT CURRENT_TIMESTAMP")])].

Section Repair.

(** The reasons sqlite has to refuse ALTER TABLE t ADD COLUMN c ty other
    than a column of that name: they depend on the statement and on the
    rows of the table (a default that is not constant on a table that has
    rows), which the repair does not change. *)
Variable alter_refused : string -> string -> string -> bool.

(** ALTER TABLE table_name ADD COLUMN column_name column_type: [None] is
    sqlite3.OperationalError. *)
Definition alter_add_column (table_name : string) (columns : list string)
    (column_name column_type : string) : option (list string) :=
  if has_column columns column_name
     || alter_refused table_name column_name column_type
  then None
  else Some (columns ++ [column_name])%list.

(** The body of [for column_name, column_type in columns]: the state is
    the table as it is now and [repairs_made]; [existing_columns] was read
    before the loop. *)
Definition repair_column (table_name : string)
    (existing_columns : list string)
    (st : list string * list string) (column : string * string)
  : list string * list string :=
  let '(live, repairs_made) := st in
  let '(column_name, column_type) := column in
  if existsb (String.eqb column_name) existing_columns then st
  else
    match alter_add_column table_name live column_name column_type with
    | Some live' =>
        (live',
         (repairs_made
          ++ [("Added " ++ column_name ++ " to " ++ table_name)%string])%list)
    | None => st
    end.

(** The body of [for table_name, columns in tables_to_repair.items()]. *)
Definition repair_table
    (st : gmap string (list string) * list string)
    (entry : string * list (string * string))
  : gmap string (list string) * list string :=
  let '(schema, repairs_made) := st in
  let '(table_name, columns) := entry in
  match schema !! table_name with
  | None => st
  | Some existing_columns =>
      let '(live, repairs_made') :=
        fold_left (repair_column table_name existing_columns) columns
          (existing_columns, repairs_made) in
      (<[table_name := live]> schema, repairs_made')
  end.

(** Returns the repaired file and [repairs_made], the lines the sidebar
    shows. *)
Definition repair_database (schema : gmap string (list string))
  : gmap string (list string) * list string :=
  fold_left repair_table tables_to_repair (schema, []).

(** A required column needs no further attempt on a table whose columns
    are [columns]: the table has it, or sqlite refuses to add it. *)
Definition column_settled (table_name : string) (columns : list string)
    (column : string * string) : Prop :=
  has_column columns (fst column)
  || alter_refused table_name (fst column) (snd column) = true.

Definition table_settled (schema : gmap string (list string))
    (entry : string * list (string * string)) : Prop :=
  forall existing_columns,
    schema !! fst entry = Some existing_columns ->
    Forall (column_settled (fst entry) existing_columns) (snd entry).

End Repair.

(** ** A small store, built with the writers above

    One user, two subjects, one day of progress and a two-slot schedule. *)

(** A stand-in digest for the examples. *)
Definition sample_digest (s : string) : string := "sha256:" ++ s.

Definition mathematics : subject_form :=
  mk_subject_form "Mathematics" 1 100 2 1 "Medium" 739030.

Definition physics : subject_form :=
  mk_subject_form "Physics" (3 # 2) 100 2 1 "Hard" 739030.

Definition store_registered : db :=
  fst (register_user sample_digest empty_db "ann" "secret" "Ann"
         "ann@example.org" "555-0100").

Definition store_one_subject : db :=
  fst (manage_subjects store_registered 1 (AddFirstSubject mathematics)).

Definition store_two_subjects : db :=
  fst (manage_subjects store_one_subject 1 (AddNewSubject physics)).

Definition store_one_day : db :=
  save_daily_entry store_two_subjects 1 739000
    [mk_subject_entry 1 2 1 5] true 30 "🙂 Good" "".

Definition monday_morning : schedule_item :=
  mk_schedule_item "Monday" "Mathematics" "09:00" "11:00" "Morning".

Definition monday_evening : schedule_item :=
  mk_schedule_item "Monday" "Physics" "18:00" "20:00" "Evening".

Definition store_scheduled : db :=
  save_study_schedule store_one_day 1 [monday_morning; monday_evening].

(** ** The order of the schedule, on the rows returned

    An entry may stand before another when the rank of its day is smaller,
    or the ranks are the same and its priority is smaller, or those are the
    same too and its start time is not later.  The ranks are those of the
    query; the properties below state the order against the names of the
    weekdays themselves. *)

Definition entry_key (e : schedule_entry) : option Z * (Z * string) :=
  let '(day_of_week, _, start_time, _, _, priority) := e in
  (day_rank day_of_week, (priority, start_time)).

Definition schedule_le (a b : schedule_entry) : Prop :=
  let '(day_a, (priority_a, start_a)) := entry_key a in
  let '(day_b, (priority_b, start_b)) := entry_key b in
  rank_compare day_a day_b = Lt
  \/ (day_a = day_b
      /\ (priority_a < priority_b
          \/ (priority_a = priority_b /\ String.leb start_a start_b = true))).

(** What makes a three-way comparison a total order. *)
Definition cmp_order {A : Type} (cmp : A -> A -> comparison) : Prop :=
  (forall a b, cmp a b = Eq <-> a = b)
  /\ (forall a b, cmp b a = CompOpp (cmp a b))
  /\ (forall a b c, cmp a b = Lt -> cmp b c = Lt -> cmp a c = Lt).

(** ** Invariants of the store *)

(** Every logged hour is at least 0: the Daily Entry form reads both hours
    through number inputs whose [min_value] is 0.0. *)
Definition hours_nonneg (d : db) : Prop :=
  Forall (fun r => (0 <= DailyProgress.lecture_hours_actual r)%Q
                   /\ (0 <= DailyProgress.question_hours_actual r)%Q)
    (daily_progress d).

(** No two subjects of the user have the same name. *)
Definition names_unique (d : db) (user_id : Z) : Prop :=
  List.NoDup
    (List.map Subject.subject_name
       (List.filter (fun s => Subject.user_id s =? user_id) (subjects d))).

(** [id] is the PRIMARY KEY of subjects. *)
Definition subject_ids_unique (d : db) : Prop :=
  List.NoDup (List.map Subject.id (subjects d)).

(** ** The lookups of the pages *)

(** The dictionary [get_existing_progress_data] returns. *)
Record existing_progress := mk_existing_progress {
  ep_lecture_hours : Q;
  ep_question_hours : Q;
  ep_questions_solved : Z;
  ep_exercise_done : bool;
  ep_exercise_minutes : Z;
  ep_mood : string;
  ep_notes : string
}.

(** [s or default] on text: the empty string is falsy. *)
Definition or_text (s default : string) : string :=
  if String.eqb s "" then default else s.

Definition get_existing_progress_data (d : db) (user_id subject_id : Z)
    (entry_date : date) : option existing_progress :=
  match fetchone (progress_on d user_id subject_id entry_date) with
  | Some result =>
      Some (mk_existing_progress
              (or_zero_Q (Some (DailyProgress.lecture_hours_actual result)))
              (or_zero_Q (Some (DailyProgress.question_hours_actual result)))
              (DailyProgress.questions_solved result)
              (DailyProgress.exercise_done result)
              (DailyProgress.exercise_minutes result)
              (or_text (DailyProgress.mood result) "🙂 Good")
              (DailyProgress.notes result))
  | None => None
  end.

(** SELECT COUNT( * ) FROM t WHERE user_id = ? *)
Definition check_user_profile_exists (d : db) (user_id : Z) : bool :=
  0 <? Z.of_nat
         (length (List.filter (fun st => Student.user_id st =? user_id)
                    (students d))).

Definition check_user_subjects_exist (d : db) (user_id : Z) : bool :=
  0 <? Z.of_nat
         (length (List.filter (fun s => Subject.user_id s =? user_id)
                    (subjects d))).

Definition check_user_exercises_exist (d : db) (user_id : Z) : bool :=
  0 <? Z.of_nat
         (length (List.filter (fun e => Exercise.user_id e =? user_id)
                    (exercises d))).

(** The dictionary [get_user_profile] returns. *)
Record profile := mk_profile {
  profile_student_id : Z;
  profile_name : string;
  profile_photo : option string;
  profile_email : string;
  profile_phone : string;
  profile_target_study_hours : Z;
  profile_wakeup_time : string;
  profile_bedtime : string
}.

Definition get_user_profile (d : db) (user_id : Z) : option profile :=
  match fetchone
          (List.filter (fun st => Student.user_id st =? user_id) (students d)) with
  | Some result =>
      Some (mk_profile (Student.id result) (Student.name result)
              (Student.photo result) (Student.email result)
              (Student.phone result) (Student.target_study_hours result)
              (Student.wakeup_time result) (Student.bedtime result))
  | None => None
  end.

(** [if result and result[0]: return result[0]]: a NULL or empty photo is
    no photo. *)
Definition get_student_photo (d : db) (user_id : Z) : option string :=
  match fetchone
          (List.filter (fun st => Student.user_id st =? user_id) (students d)) with
  | Some result =>
      match Student.photo result with
      | Some photo => if String.eqb photo "" then None else Some photo
      | None => None
      end
  | None => None
  end.

(** ** The Login and Register forms *)

(** [len(s)] counts code points: the bytes of the UTF-8 text that do not
    continue a character. *)
Fixpoint py_len (s : string) : Z :=
  match s with
  | EmptyString => 0
  | String c s' =>
      let n := N_of_ascii c in
      (if ((128 <=? n) && (n <? 192))%N then 0 else 1) + py_len s'
  end.

(** The pages a login can open. *)
Inductive page :=
  | Dashboard
  | CompleteProfile.

(** What the Login submit leaves on the screen and in the session state:
    an error, or the identity and the page to show next. *)
Inductive login_outcome :=
  | LoginError (msg : string)
  | LoggedIn (current_user : string) (current_user_id : Z)
             (current_student_id : option Z) (current_page : page)
             (welcome : string).

Section Forms.

Variable sha256_hexdigest : string -> string.

(** [if login_submitted:].  [login_user] returns a dictionary with True
    and a message with False; the two other pairs do not occur. *)
Definition login_submit (d : db) (username password : string) : login_outcome :=
  if String.eqb username "" || String.eqb password ""
  then LoginError "Please enter both username and password"
  else
    match login_user sha256_hexdigest d username password with
    | (true, Identity result) =>
        LoggedIn (session_username result) (session_user_id result)
          (session_student_id result)
          (if check_user_profile_exists d (session_user_id result)
           then Dashboard else CompleteProfile)
          ("Welcome back, " ++ session_name result ++ "!")
    | (true, Message result) => LoginError result
    | (false, Message result) => LoginError result
    | (false, Identity _) => LoginError ""
    end.

(** [if register_submitted:] *)
Definition register_submit (d : db)
    (reg_username reg_password confirm_password reg_name reg_email reg_phone
       : string) : db * feedback :=
  if String.eqb reg_username "" || String.eqb reg_password ""
     || String.eqb reg_name ""
  then (d, Error "Please fill all required fields (*)")
  else if negb (String.eqb reg_password confirm_password)
  then (d, Error "Passwords do not match")
  else if py_len reg_password <? 6
  then (d, Error "Password must be at least 6 characters long")
  else
    let '(d', (success, message)) :=
      register_user sha256_hexdigest d reg_username reg_password reg_name
        reg_email reg_phone in
    if success
    then (d', Success "Registration successful! Please login.")
    else (d', Error message).

End Forms.

(** ** The Complete Profile and Edit Profile pages *)

Definition set_students (d : db) (rows : list Student.row) (seq : Z) : db :=
  mkdb (users d) (users_seq d) rows seq
       (subjects d) (subjects_seq d) (exercises d) (exercises_seq d)
       (daily_progress d) (daily_progress_seq d)
       (study_schedule d) (study_schedule_seq d).

(** What a profile form holds when it is submitted: the times are the
    ["%H:%M"] text of the time inputs, the photo is [photo_base64]. *)
Record profile_form := mk_profile_form {
  pf_name : string;
  pf_photo : option string;
  pf_email : string;
  pf_phone : string;
  pf_target_study_hours : Z;
  pf_wakeup_time : string;
  pf_bedtime : string
}.

(** UPDATE students SET name = ?, photo = ?, ... WHERE user_id = ? *)
Definition update_students (d : db) (user_id : Z) (f : profile_form) : db :=
  set_students d
    (List.map
       (fun st =>
          if Student.user_id st =? user_id
          then Student.mk (Student.id st) (Student.user_id st) (pf_name f)
                 (pf_photo f) (pf_email f) (pf_phone f)
                 (pf_target_study_hours f) (pf_wakeup_time f) (pf_bedtime f)
          else st)
       (students d))
    (students_seq d).

(** INSERT INTO students (user_id, name, photo, ...) VALUES (...) *)
Definition insert_student (d : db) (user_id : Z) (f : profile_form) : db :=
  let rowid := next_rowid (List.map Student.id (students d)) (students_seq d) in
  set_students d
    (students d ++
     [Student.mk rowid user_id (pf_name f) (pf_photo f) (pf_email f)
        (pf_phone f) (pf_target_study_hours f) (pf_wakeup_time f)
        (pf_bedtime f)])
    rowid.

(** Save Profile of the Complete Profile page: the store, the message, and
    the [current_student_id] it puts in the session state. *)
Definition save_profile (d : db) (user_id : Z) (f : profile_form)
  : db * feedback * option Z :=
  if String.eqb (pf_name f) "" then (d, Error "Name is required!", None)
  else
    let d' :=
      match get_user_profile d user_id with
      | Some _ => update_students d user_id f
      | None => insert_student d user_id f
      end in
    let student_id :=
      match fetchone
              (List.filter (fun st => Student.user_id st =? user_id)
                 (students d')) with
      | Some st => Some (Student.id st)
      | None => None
      end in
    (d', Success "✅ Profile saved successfully!", student_id).

(** Update Profile of the Edit Profile page, which is rendered only when
    the user has a profile. *)
Definition update_profile (d : db) (user_id : Z) (f : profile_form)
  : db * feedback :=
  match get_user_profile d user_id with
  | None => (d, Nothing)
  | Some _ =>
      if String.eqb (pf_name f) "" then (d, Error "Name is required!")
      else (update_students d user_id f,
            Success "✅ Profile updated successfully!")
  end.


(** ** The Exercise Routine page *)

Definition set_exercises (d : db) (rows : list Exercise.row) (seq : Z) : db :=
  mkdb (users d) (users_seq d) (students d) (students_seq d)
       (subjects d) (subjects_seq d) rows seq
       (daily_progress d) (daily_progress_seq d)
       (study_schedule d) (study_schedule_seq d).

(** What an exercise form holds when it is submitted. *)
Record exercise_form := mk_exercise_form {
  xf_exercise_type : string;
  xf_day_of_week : string;
  xf_duration : Z;
  xf_intensity : string;
  xf_notes : string
}.

(** SELECT id, exercise_type, ... FROM exercises WHERE user_id = ?
    ORDER BY CASE day_of_week WHEN 'Monday' THEN 1 ... END *)
Definition existing_exercises (d : db) (user_id : Z) : list Exercise.row :=
  sort_by
    (fun a b =>
       not_gt (rank_compare (day_rank (Exercise.day_of_week a))
                            (day_rank (Exercise.day_of_week b))))
    (List.filter (fun e => Exercise.user_id e =? user_id) (exercises d)).

(** [if submitted and exercise_type:] of the two Add Exercise forms. *)
Definition add_exercise (d : db) (user_id : Z) (f : exercise_form)
  : db * feedback :=
  if String.eqb (xf_exercise_type f) "" then (d, Nothing)
  else
    let rowid :=
      next_rowid (List.map Exercise.id (exercises d)) (exercises_seq d) in
    (set_exercises d
       (exercises d ++
        [Exercise.mk rowid user_id (xf_exercise_type f) (xf_day_of_week f)
           (xf_duration f) (xf_intensity f) (xf_notes f)])
       rowid,
     Success ("✅ " ++ xf_exercise_type f ++ " added for "
              ++ xf_day_of_week f ++ "!")).

(** UPDATE exercises SET ... WHERE id = ? AND user_id = ? *)
Definition update_exercise (d : db) (user_id ex_id : Z) (f : exercise_form)
  : db * feedback :=
  (set_exercises d
     (List.map
        (fun e =>
           if (Exercise.id e =? ex_id) && (Exercise.user_id e =? user_id)
           then Exercise.mk (Exercise.id e) (Exercise.user_id e)
                  (xf_exercise_type f) (xf_day_of_week f) (xf_duration f)
                  (xf_intensity f) (xf_notes f)
           else e)
        (exercises d))
     (exercises_seq d),
   Success "✅ Exercise updated successfully!").

(** DELETE FROM exercises WHERE id = ? AND user_id = ? *)
Definition delete_exercise (d : db) (user_id ex_id : Z) : db * feedback :=
  (set_exercises d
     (List.filter
        (fun e => negb ((Exercise.id e =? ex_id) && (Exercise.user_id e =? user_id)))
        (exercises d))
     (exercises_seq d),
   Success "✅ Exercise deleted successfully!").

(** ** The Daily Entry form *)

(** The form has three number inputs per subject of the user, keyed by the
    subject's id; [entered] is what they hold at the submit.  The minutes
    input is there only when the exercise box is ticked. *)
Definition daily_data_of (d : db) (user_id : Z) (entered : Z -> Q * Q * Z)
  : list subject_entry :=
  List.map
    (fun s =>
       let '(lecture_hours, question_hours, questions_solved) :=
         entered (Subject.id s) in
       mk_subject_entry (Subject.id s) lecture_hours question_hours
         questions_solved)
    (subjects_of d user_id).

Definition submit_daily_entry (d : db) (user_id : Z) (entry_date : date)
    (entered : Z -> Q * Q * Z) (exercise_done : bool) (minutes_input : Z)
    (mood notes : string) : db :=
  let exercise_minutes := if exercise_done then minutes_input else 0 in
  save_daily_entry d user_id entry_date (daily_data_of d user_id entered)
    exercise_done exercise_minutes mood notes.

(** ** The Daily Report page *)

(** [(actual / target * 100) if target > 0 else 0] *)
Definition achievement (actual target : Q) : Q :=
  if Qlt_bool 0 target then (actual / target * 100)%Q else 0%Q.

(** The argument of [st.progress]: [min(percent/100, 1.0)]. *)
Definition progress_value (percent : Q) : Q := py_min (percent / 100) 1.

(** [(questions_val / actual_question_val) if actual_question_val > 0 else 0] *)
Definition efficiency (questions_val : Z) (actual_question_val : Q) : Q :=
  if Qlt_bool 0 actual_question_val
  then (inject_Z questions_val / actual_question_val)%Q else 0%Q.

(** [x if x is not None else 0] *)
Definition value_or_zero_Q (o : option Q) : Q :=
  match o with
  | Some q => q
  | None => 0%Q
  end.

(** What the page shows for one subject of the report. *)
Record subject_card := mk_subject_card {
  card_lecture_percent : Q;
  card_lecture_bar : Q;
  card_question_percent : Q;
  card_question_bar : Q;
  card_questions : Z;
  card_efficiency : Q
}.

Definition subject_card_of (s : subject_progress) : subject_card :=
  let actual_lecture_val := value_or_zero_Q (sp_lecture_actual s) in
  let actual_question_val := value_or_zero_Q (sp_question_actual s) in
  let questions_val := or_zero_Z (sp_questions_solved s) in
  let lecture_percent := achievement actual_lecture_val (sp_daily_lecture s) in
  let question_percent := achievement actual_question_val (sp_daily_question s) in
  mk_subject_card lecture_percent (progress_value lecture_percent)
    question_percent (progress_value question_percent)
    questions_val (efficiency questions_val actual_question_val).



(** ** Invariants of the writers *)

(** [username] is UNIQUE in users. *)
Definition usernames_unique (d : db) : Prop :=
  List.NoDup (List.map User.username (users d)).

(** The rowids of a table are distinct and none exceeds the table's
    AUTOINCREMENT counter. *)
Definition rowids_ok (ids : list Z) (seq : Z) : Prop :=
  List.NoDup ids /\ Forall (fun i => i <= seq) ids.

(** UNIQUE(user_id, subject_id, date) *)
Definition progress_key (r : DailyProgress.row) : Z * Z * date :=
  (DailyProgress.user_id r, DailyProgress.subject_id r, DailyProgress.date r).

Definition progress_keys_unique (d : db) : Prop :=
  List.NoDup (List.map progress_key (daily_progress d)).

(** The columns of a slot but its rowid. *)
Definition slot_values (ss : StudySchedule.row)
  : Z * string * Z * string * string * string * Z :=
  (StudySchedule.user_id ss, StudySchedule.day_of_week ss,
   StudySchedule.subject_id ss, StudySchedule.start_time ss,
   StudySchedule.end_time ss, StudySchedule.session_type ss,
   StudySchedule.priority ss).


(** The number of columns of a table of the file, 0 when it has no such
    table. *)
Definition column_count (schema : gmap string (list string)) (t : string)
  : nat :=
  match schema !! t with
  | Some cols => length cols
  | None => 0%nat
  end.


(** ** More sample stores and a sample file *)

(** The store after an entry for the second of two days only, with the
    exercise box ticked. *)
Definition store_second_day : db :=
  submit_daily_entry store_two_subjects 1 739001
    (fun _ => (2%Q, 1%Q, 5)) true 30 "🙂 Good" "".

Definition sample_profile : profile_form :=
  mk_profile_form "Ann B." None "ann@example.org" "555-0100" 8 "06:30" "22:30".

Definition morning_run : exercise_form :=
  mk_exercise_form "Running" "Wednesday" 30 "Moderate" "".

(** A file of an older version: a students table with two columns. *)
Definition legacy_schema : gmap string (list string) :=
  <["students" := ["id"; "name"]]> ∅.

(** sqlite refusing the columns whose default is CURRENT_TIMESTAMP. *)
Definition refuse_created_at (table_name column_name column_type : string)
  : bool :=
  String.eqb column_name "created_at".


(** A tuple of a report: 5 lecture hours against a target of 2, and
    questions solved without question hours. *)
Definition over_target : subject_progress :=
  mk_subject_progress 1 "Mathematics" 2 1 (Some 5%Q) None (Some 12)
    (Some true) (Some 30) (Some "🙂 Good") (Some "").


(** ** The items of a schedule form that leave a slot *)

(** The item names a subject of the user: its subject box is not left
    empty, and the user has a subject of that name. *)
Definition item_resolves (d : db) (user_id : Z) (item : schedule_item) : bool :=
  negb (String.eqb (item_subject item) "")
  && existsb
       (fun s => String.eqb (Subject.subject_name s) (item_subject item)
                 && (Subject.user_id s =? user_id))
       (subjects d).

(** The row of the schedule query that the slot of an item gives. *)
Definition item_entry (item : schedule_item) : schedule_entry :=
  (item_day item, item_subject item, item_start_time item,
   item_end_time item, item_session_type item,
   priority_of (item_session_type item)).

(** A form filled in from Sunday back to Monday, and one naming a subject
    the user does not have. *)
Definition week_backwards : list schedule_item :=
  [mk_schedule_item "Sunday" "Mathematics" "09:00" "11:00" "Morning";
   mk_schedule_item "Saturday" "Physics" "14:00" "16:00" "Afternoon";
   mk_schedule_item "Friday" "Mathematics" "18:00" "20:00" "Evening";
   mk_schedule_item "Thursday" "Physics" "09:00" "11:00" "Morning";
   mk_schedule_item "Wednesday" "Mathematics" "14:00" "16:00" "Afternoon";
   mk_schedule_item "Tuesday" "Physics" "18:00" "20:00" "Evening";
   mk_schedule_item "Monday" "Mathematics" "18:00" "20:00" "Evening"].

Definition monday_chemistry : schedule_item :=
  mk_schedule_item "Monday" "Chemistry" "14:00" "16:00" "Afternoon".

(** The store after Running has been added for every day of the week, from
    Sunday back to Monday. *)
Definition store_exercised : db :=
  fold_left
    (fun d day =>
       fst (add_exercise d 1 (mk_exercise_form "Running" day 30 "Moderate" "")))
    ["Sunday"; "Saturday"; "Friday"; "Thursday"; "Wednesday"; "Tuesday";
     "Monday"]
    store_one_day.

(** * Properties *)

(** ** Arithmetic of the aggregates *)

Lemma Qlt_bool_iff (a b : Q) : Qlt_bool a b = true <-> (a < b)%Q.
Proof.
  unfold Qlt_bool. rewrite negb_true_iff.
  split; intros H.
  - apply Qnot_le_lt. intros Hle. apply Qle_bool_iff in Hle. congruence.
  - destruct (Qle_bool b a) eqn:E; [|reflexivity].
    apply Qle_bool_iff in E. exfalso. exact (Qlt_not_le _ _ H E).
Qed.

Lemma Qlt_bool_false (a b : Q) : Qlt_bool a b = false <-> (b <= a)%Q.
Proof.
  unfold Qlt_bool. rewrite negb_false_iff. apply Qle_bool_iff.
Qed.




Lemma py_min_le_r (a b : Q) : (py_min a b <= b)%Q.
Proof.
  unfold py_min. destruct (Qlt_bool b a) eqn:E.
  - apply Qle_refl.
  - apply Qlt_bool_false in E. exact E.
Qed.

Lemma py_min_nonneg (a b : Q) : (0 <= a)%Q -> (0 <= b)%Q -> (0 <= py_min a b)%Q.
Proof. unfold py_min. destruct (Qlt_bool b a); auto. Qed.


Lemma percent_nonneg (total target : Q) :
  (0 <= total)%Q -> (0 < target)%Q -> (0 <= total / target * 100)%Q.
Proof.
  intros Ht Hg. apply Qmult_le_0_compat; [|discriminate].
  apply Qmult_le_0_compat; [exact Ht|].
  apply Qlt_le_weak, Qinv_lt_0_compat, Hg.
Qed.

(** ** Subject progress (C1) *)




(** Preservation of [hours_nonneg] by the only writer of daily_progress. *)
Lemma insert_or_replace_hours_nonneg (d : db) (v : progress_values) :
  hours_nonneg d ->
  (0 <= v_lecture_hours_actual v)%Q -> (0 <= v_question_hours_actual v)%Q ->
  hours_nonneg (insert_or_replace d v).
Proof.
  unfold hours_nonneg, insert_or_replace. simpl. intros H Hl Hq.
  apply Forall_app. split.
  - rewrite List.Forall_forall in *. intros r Hr.
    apply filter_In in Hr as [Hr _]. apply (H r Hr).
  - constructor; [|constructor]. simpl. split; assumption.
Qed.

Lemma save_daily_entry_hours_nonneg (d : db) (user_id : Z) (entry_date : date)
    (daily_data : list subject_entry) (exercise_done : bool)
    (exercise_minutes : Z) (mood notes : string) :
  hours_nonneg d ->
  Forall (fun e => (0 <= entry_lecture_hours e)%Q
                   /\ (0 <= entry_question_hours e)%Q) daily_data ->
  hours_nonneg
    (save_daily_entry d user_id entry_date daily_data exercise_done
       exercise_minutes mood notes).
Proof.
  unfold save_daily_entry. intros Hd Hl. revert d Hd.
  induction Hl as [|e l [He1 He2] _ IH]; intros d Hd; simpl.
  - exact Hd.
  - apply IH. apply insert_or_replace_hours_nonneg; assumption.
Qed.


(** ** Upsert of a daily_progress row (C2) *)

Lemma filter_filter_negb {A : Type} (f : A -> bool) (l : list A) :
  List.filter f (List.filter (fun x => negb (f x)) l) = [].
Proof.
  induction l as [|x l IH]; simpl; [reflexivity|].
  destruct (f x) eqn:E; simpl; [exact IH|]. rewrite E. exact IH.
Qed.

Lemma filter_negb_idem {A : Type} (f : A -> bool) (l : list A) :
  List.filter (fun x => negb (f x)) (List.filter (fun x => negb (f x)) l)
  = List.filter (fun x => negb (f x)) l.
Proof.
  induction l as [|x l IH]; simpl; [reflexivity|].
  destruct (f x) eqn:E; simpl; [exact IH|]. rewrite E. simpl. f_equal. exact IH.
Qed.

Lemma same_key_row_of (rowid : Z) (v : progress_values) :
  same_key v (row_of rowid v) = true.
Proof. unfold same_key, row_of. simpl. rewrite !Z.eqb_refl. reflexivity. Qed.

Lemma insert_or_replace_key (d : db) (v : progress_values) :
  List.filter (same_key v) (daily_progress (insert_or_replace d v))
  = [row_of (daily_progress_seq (insert_or_replace d v)) v].
Proof.
  unfold insert_or_replace. simpl.
  rewrite List.filter_app, filter_filter_negb. simpl.
  rewrite same_key_row_of. reflexivity.
Qed.

Lemma insert_or_replace_others (d : db) (v : progress_values) :
  List.filter (fun r => negb (same_key v r))
    (daily_progress (insert_or_replace d v))
  = List.filter (fun r => negb (same_key v r)) (daily_progress d).
Proof.
  unfold insert_or_replace. simpl.
  rewrite List.filter_app, filter_negb_idem. simpl.
  rewrite same_key_row_of. simpl. apply app_nil_r.
Qed.

(** C2. Two upserts under one (user, subject, date) key leave exactly one
    row with that key, and every column of it but the rowid is a value of
    the second write: lecture and question hours, questions solved,
    exercise flag and minutes, mood and notes.  Nothing of the first write
    survives, and rows under other keys are the ones the table had. *)
Theorem upsert_twice_full_overwrite
    (d : db) (user_id subject_id : Z) (day : date)
    (lecture1 question1 : Q) (solved1 : Z) (done1 : bool) (minutes1 : Z)
    (mood1 notes1 : string)
    (lecture2 question2 : Q) (solved2 : Z) (done2 : bool) (minutes2 : Z)
    (mood2 notes2 : string) :
  let first :=
    mk_progress_values user_id subject_id day lecture1 question1 solved1
      done1 minutes1 mood1 notes1 in
  let second :=
    mk_progress_values user_id subject_id day lecture2 question2 solved2
      done2 minutes2 mood2 notes2 in
  let d2 := insert_or_replace (insert_or_replace d first) second in
  List.filter
    (fun r => (DailyProgress.user_id r =? user_id)
              && (DailyProgress.subject_id r =? subject_id)
              && (DailyProgress.date r =? day))
    (daily_progress d2)
  = [DailyProgress.mk (daily_progress_seq d2) user_id subject_id day
       lecture2 question2 solved2 done2 minutes2 mood2 notes2]
  /\ List.filter
       (fun r => negb ((DailyProgress.user_id r =? user_id)
                       && (DailyProgress.subject_id r =? subject_id)
                       && (DailyProgress.date r =? day)))
       (daily_progress d2)
     = List.filter
         (fun r => negb ((DailyProgress.user_id r =? user_id)
                         && (DailyProgress.subject_id r =? subject_id)
                         && (DailyProgress.date r =? day)))
         (daily_progress d).
Proof.
  intros first second d2. split.
  - exact (insert_or_replace_key (insert_or_replace d first) second).
  - exact (eq_trans
             (insert_or_replace_others (insert_or_replace d first) second)
             (insert_or_replace_others d first)).
Qed.

(** ** Daily report on a day without progress (C3) *)

Lemma filter_nil_weaken {A : Type} (f g : A -> bool) (l : list A) :
  (forall x, g x = true -> f x = true) ->
  List.filter f l = [] -> List.filter g l = [].
Proof.
  intros Hfg. induction l as [|x l IH]; simpl; [reflexivity|].
  destruct (f x) eqn:Ef; [discriminate|]. intros Hl.
  destruct (g x) eqn:Eg.
  - apply Hfg in Eg. congruence.
  - apply IH, Hl.
Qed.






(** ** Weekly analysis of a single day (C4) *)

Lemma filter_filter_andb {A : Type} (f g : A -> bool) (l : list A) :
  List.filter g (List.filter f l) = List.filter (fun x => f x && g x) l.
Proof.
  induction l as [|x l IH]; simpl; [reflexivity|].
  destruct (f x); simpl; [|exact IH].
  destruct (g x); [f_equal|]; exact IH.
Qed.

Lemma dates_from_to_single (day : date) : dates_from_to day day = [day].
Proof.
  unfold dates_from_to. rewrite Z.sub_diag. simpl. rewrite Z.add_0_r.
  reflexivity.
Qed.

Lemma progress_between_single (d : db) (user_id : Z) (day : date) :
  progress_between d user_id day day
  = List.filter
      (fun r => (DailyProgress.user_id r =? user_id)
                && (DailyProgress.date r =? day))
      (daily_progress d).
Proof.
  unfold progress_between. apply filter_ext. intros r.
  rewrite <- andb_assoc. f_equal.
  destruct (Z.eqb_spec (DailyProgress.date r) day) as [->|Hne].
  - rewrite Z.leb_refl. reflexivity.
  - destruct (Z.leb_spec day (DailyProgress.date r));
      destruct (Z.leb_spec (DailyProgress.date r) day);
      simpl; try reflexivity; lia.
Qed.

(** C4. When the only daily_progress row of a user on date D logs 2.0
    lecture hours, 1.0 question hours and 5 questions solved, the analysis
    of the range [D, D] has one per-date row, for D, whose totals are 2.0,
    1.0 and 5 and whose count of subjects studied is 1; its exercise rate is
    1.0 or 0.0 as the row's exercise flag says. *)
Theorem weekly_analysis_single_entry
    (d : db) (user_id : Z) (D : date) (entry : DailyProgress.row) :
  List.filter
    (fun r => (DailyProgress.user_id r =? user_id)
              && (DailyProgress.date r =? D))
    (daily_progress d) = [entry] ->
  DailyProgress.lecture_hours_actual entry = 2%Q ->
  DailyProgress.question_hours_actual entry = 1%Q ->
  DailyProgress.questions_solved entry = 5 ->
  fst (get_weekly_analysis d user_id D D)
  = [mk_day_summary D 2 1 5 1
       (if DailyProgress.exercise_done entry then 1%Q else 0%Q)].
Proof.
  intros Hrows Hl Hq Hn.
  assert (Hin : In entry
                  (List.filter
                     (fun r => (DailyProgress.user_id r =? user_id)
                               && (DailyProgress.date r =? D))
                     (daily_progress d))).
  { rewrite Hrows. left. reflexivity. }
  apply filter_In in Hin as [_ Hkey].
  apply andb_true_iff in Hkey as [_ Hdate].
  unfold get_weekly_analysis, daily_data, exercise_data. cbn [fst].
  rewrite progress_between_single, Hrows, dates_from_to_single.
  cbn [List.map nodup List.filter].
  apply Z.eqb_eq in Hdate as Hd. rewrite Hd.
  simpl (in_dec _ _ _). cbn [sort_by fold_right insert_by List.map with_exercise].
  rewrite Z.eqb_refl. cbn [List.map]. rewrite Hl, Hq, Hn.
  unfold exercise_on.
  replace (List.filter
             (fun r => (DailyProgress.user_id r =? user_id)
                       && (DailyProgress.date r =? D)
                       && DailyProgress.exercise_done r)
             (daily_progress d))
    with (List.filter DailyProgress.exercise_done [entry]).
  2:{ rewrite <- Hrows. apply filter_filter_andb. }
  cbn [List.filter].
  destruct (DailyProgress.exercise_done entry); reflexivity.
Qed.

(** ** Registration and login (C5, C6) *)

Section AuthenticationProperties.

Variable sha256_hexdigest : string -> string.

Lemma fetchone_None {A : Type} (l : list A) : fetchone l = None -> l = [].
Proof. destruct l; [reflexivity|discriminate]. Qed.

Lemma users_named_after_insert (d : db) (us : list User.row) (useq : Z)
    (sts : list Student.row) (sseq : Z) (username : string) :
  users_named (set_users_students d us useq sts sseq) username
  = List.filter (fun u => String.eqb (User.username u) username) us.
Proof. reflexivity. Qed.

Lemma register_user_taken (d : db) (username password name email phone : string)
    (u : User.row) :
  fetchone (users_named d username) = Some u ->
  register_user sha256_hexdigest d username password name email phone
  = (d, (false, "Username already exists")).
Proof. intros E. unfold register_user. rewrite E. reflexivity. Qed.

(** C5. After a call of [register_user] for a username, a second call
    for that username returns (False, "Username already exists") and
    leaves the store as it was: no users row, no students row.  A call
    for a username that is not taken succeeds, appends one users row whose
    password column is [hash_password password], the digest, and one
    students row linked to it by [user_id] with target_study_hours 6,
    wakeup_time 07:00 and bedtime 23:00. *)
Theorem register_user_duplicate_rejected
    (d : db) (username password name email phone : string)
    (password' name' email' phone' : string) :
  let first := register_user sha256_hexdigest d username password name email phone in
  let d1 := fst first in
  register_user sha256_hexdigest d1 username password' name' email' phone'
  = (d1, (false, "Username already exists"))
  /\ (users_named d username = [] ->
      let user_id := next_rowid (List.map User.id (users d)) (users_seq d) in
      let student_id :=
        next_rowid (List.map Student.id (students d)) (students_seq d) in
      snd first = (true, "Registration successful")
      /\ users d1
         = (users d ++
            [User.mk user_id username
               (hash_password sha256_hexdigest password) name email phone])%list
      /\ students d1
         = (students d ++
            [Student.mk student_id user_id name None email phone
               6 "07:00" "23:00"])%list).
Proof.
  intros first d1. subst d1 first. split.
  - assert (Htaken : exists u,
              fetchone
                (users_named
                   (fst (register_user sha256_hexdigest d username password
                           name email phone)) username) = Some u).
    { unfold register_user.
      destruct (fetchone (users_named d username)) as [u|] eqn:E; cbn [fst].
      - exists u. exact E.
      - apply fetchone_None in E.
        rewrite users_named_after_insert, List.filter_app.
        fold (users_named d username). rewrite E.
        cbn [List.filter app User.username]. rewrite String.eqb_refl.
        eexists. reflexivity. }
    destruct Htaken as [u Hu].
    exact (register_user_taken _ _ _ _ _ _ _ Hu).
  - intros E. unfold register_user. rewrite E. cbn. repeat split.
Qed.

(** C6. A login with a username the store does not hold and a login
    with a username it holds but a password whose digest is not the stored
    one return the same pair, (False, "Invalid username or password"). *)
Theorem login_failures_indistinguishable
    (d d' : db) (username password username' password' : string)
    (user : User.row) :
  fetchone (users_named d username) = None ->
  fetchone (users_named d' username') = Some user ->
  verify_password sha256_hexdigest (User.password user) password' = false ->
  login_user sha256_hexdigest d username password
  = login_user sha256_hexdigest d' username' password'
  /\ login_user sha256_hexdigest d username password
     = (false, Message "Invalid username or password").
Proof.
  intros Habsent Hpresent Hwrong. unfold login_user.
  rewrite Habsent, Hpresent, Hwrong. split; reflexivity.
Qed.

End AuthenticationProperties.

(** ** Schema repair (C7) *)

Section RepairProperties.

Variable alter_refused : string -> string -> string -> bool.

Local Open Scope list_scope.

Lemma has_column_app (columns added : list string) (c : string) :
  has_column columns c = true -> has_column (columns ++ added) c = true.
Proof.
  unfold has_column. rewrite existsb_app. intros ->. reflexivity.
Qed.

Lemma has_column_last (columns : list string) (c : string) :
  has_column (columns ++ [c]) c = true.
Proof.
  unfold has_column. rewrite existsb_app. simpl.
  rewrite String.eqb_refl. apply orb_true_iff. right. reflexivity.
Qed.

Lemma has_column_exact (columns : list string) (c : string) :
  existsb (String.eqb c) columns = true -> has_column columns c = true.
Proof.
  unfold has_column. intros H. apply existsb_exists in H as (x & Hx & E).
  apply String.eqb_eq in E. subst x.
  apply existsb_exists. exists c. split; [exact Hx|apply String.eqb_refl].
Qed.

Lemma column_settled_app (t : string) (columns added : list string)
    (column : string * string) :
  column_settled alter_refused t columns column ->
  column_settled alter_refused t (columns ++ added) column.
Proof.
  unfold column_settled. intros H. apply orb_true_iff in H as [H|H].
  - rewrite (has_column_app _ added _ H). reflexivity.
  - rewrite H. apply orb_true_r.
Qed.

(** One pass over the required columns of a table only appends columns,
    and leaves every required column settled. *)
Lemma repair_columns_settle (t : string) (existing : list string)
    (columns : list (string * string)) :
  forall (live repairs : list string),
    (forall c, existsb (String.eqb c) existing = true ->
               has_column live c = true) ->
    exists added,
      fst (fold_left (repair_column alter_refused t existing) columns
             (live, repairs))
      = live ++ added
      /\ Forall (column_settled alter_refused t (live ++ added)) columns.
Proof.
  induction columns as [|[c ty] columns IH]; intros live repairs Hinv.
  - exists []. rewrite app_nil_r. split; [reflexivity|constructor].
  - cbn [fold_left].
    assert (Hstep : exists added1 repairs1,
              repair_column alter_refused t existing (live, repairs) (c, ty)
              = (live ++ added1, repairs1)
              /\ column_settled alter_refused t (live ++ added1) (c, ty)).
    { unfold repair_column.
      destruct (existsb (String.eqb c) existing) eqn:Ein.
      - exists [], repairs. rewrite app_nil_r. split; [reflexivity|].
        unfold column_settled. cbn [fst snd].
        rewrite (Hinv c Ein). reflexivity.
      - unfold alter_add_column.
        destruct (has_column live c || alter_refused t c ty) eqn:Ealter.
        + exists [], repairs. rewrite app_nil_r.
          split; [reflexivity|exact Ealter].
        + exists [c], (repairs ++ [("Added " ++ c ++ " to " ++ t)%string]).
          split; [reflexivity|].
          unfold column_settled. cbn [fst snd].
          rewrite has_column_last. reflexivity. }
    destruct Hstep as (added1 & repairs1 & -> & Hc).
    destruct (IH (live ++ added1) repairs1) as (added & Hfold & Hall).
    { intros c' Hc'. apply has_column_app, Hinv, Hc'. }
    exists (added1 ++ added). rewrite app_assoc.
    split; [exact Hfold|]. constructor; [|exact Hall].
    apply column_settled_app, Hc.
Qed.

(** On a settled table the pass changes nothing and reports nothing. *)
Lemma repair_columns_settled (t : string) (existing : list string)
    (columns : list (string * string)) (repairs : list string) :
  Forall (column_settled alter_refused t existing) columns ->
  fold_left (repair_column alter_refused t existing) columns
    (existing, repairs)
  = (existing, repairs).
Proof.
  induction 1 as [|[c ty] columns Hc _ IH]; [reflexivity|].
  cbn [fold_left]. unfold repair_column at 2.
  destruct (existsb (String.eqb c) existing); [exact IH|].
  unfold alter_add_column. unfold column_settled in Hc. cbn [fst snd] in Hc.
  rewrite Hc. exact IH.
Qed.

Lemma repair_table_settled (schema : gmap string (list string))
    (repairs : list string) (entry : string * list (string * string)) :
  table_settled alter_refused schema entry ->
  repair_table alter_refused (schema, repairs) entry = (schema, repairs).
Proof.
  destruct entry as [t columns]. unfold table_settled, repair_table.
  cbn [fst snd]. intros H.
  destruct (schema !! t) as [existing|] eqn:E; [|reflexivity].
  rewrite (repair_columns_settled t existing columns repairs (H _ eq_refl)).
  rewrite (insert_id schema t existing E). reflexivity.
Qed.

(** Repairing one table settles it and keeps settled what was. *)
Lemma repair_table_settles (schema : gmap string (list string))
    (repairs : list string) (entry : string * list (string * string)) :
  let schema' := fst (repair_table alter_refused (schema, repairs) entry) in
  table_settled alter_refused schema' entry
  /\ forall other, table_settled alter_refused schema other ->
                   table_settled alter_refused schema' other.
Proof.
  destruct entry as [t columns]. unfold repair_table.
  destruct (schema !! t) as [existing|] eqn:E.
  - destruct (repair_columns_settle t existing columns existing repairs)
      as (added & Hfold & Hall).
    { intros c Hc. apply has_column_exact, Hc. }
    destruct (fold_left _ columns (existing, repairs)) as [live repairs'].
    cbn [fst] in Hfold. subst live. cbn [fst]. split.
    + intros cols Hcols. cbn [fst snd] in *.
      rewrite lookup_insert_eq in Hcols. injection Hcols as <-. exact Hall.
    + intros [t' columns'] Hother cols Hcols. cbn [fst snd] in *.
      destruct (decide (t = t')) as [<-|Hne].
      * rewrite lookup_insert_eq in Hcols. injection Hcols as <-.
        specialize (Hother existing E). cbn [fst snd] in Hother.
        eapply List.Forall_impl; [|exact Hother].
        intros column. apply column_settled_app.
      * rewrite lookup_insert_ne in Hcols by exact Hne.
        apply (Hother cols Hcols).
  - cbn [fst]. split; [|auto].
    intros cols Hcols. cbn [fst] in Hcols. congruence.
Qed.

Lemma repair_tables_keep (tables : list (string * list (string * string))) :
  forall (schema : gmap string (list string)) (repairs : list string) other,
    table_settled alter_refused schema other ->
    table_settled alter_refused
      (fst (fold_left (repair_table alter_refused) tables (schema, repairs)))
      other.
Proof.
  induction tables as [|entry tables IH]; intros schema repairs other H;
    [exact H|].
  cbn [fold_left].
  destruct (repair_table_settles schema repairs entry) as [_ Hkeep].
  destruct (repair_table alter_refused (schema, repairs) entry)
    as [schema' repairs'] eqn:E.
  apply IH. apply Hkeep, H.
Qed.

Lemma repair_tables_settle (tables : list (string * list (string * string))) :
  forall (schema : gmap string (list string)) (repairs : list string),
    Forall
      (table_settled alter_refused
         (fst (fold_left (repair_table alter_refused) tables (schema, repairs))))
      tables.
Proof.
  induction tables as [|entry tables IH]; intros schema repairs;
    [constructor|].
  cbn [fold_left].
  destruct (repair_table_settles schema repairs entry) as [Hown _].
  destruct (repair_table alter_refused (schema, repairs) entry)
    as [schema' repairs'] eqn:E.
  constructor; [|apply IH].
  apply repair_tables_keep, Hown.
Qed.

Lemma repair_tables_settled (tables : list (string * list (string * string)))
    (schema : gmap string (list string)) (repairs : list string) :
  Forall (table_settled alter_refused schema) tables ->
  fold_left (repair_table alter_refused) tables (schema, repairs)
  = (schema, repairs).
Proof.
  induction 1 as [|entry tables Hentry _ IH]; [reflexivity|].
  cbn [fold_left]. rewrite (repair_table_settled _ _ _ Hentry). exact IH.
Qed.

(** C7. A second run of [repair_database] right after a first one adds
    no column and reports no repair: its [repairs_made] is empty and the
    file is the one the first run left. *)
Theorem repair_database_idempotent (schema : gmap string (list string)) :
  let repaired := fst (repair_database alter_refused schema) in
  snd (repair_database alter_refused repaired) = []
  /\ fst (repair_database alter_refused repaired) = repaired.
Proof.
  intros repaired. subst repaired. unfold repair_database.
  rewrite (repair_tables_settled tables_to_repair _ []).
  - split; reflexivity.
  - apply repair_tables_settle.
Qed.

End RepairProperties.

(** ** ORDER BY: the sort and its comparisons *)

Section SortBy.

Context {A : Type} (leb : A -> A -> bool).

Lemma insert_by_perm (x : A) (l : list A) :
  Permutation (insert_by leb x l) (x :: l).
Proof.
  induction l as [|y l IH]; simpl; [reflexivity|].
  destruct (leb x y); [reflexivity|].
  rewrite IH. apply perm_swap.
Qed.

Lemma sort_by_perm (l : list A) : Permutation (sort_by leb l) l.
Proof.
  induction l as [|x l IH]; simpl; [reflexivity|].
  rewrite insert_by_perm. constructor. exact IH.
Qed.

Lemma sort_by_In (x : A) (l : list A) : In x (sort_by leb l) <-> In x l.
Proof.
  split; apply Permutation_in; [|symmetry]; apply sort_by_perm.
Qed.

Lemma sort_by_nil (l : list A) : sort_by leb l = [] -> l = [].
Proof.
  intros H. apply Permutation_nil. rewrite <- H. apply sort_by_perm.
Qed.

Hypothesis leb_total : forall a b, leb a b = false -> leb b a = true.
Hypothesis leb_trans :
  forall a b c, leb a b = true -> leb b c = true -> leb a c = true.

Lemma insert_by_sorted (x : A) (l : list A) :
  StronglySorted (fun a b => leb a b = true) l ->
  StronglySorted (fun a b => leb a b = true) (insert_by leb x l).
Proof.
  induction 1 as [|y l Hl IH Hy]; simpl.
  - constructor; constructor.
  - destruct (leb x y) eqn:E.
    + constructor; [constructor; assumption|].
      constructor; [exact E|].
      eapply List.Forall_impl; [|exact Hy].
      intros z Hz. exact (leb_trans _ _ _ E Hz).
    + constructor; [exact IH|].
      apply List.Forall_forall. intros z Hz.
      apply (Permutation_in _ (insert_by_perm x l)) in Hz.
      destruct Hz as [<-|Hz].
      * apply leb_total, E.
      * rewrite List.Forall_forall in Hy. apply Hy, Hz.
Qed.

Lemma sort_by_sorted (l : list A) :
  StronglySorted (fun a b => leb a b = true) (sort_by leb l).
Proof.
  induction l as [|x l IH]; simpl; [constructor|].
  apply insert_by_sorted, IH.
Qed.

End SortBy.

Lemma cmp_order_leb_total {A : Type} (cmp : A -> A -> comparison) :
  cmp_order cmp ->
  forall a b, not_gt (cmp a b) = false -> not_gt (cmp b a) = true.
Proof.
  intros (_ & Hopp & _) a b H. rewrite Hopp.
  destruct (cmp a b); simpl in *; congruence.
Qed.

Lemma cmp_order_leb_trans {A : Type} (cmp : A -> A -> comparison) :
  cmp_order cmp ->
  forall a b c, not_gt (cmp a b) = true -> not_gt (cmp b c) = true ->
                not_gt (cmp a c) = true.
Proof.
  intros (Heq & _ & Hlt) a b c Hab Hbc.
  destruct (cmp a b) eqn:Eab; [| |discriminate].
  - apply Heq in Eab. subst b. exact Hbc.
  - destruct (cmp b c) eqn:Ebc; [| |discriminate].
    + apply Heq in Ebc. subst c. rewrite Eab. reflexivity.
    + rewrite (Hlt _ _ _ Eab Ebc). reflexivity.
Qed.

Lemma cmp_order_lex {A B : Type} (cmpA : A -> A -> comparison)
    (cmpB : B -> B -> comparison) :
  cmp_order cmpA -> cmp_order cmpB -> cmp_order (lex_cmp cmpA cmpB).
Proof.
  intros (HeqA & HoppA & HltA) (HeqB & HoppB & HltB).
  unfold lex_cmp, lex. split; [|split].
  - intros [a1 b1] [a2 b2]. simpl. split.
    + destruct (cmpA a1 a2) eqn:E; try discriminate.
      intros Hb. apply HeqA in E. apply HeqB in Hb. congruence.
    + intros [= -> ->]. rewrite (proj2 (HeqA a2 a2) eq_refl).
      apply HeqB. reflexivity.
  - intros [a1 b1] [a2 b2]. simpl. rewrite HoppA, HoppB.
    destruct (cmpA a1 a2); reflexivity.
  - intros [a1 b1] [a2 b2] [a3 b3]. simpl.
    destruct (cmpA a1 a2) eqn:E12; try discriminate.
    + apply HeqA in E12. subst a2.
      destruct (cmpA a1 a3) eqn:E13; try discriminate; auto.
      apply HltB.
    + intros _. destruct (cmpA a2 a3) eqn:E23; try discriminate; intros _.
      * apply HeqA in E23. subst a3. rewrite E12. reflexivity.
      * rewrite (HltA _ _ _ E12 E23). reflexivity.
Qed.

Lemma cmp_order_Z : cmp_order Z.compare.
Proof.
  split; [|split].
  - intros a b. apply Z.compare_eq_iff.
  - intros a b. apply Z.compare_antisym.
  - intros a b c. rewrite !Z.compare_lt_iff. lia.
Qed.

Lemma cmp_order_string : cmp_order String.compare.
Proof.
  split; [|split].
  - intros a b. apply String_as_OT.cmp_eq.
  - intros a b. apply String.compare_antisym.
  - intros a b c Hab Hbc.
    apply String_as_OT.cmp_lt in Hab, Hbc. apply String_as_OT.cmp_lt.
    exact (String_as_OT.lt_trans _ _ _ Hab Hbc).
Qed.

Lemma cmp_order_rank : cmp_order rank_compare.
Proof.
  split; [|split].
  - intros [a|] [b|]; simpl; split; try discriminate; try reflexivity.
    + intros H. apply Z.compare_eq_iff in H. congruence.
    + intros [= ->]. apply Z.compare_refl.
  - intros [a|] [b|]; simpl; try reflexivity. apply Z.compare_antisym.
  - intros [a|] [b|] [c|]; simpl; try discriminate; try reflexivity.
    rewrite !Z.compare_lt_iff. lia.
Qed.

Lemma cmp_order_key : cmp_order key_compare.
Proof.
  apply cmp_order_lex; [apply cmp_order_rank|].
  apply cmp_order_lex; [apply cmp_order_Z|apply cmp_order_string].
Qed.

(** The comparison of the query is the order in words. *)
Lemma key_leb_schedule_le (a b : schedule_entry) :
  key_leb (entry_key a) (entry_key b) = true <-> schedule_le a b.
Proof.
  unfold schedule_le, key_leb, key_compare.
  destruct (entry_key a) as [ra [pa ta]], (entry_key b) as [rb [pb tb]].
  unfold lex_cmp, lex. cbn [fst snd]. unfold String.leb.
  destruct (rank_compare ra rb) eqn:Er.
  - apply cmp_order_rank in Er. subst rb.
    destruct (Z.compare pa pb) eqn:Ep.
    + apply Z.compare_eq_iff in Ep. subst pb. split.
      * intros H. right. split; [reflexivity|]. right. split; [reflexivity|].
        destruct (String.compare ta tb); [reflexivity|reflexivity|discriminate].
      * intros [H|[_ [H|[_ H]]]].
        -- discriminate.
        -- lia.
        -- destruct (String.compare ta tb); [reflexivity|reflexivity|discriminate].
    + apply Z.compare_lt_iff in Ep. split; [|reflexivity].
      intros _. right. split; [reflexivity|]. left. exact Ep.
    + apply Z.compare_gt_iff in Ep. split; [discriminate|].
      intros [H|[_ [H|[H _]]]]; try lia. discriminate.
  - split; [|reflexivity]. intros _. left. reflexivity.
  - split; [discriminate|].
    intros [H|[H _]]; [discriminate|]. subst rb.
    destruct cmp_order_rank as (Heq & _ & _).
    rewrite (proj2 (Heq ra ra) eq_refl) in Er. discriminate.
Qed.

(** ** The study schedule (C9, C10) *)

Lemma StronglySorted_map {A B : Type} (R : A -> A -> Prop) (R' : B -> B -> Prop)
    (f : A -> B) (l : list A) :
  (forall a b, R a b -> R' (f a) (f b)) ->
  StronglySorted R l -> StronglySorted R' (List.map f l).
Proof.
  intros HR. induction 1 as [|x l _ IH Hx]; simpl; constructor.
  - exact IH.
  - apply List.Forall_forall. intros y Hy.
    apply in_map_iff in Hy as (z & <- & Hz).
    rewrite List.Forall_forall in Hx. apply HR, Hx, Hz.
Qed.

Lemma entry_key_select (j : StudySchedule.row * Subject.row) :
  entry_key (schedule_select j) = schedule_key (fst j).
Proof. destruct j as [ss s]. reflexivity. Qed.

Lemma get_study_schedule_sorted (d : db) (user_id : Z) :
  StronglySorted schedule_le (get_study_schedule d user_id).
Proof.
  unfold get_study_schedule.
  apply StronglySorted_map
    with (R := fun a b => schedule_order a b = true).
  - intros a b H. apply key_leb_schedule_le.
    rewrite !entry_key_select. exact H.
  - apply sort_by_sorted.
    + intros a b. apply (cmp_order_leb_total _ cmp_order_key).
    + intros a b c. apply (cmp_order_leb_trans _ cmp_order_key).
Qed.

Lemma get_study_schedule_perm (d : db) (user_id : Z) :
  Permutation (get_study_schedule d user_id)
    (List.map schedule_select (schedule_join d user_id)).
Proof.
  unfold get_study_schedule. apply Permutation_map, sort_by_perm.
Qed.

Lemma filter_by_id_none (l : list Subject.row) (k : Z) :
  (forall z, In z l -> Subject.id z <> k) ->
  List.filter (fun x => k =? Subject.id x) l = [].
Proof.
  induction l as [|y l IH]; intros H; [reflexivity|]. simpl.
  destruct (Z.eqb_spec k (Subject.id y)) as [E|_].
  - exfalso. apply (H y); [left; reflexivity|]. symmetry. exact E.
  - apply IH. intros z Hz. apply H. right. exact Hz.
Qed.

(** A primary key selects its row and no other. *)
Lemma filter_by_id (l : list Subject.row) (s : Subject.row) :
  List.NoDup (List.map Subject.id l) -> In s l ->
  List.filter (fun x => Subject.id s =? Subject.id x) l = [s].
Proof.
  induction l as [|y l IH]; intros Hnd Hin; [destruct Hin|].
  simpl in Hnd. apply List.NoDup_cons_iff in Hnd as [Hy Hnd]. simpl.
  assert (Hrest : forall z, In z l -> Subject.id z <> Subject.id y).
  { intros z Hz E. apply Hy. rewrite <- E. apply in_map, Hz. }
  destruct Hin as [->|Hin].
  - rewrite Z.eqb_refl. f_equal. apply filter_by_id_none, Hrest.
  - destruct (Z.eqb_spec (Subject.id s) (Subject.id y)) as [E|_].
    + exfalso. exact (Hrest s Hin E).
    + apply IH; assumption.
Qed.

Lemma schedule_join_own_rows (d : db) (user_id : Z)
    (others rows : list StudySchedule.row) :
  study_schedule d = (others ++ rows)%list ->
  Forall (fun ss => (StudySchedule.user_id ss =? user_id) = false) others ->
  Forall (fun ss => StudySchedule.user_id ss = user_id) rows ->
  schedule_join d user_id
  = flat_map
      (fun ss =>
         List.map (fun s => (ss, s))
           (List.filter (fun s => StudySchedule.subject_id ss =? Subject.id s)
              (subjects d)))
      rows.
Proof.
  intros Hrows Hothers Hown. unfold schedule_join. f_equal.
  rewrite Hrows, List.filter_app. clear Hrows.
  replace (List.filter (fun ss => StudySchedule.user_id ss =? user_id) others)
    with (@nil StudySchedule.row).
  2:{ induction Hothers as [|ss others Hss _ IH]; [reflexivity|].
      simpl. rewrite Hss. exact IH. }
  simpl.
  induction Hown as [|ss rows Hss _ IH]; [reflexivity|].
  simpl. rewrite Hss, Z.eqb_refl. f_equal. exact IH.
Qed.

Lemma cleared_schedule_others (l : list StudySchedule.row) (user_id : Z) :
  Forall (fun ss => (StudySchedule.user_id ss =? user_id) = false)
    (List.filter (fun ss => negb (StudySchedule.user_id ss =? user_id)) l).
Proof.
  apply List.Forall_forall. intros ss Hss. apply filter_In in Hss as [_ H].
  apply negb_true_iff, H.
Qed.

(** *** The weekdays in the order of the week *)

(** The rank the queries sort by is the place of the day in the week,
    counted from 1. *)
Lemma day_rank_position (i : nat) (day : string) :
  nth_error days_of_week i = Some day ->
  day_rank day = Some (Z.of_nat i + 1).
Proof.
  unfold days_of_week.
  do 7 (destruct i as [|i]; [intros [= <-]; reflexivity|]).
  destruct i; discriminate.
Qed.

(** The rank is NULL for the texts that name no weekday, and for no other. *)
Lemma day_rank_week (day : string) :
  In day days_of_week <-> day_rank day <> None.
Proof.
  split.
  - intros H. apply In_nth_error in H as [i H].
    rewrite (day_rank_position i day H). discriminate.
  - unfold day_rank, days_of_week.
    repeat match goal with
           | |- context [String.eqb day ?s] =>
               destruct (String.eqb_spec day s) as [->|_]; [simpl; tauto|]
           end.
    intros H. congruence.
Qed.

Lemma day_rank_same (day_a day_b : string) :
  day_a = day_b \/ (~ In day_a days_of_week /\ ~ In day_b days_of_week) ->
  day_rank day_a = day_rank day_b.
Proof.
  intros [->|[Ha Hb]]; [reflexivity|].
  rewrite day_rank_week in Ha, Hb.
  destruct (day_rank day_a); [exfalso; apply Ha; discriminate|].
  destruct (day_rank day_b); [exfalso; apply Hb; discriminate|reflexivity].
Qed.

Lemma rank_compare_refl (r : option Z) : rank_compare r r = Eq.
Proof. apply cmp_order_rank. reflexivity. Qed.

(** Rows in the order of the rank are in the order of the week, those
    whose day names no weekday first. *)
Lemma rank_order_week (day_a day_b : string) :
  not_gt (rank_compare (day_rank day_a) (day_rank day_b)) = true ->
  (In day_a days_of_week -> In day_b days_of_week)
  /\ forall i j,
       nth_error days_of_week i = Some day_a ->
       nth_error days_of_week j = Some day_b -> (i <= j)%nat.
Proof.
  intros H. split.
  - rewrite !day_rank_week. intros Ha Hb. rewrite Hb in H.
    destruct (day_rank day_a); [discriminate H|congruence].
  - intros i j Hi Hj.
    rewrite (day_rank_position i _ Hi), (day_rank_position j _ Hj) in H.
    cbn [rank_compare] in H. revert H.
    destruct (Z.compare_spec (Z.of_nat i + 1) (Z.of_nat j + 1));
      intros Hc; [lia|lia|discriminate Hc].
Qed.

Lemma schedule_le_week
    (day_a subject_a start_a end_a session_a : string) (priority_a : Z)
    (day_b subject_b start_b end_b session_b : string) (priority_b : Z) :
  schedule_le (day_a, subject_a, start_a, end_a, session_a, priority_a)
              (day_b, subject_b, start_b, end_b, session_b, priority_b) ->
  (In day_a days_of_week -> In day_b days_of_week)
  /\ (forall i j,
        nth_error days_of_week i = Some day_a ->
        nth_error days_of_week j = Some day_b -> (i <= j)%nat)
  /\ (day_a = day_b \/ (~ In day_a days_of_week /\ ~ In day_b days_of_week) ->
      priority_a <= priority_b
      /\ (priority_a = priority_b -> String.leb start_a start_b = true)).
Proof.
  unfold schedule_le, entry_key. intros H.
  assert (Hr : not_gt (rank_compare (day_rank day_a) (day_rank day_b)) = true).
  { destruct H as [->|[-> _]]; [reflexivity|].
    rewrite rank_compare_refl. reflexivity. }
  split; [apply rank_order_week, Hr|]. split; [apply rank_order_week, Hr|].
  intros Hsame. apply day_rank_same in Hsame.
  destruct H as [H|[_ H]].
  - rewrite Hsame, rank_compare_refl in H. discriminate H.
  - destruct H as [H|[-> H]]; split; try lia; intros; try lia. exact H.
Qed.

Lemma StronglySorted_nth_error {A : Type} (R : A -> A -> Prop) (l : list A) :
  StronglySorted R l ->
  forall (m n : nat) (a b : A),
    (m < n)%nat -> nth_error l m = Some a -> nth_error l n = Some b -> R a b.
Proof.
  induction 1 as [|x l _ IH Hx]; intros m n a b Hmn Ha Hb.
  - destruct m; discriminate Ha.
  - destruct n as [|n]; [lia|]. simpl in Hb. destruct m as [|m].
    + injection Ha as <-. rewrite List.Forall_forall in Hx.
      apply Hx. eapply nth_error_In, Hb.
    + simpl in Ha. apply (IH m n); [lia|assumption|assumption].
Qed.

(** *** From the items of a save to the schedule *)

Lemma fetchone_filter {A : Type} (p : A -> bool) (l : list A) :
  fetchone (List.filter p l) = List.find p l.
Proof.
  induction l as [|x l IH]; [reflexivity|]. simpl.
  destruct (p x); [reflexivity|exact IH].
Qed.

Lemma existsb_find {A : Type} (p : A -> bool) (l : list A) :
  existsb p l = match List.find p l with Some _ => true | None => false end.
Proof.
  induction l as [|x l IH]; [reflexivity|]. simpl.
  destruct (p x); [reflexivity|exact IH].
Qed.

(** The slots a run of the save loop appends: one for each item that names
    a subject of the user, in the order of the items, with the id of the
    first subject of that name. *)
Lemma save_schedule_items_slots (user_id : Z) (d0 : db)
    (items : list schedule_item) :
  forall d : db,
    subjects d = subjects d0 ->
    subjects (fold_left (save_schedule_item user_id) items d) = subjects d0
    /\ exists added,
         study_schedule (fold_left (save_schedule_item user_id) items d)
         = (study_schedule d ++ added)%list
         /\ Forall2
              (fun ss item =>
                 exists s,
                   List.find
                     (fun s =>
                        String.eqb (Subject.subject_name s) (item_subject item)
                        && (Subject.user_id s =? user_id))
                     (subjects d0) = Some s
                   /\ slot_values ss
                      = (user_id, item_day item, Subject.id s,
                         item_start_time item, item_end_time item,
                         item_session_type item,
                         priority_of (item_session_type item)))
              added (List.filter (item_resolves d0 user_id) items).
Proof.
  induction items as [|item items IH]; intros d Hsub.
  - split; [exact Hsub|]. exists []. rewrite app_nil_r.
    split; [reflexivity|constructor].
  - cbn [fold_left List.filter]. unfold item_resolves at 1.
    rewrite existsb_find.
    destruct (String.eqb (item_subject item) "") eqn:Ename.
    + replace (save_schedule_item user_id d item) with d
        by (unfold save_schedule_item; rewrite Ename; reflexivity).
      cbn [negb andb]. apply IH, Hsub.
    + destruct (List.find _ (subjects d0)) as [s|] eqn:Efind.
      * set (rowid := next_rowid (List.map StudySchedule.id (study_schedule d))
                        (study_schedule_seq d)).
        set (row := StudySchedule.mk rowid user_id (item_day item)
                      (Subject.id s) (item_start_time item)
                      (item_end_time item) (item_session_type item)
                      (priority_of (item_session_type item))).
        replace (save_schedule_item user_id d item)
          with (set_study_schedule d (study_schedule d ++ [row])%list rowid)
          by (unfold save_schedule_item;
              rewrite Ename, fetchone_filter, Hsub, Efind; reflexivity).
        cbn [negb andb].
        destruct (IH (set_study_schedule d (study_schedule d ++ [row])%list
                        rowid) Hsub)
          as (Hs & added & Hsch & Hall).
        split; [exact Hs|]. exists (row :: added). split.
        -- rewrite Hsch. cbn [study_schedule set_study_schedule].
           rewrite <- app_assoc. reflexivity.
        -- constructor; [|exact Hall]. exists s.
           split; [exact Efind|reflexivity].
      * replace (save_schedule_item user_id d item) with d
          by (unfold save_schedule_item;
              rewrite Ename, fetchone_filter, Hsub, Efind; reflexivity).
        cbn [negb andb]. apply IH, Hsub.
Qed.

(** Under the primary key, each such slot joins with its subject alone. *)
Lemma slots_join (d : db) (user_id : Z) (added : list StudySchedule.row)
    (items : list schedule_item) :
  subject_ids_unique d ->
  Forall2
    (fun ss item =>
       exists s,
         List.find
           (fun s =>
              String.eqb (Subject.subject_name s) (item_subject item)
              && (Subject.user_id s =? user_id))
           (subjects d) = Some s
         /\ slot_values ss
            = (user_id, item_day item, Subject.id s,
               item_start_time item, item_end_time item,
               item_session_type item,
               priority_of (item_session_type item)))
    added items ->
  Forall2 (fun j item => schedule_select j = item_entry item)
    (flat_map
       (fun ss =>
          List.map (fun s => (ss, s))
            (List.filter (fun s => StudySchedule.subject_id ss =? Subject.id s)
               (subjects d)))
       added)
    items.
Proof.
  intros Hids H.
  induction H as [|ss item added items (s & Hfind & Hval) _ IH]; [constructor|].
  cbn [flat_map]. apply List.find_some in Hfind as [Hin Hp].
  apply andb_true_iff in Hp as [Hname _]. apply String.eqb_eq in Hname.
  unfold slot_values in Hval.
  injection Hval as Hu Hday Hid Hstart Hend Hsess Hprio.
  rewrite Hid, (filter_by_id (subjects d) s Hids Hin). cbn [List.map app].
  constructor; [|exact IH]. unfold schedule_select, item_entry. congruence.
Qed.

Section SortAlong.

Context {A B : Type} (R : A -> B -> Prop).
Context (lebA : A -> A -> bool) (lebB : B -> B -> bool).

Hypothesis leb_along :
  forall a b c e, R a b -> R c e -> lebA a c = lebB b e.

Lemma insert_by_along (x : A) (y : B) (l : list A) (l' : list B) :
  R x y -> Forall2 R l l' ->
  Forall2 R (insert_by lebA x l) (insert_by lebB y l').
Proof.
  intros Hxy H. induction H as [|a b l l' Hab Hl IH]; simpl.
  - constructor; [exact Hxy|constructor].
  - rewrite (leb_along x y a b Hxy Hab).
    destruct (lebB y b).
    + constructor; [exact Hxy|]. constructor; assumption.
    + constructor; assumption.
Qed.

Lemma sort_by_along (l : list A) (l' : list B) :
  Forall2 R l l' -> Forall2 R (sort_by lebA l) (sort_by lebB l').
Proof.
  induction 1 as [|a b l l' Hab Hl IH]; simpl; [constructor|].
  apply insert_by_along; assumption.
Qed.

End SortAlong.

Lemma Forall2_map_eq {A B C : Type} (f : A -> C) (g : B -> C)
    (l : list A) (l' : list B) :
  Forall2 (fun a b => f a = g b) l l' -> List.map f l = List.map g l'.
Proof.
  induction 1 as [|a b l l' Hab _ IH]; [reflexivity|].
  simpl. rewrite Hab, IH. reflexivity.
Qed.

(** What the schedule query returns after a save: the rows of the items
    that name a subject of the user, in the order of the query. *)
Lemma get_study_schedule_after_save (d : db) (user_id : Z)
    (items : list schedule_item) :
  subject_ids_unique d ->
  get_study_schedule (save_study_schedule d user_id items) user_id
  = List.map item_entry
      (sort_by
         (fun a b => key_leb (entry_key (item_entry a))
                             (entry_key (item_entry b)))
         (List.filter (item_resolves d user_id) items)).
Proof.
  intros Hids. unfold save_study_schedule.
  destruct (save_schedule_items_slots user_id d items
              (set_study_schedule d
                 (List.filter
                    (fun ss => negb (StudySchedule.user_id ss =? user_id))
                    (study_schedule d))
                 (study_schedule_seq d)) eq_refl)
    as (Hsub & added & Hsch & Hall).
  cbn [study_schedule set_study_schedule] in Hsch.
  unfold get_study_schedule.
  rewrite (schedule_join_own_rows _ user_id _ added Hsch
             (cleared_schedule_others _ _)).
  - rewrite Hsub. apply Forall2_map_eq.
    apply sort_by_along
      with (R := fun j item => schedule_select j = item_entry item).
    + intros a b c e Hab Hce. unfold schedule_order.
      rewrite <- !entry_key_select, Hab, Hce. reflexivity.
    + apply (slots_join d user_id added _ Hids Hall).
  - clear -Hall.
    induction Hall as [|ss item l l' (s & _ & Hval) _ IH];
      constructor; [|exact IH].
    unfold slot_values in Hval. congruence.
Qed.

Lemma item_resolves_named (d : db) (user_id : Z) (item : schedule_item)
    (s : Subject.row) :
  In s (subjects d) -> Subject.user_id s = user_id ->
  Subject.subject_name s = item_subject item -> item_subject item <> "" ->
  item_resolves d user_id item = true.
Proof.
  intros Hin Hu Hn Hne. unfold item_resolves. apply andb_true_iff. split.
  - apply negb_true_iff, String.eqb_neq, Hne.
  - apply existsb_exists. exists s. split; [exact Hin|].
    rewrite Hn, Hu, String.eqb_refl, Z.eqb_refl. reflexivity.
Qed.

Lemma filter_all_true {A : Type} (f : A -> bool) (l : list A) :
  Forall (fun x => f x = true) l -> List.filter f l = l.
Proof.
  induction 1 as [|x l Hx _ IH]; [reflexivity|]. simpl. rewrite Hx, IH.
  reflexivity.
Qed.

(** C9. [get_study_schedule] returns the user's slots joined with the
    names of their subjects, in the order of the weekdays Monday to Sunday,
    then of ascending priority, then of ascending start time.  Of two rows
    of the result, the later one has the later place in the list Monday,
    Tuesday, ..., Sunday, or the same place; a day that names no weekday
    stands before those that do; and when the days are the same, the later
    row has the larger priority or, with the same priority, a start time
    that is not earlier, as text.  After a save of a Monday morning slot for
    Mathematics and a Monday evening slot for Physics, the schedule is the
    Mathematics entry (priority 1) followed by the Physics entry
    (priority 3); and slots saved for the seven days from Sunday back to
    Monday are returned from Monday on to Sunday. *)
Theorem get_study_schedule_ordered (d : db) (user_id : Z) :
  let week := ["Monday"; "Tuesday"; "Wednesday"; "Thursday"; "Friday";
               "Saturday"; "Sunday"] in
  Permutation (get_study_schedule d user_id)
    (List.map schedule_select (schedule_join d user_id))
  /\ (forall (m n : nat)
        (day_a subject_a start_a end_a session_a : string) (priority_a : Z)
        (day_b subject_b start_b end_b session_b : string) (priority_b : Z),
        (m < n)%nat ->
        nth_error (get_study_schedule d user_id) m
        = Some (day_a, subject_a, start_a, end_a, session_a, priority_a) ->
        nth_error (get_study_schedule d user_id) n
        = Some (day_b, subject_b, start_b, end_b, session_b, priority_b) ->
        (In day_a week -> In day_b week)
        /\ (forall i j : nat,
              nth_error week i = Some day_a ->
              nth_error week j = Some day_b -> (i <= j)%nat)
        /\ (day_a = day_b \/ (~ In day_a week /\ ~ In day_b week) ->
            priority_a <= priority_b
            /\ (priority_a = priority_b ->
                String.leb start_a start_b = true)))
  /\ (forall (maths phys : Subject.row) (start1 end1 start2 end2 : string),
        subject_ids_unique d ->
        In maths (subjects d) -> Subject.user_id maths = user_id ->
        Subject.subject_name maths = "Mathematics" ->
        In phys (subjects d) -> Subject.user_id phys = user_id ->
        Subject.subject_name phys = "Physics" ->
        get_study_schedule
          (save_study_schedule d user_id
             [mk_schedule_item "Monday" "Mathematics" start1 end1 "Morning";
              mk_schedule_item "Monday" "Physics" start2 end2 "Evening"])
          user_id
        = [("Monday", "Mathematics", start1, end1, "Morning", 1);
           ("Monday", "Physics", start2, end2, "Evening", 3)])
  /\ (forall items : list schedule_item,
        subject_ids_unique d ->
        Forall
          (fun item =>
             item_subject item <> ""
             /\ exists s,
                  In s (subjects d) /\ Subject.user_id s = user_id
                  /\ Subject.subject_name s = item_subject item)
          items ->
        List.map item_day items = rev week ->
        List.map (fun e : schedule_entry => fst (fst (fst (fst (fst e)))))
          (get_study_schedule (save_study_schedule d user_id items) user_id)
        = week
        /\ get_study_schedule (save_study_schedule d user_id items) user_id
           = rev
               (List.map
                  (fun item =>
                     (item_day item, item_subject item, item_start_time item,
                      item_end_time item, item_session_type item,
                      if String.eqb (item_session_type item) "Morning" then 1
                      else if String.eqb (item_session_type item) "Afternoon"
                           then 2 else 3))
                  items)).
Proof.
  intros week. split; [apply get_study_schedule_perm|]. split; [|split].
  - intros m n day_a subject_a start_a end_a session_a priority_a
      day_b subject_b start_b end_b session_b priority_b Hmn Ha Hb.
    apply (schedule_le_week day_a subject_a start_a end_a session_a priority_a
             day_b subject_b start_b end_b session_b priority_b).
    exact (StronglySorted_nth_error _ _ (get_study_schedule_sorted d user_id)
             m n _ _ Hmn Ha Hb).
  - intros maths phys start1 end1 start2 end2 Hids Hm Hmu Hmn Hp Hpu Hpn.
    rewrite (get_study_schedule_after_save d user_id _ Hids).
    cbn [List.filter].
    rewrite (item_resolves_named d user_id
               (mk_schedule_item "Monday" "Mathematics" start1 end1 "Morning")
               maths Hm Hmu Hmn) by discriminate.
    rewrite (item_resolves_named d user_id
               (mk_schedule_item "Monday" "Physics" start2 end2 "Evening")
               phys Hp Hpu Hpn) by discriminate.
    reflexivity.
  - intros items Hids Hall Hdays.
    rewrite (get_study_schedule_after_save d user_id _ Hids).
    rewrite filter_all_true.
    2:{ eapply List.Forall_impl; [|exact Hall].
        intros item (Hne & s & Hin & Hu & Hn).
        exact (item_resolves_named d user_id item s Hin Hu Hn Hne). }
    clear Hall. subst week. cbn [rev app] in Hdays.
    do 7 (destruct items as [|[? ? ? ? ?] items]; [discriminate Hdays|];
          injection Hdays as -> Hdays).
    destruct items; [|discriminate Hdays].
    split; reflexivity.
Qed.

Lemma filter_flat_map {A B : Type} (p : B -> bool) (f : A -> list B)
    (l : list A) :
  List.filter p (flat_map f l) = flat_map (fun x => List.filter p (f x)) l.
Proof.
  induction l as [|x l IH]; simpl; [reflexivity|].
  rewrite List.filter_app, IH. reflexivity.
Qed.

Lemma filter_map_pair {A B : Type} (p : B -> bool) (a : A) (l : list B) :
  List.filter (fun j : A * B => p (snd j)) (List.map (fun b => (a, b)) l)
  = List.map (fun b => (a, b)) (List.filter p l).
Proof.
  induction l as [|b l IH]; simpl; [reflexivity|].
  destruct (p b); simpl; rewrite IH; reflexivity.
Qed.

Lemma filter_comm {A : Type} (f g : A -> bool) (l : list A) :
  List.filter f (List.filter g l) = List.filter g (List.filter f l).
Proof.
  rewrite !filter_filter_andb. apply filter_ext. intros x. apply andb_comm.
Qed.

Lemma schedule_join_In (d : db) (viewer : Z) (ss : StudySchedule.row)
    (s : Subject.row) :
  In (ss, s) (schedule_join d viewer)
  <-> In ss (study_schedule d) /\ StudySchedule.user_id ss = viewer
      /\ In s (subjects d) /\ StudySchedule.subject_id ss = Subject.id s.
Proof.
  unfold schedule_join. rewrite in_flat_map. split.
  - intros (ss' & Hss & Hj). apply filter_In in Hss as [Hss Hu].
    apply in_map_iff in Hj as (s' & [= <- <-] & Hs).
    apply filter_In in Hs as [Hs Hid].
    apply Z.eqb_eq in Hu, Hid. auto.
  - intros (Hss & Hu & Hs & Hid). exists ss. split.
    + apply filter_In. split; [exact Hss|]. apply Z.eqb_eq, Hu.
    + apply in_map. apply filter_In. split; [exact Hs|]. apply Z.eqb_eq, Hid.
Qed.

Lemma schedule_join_after_delete (d : db) (user_id sub_id viewer : Z) :
  schedule_join (fst (delete_subject d user_id sub_id)) viewer
  = List.filter
      (fun j => negb ((Subject.id (snd j) =? sub_id)
                      && (Subject.user_id (snd j) =? user_id)))
      (schedule_join d viewer).
Proof.
  unfold schedule_join, delete_subject. cbn [fst subjects study_schedule set_subjects].
  rewrite filter_flat_map. apply flat_map_ext. intros ss.
  rewrite (filter_map_pair
             (fun s => negb ((Subject.id s =? sub_id)
                             && (Subject.user_id s =? user_id)))).
  f_equal. apply filter_comm.
Qed.

(** C10. The schedule query is an inner join: each entry it returns comes
    from a stored slot of the user and a stored subject whose id is the
    slot's subject_id, and a slot whose subject_id is the id of no subject
    yields no entry.  Deleting a subject leaves study_schedule as it was,
    and the schedule of every user afterwards is the query over the
    joined rows of before without those of the deleted subject: no entry of
    it comes from a slot that refers to the deleted id. *)
Theorem get_study_schedule_omits_orphans
    (d : db) (user_id sub_id viewer : Z) :
  (forall e, In e (get_study_schedule d viewer) ->
     exists ss s,
       In ss (study_schedule d) /\ StudySchedule.user_id ss = viewer
       /\ In s (subjects d) /\ StudySchedule.subject_id ss = Subject.id s
       /\ e = schedule_select (ss, s))
  /\ (forall ss,
        (forall s, In s (subjects d) ->
                   Subject.id s <> StudySchedule.subject_id ss) ->
        forall s, ~ In (ss, s) (schedule_join d viewer))
  /\ let d' := fst (delete_subject d user_id sub_id) in
     study_schedule d' = study_schedule d
     /\ get_study_schedule d' viewer
        = List.map schedule_select
            (sort_by schedule_order
               (List.filter
                  (fun j => negb ((Subject.id (snd j) =? sub_id)
                                  && (Subject.user_id (snd j) =? user_id)))
                  (schedule_join d viewer)))
     /\ ((forall s, In s (subjects d) -> Subject.id s = sub_id ->
                    Subject.user_id s = user_id) ->
         forall ss s, In (ss, s) (schedule_join d' viewer) ->
                      StudySchedule.subject_id ss <> sub_id).
Proof.
  split; [|split; [|split; [|split]]].
  - intros e He. unfold get_study_schedule in He.
    apply in_map_iff in He as ([ss s] & <- & Hj).
    apply sort_by_In in Hj. apply schedule_join_In in Hj.
    exists ss, s. tauto.
  - intros ss Horphan s Hj. apply schedule_join_In in Hj as (_ & _ & Hs & Hid).
    apply (Horphan s Hs). symmetry. exact Hid.
  - reflexivity.
  - unfold get_study_schedule. rewrite schedule_join_after_delete. reflexivity.
  - intros Howner ss s Hj. rewrite schedule_join_after_delete in Hj.
    apply filter_In in Hj as [Hj Hkeep]. cbn [snd] in Hkeep.
    apply schedule_join_In in Hj as (_ & _ & Hs & Hid).
    intros E. rewrite Hid in E.
    rewrite (proj2 (Z.eqb_eq _ _) E) in Hkeep.
    rewrite (proj2 (Z.eqb_eq _ _) (Howner s Hs E)) in Hkeep.
    discriminate Hkeep.
Qed.

(** ** Unique subject names (C8) *)

Lemma NoDup_map_filter {A B : Type} (f : A -> B) (g : A -> bool) (l : list A) :
  List.NoDup (List.map f l) -> List.NoDup (List.map f (List.filter g l)).
Proof.
  induction l as [|x l IH]; simpl; intros H; [constructor|].
  apply List.NoDup_cons_iff in H as [Hx Hl].
  destruct (g x); simpl; [|apply IH, Hl].
  constructor; [|apply IH, Hl].
  intros Hin. apply Hx. apply in_map_iff in Hin as (y & E & Hy).
  apply in_map_iff. exists y. split; [exact E|].
  apply filter_In in Hy as [Hy _]. exact Hy.
Qed.

Lemma insert_subject_unique (d : db) (user_id : Z) (f : subject_form)
    (owner : Z) :
  List.filter
    (fun s => (Subject.user_id s =? user_id)
              && String.eqb (Subject.subject_name s) (form_subject_name f))
    (subjects d) = [] ->
  names_unique d owner -> names_unique (insert_subject d user_id f) owner.
Proof.
  unfold names_unique, insert_subject. cbn [subjects set_subjects].
  intros Hfresh Hu. rewrite List.filter_app, List.map_app.
  cbn [List.filter Subject.user_id].
  destruct (Z.eqb_spec user_id owner) as [->|Hne].
  - apply List.NoDup_app; [exact Hu|repeat constructor; intros []|].
    intros name Hname [<-|[]]. cbn [Subject.subject_name] in Hname.
    apply in_map_iff in Hname as (s & Hs & Hin).
    apply filter_In in Hin as [Hin Howner].
    assert (Hs' : In s []).
    { rewrite <- Hfresh. apply filter_In. split; [exact Hin|].
      rewrite Howner, Hs, String.eqb_refl. reflexivity. }
    destruct Hs'.
  - simpl. rewrite app_nil_r. exact Hu.
Qed.

(** The Add New Subject form refuses a name the user already has, and
    inserts nothing. *)
Lemma add_new_subject_rejects_duplicate (d : db) (user_id : Z)
    (f : subject_form) (s : Subject.row) :
  In s (subjects d) -> Subject.user_id s = user_id ->
  Subject.subject_name s = form_subject_name f ->
  form_subject_name f <> "" ->
  add_new_subject d user_id f
  = (d, Error ("❌ Subject '" ++ form_subject_name f ++ "' already exists!")).
Proof.
  intros Hin Hu Hn Hne. unfold add_new_subject.
  apply String.eqb_neq in Hne. rewrite Hne.
  destruct (List.filter _ (subjects d)) as [|x l] eqn:E.
  - exfalso.
    assert (Hs : In s []).
    { rewrite <- E. apply filter_In. split; [exact Hin|].
      rewrite Hu, Hn, Z.eqb_refl, String.eqb_refl. reflexivity. }
    destruct Hs.
  - reflexivity.
Qed.

Lemma add_new_subject_unique (d : db) (user_id : Z) (f : subject_form)
    (owner : Z) :
  names_unique d owner ->
  names_unique (fst (add_new_subject d user_id f)) owner.
Proof.
  intros Hu. unfold add_new_subject.
  destruct (String.eqb (form_subject_name f) ""); [exact Hu|].
  destruct (List.filter _ (subjects d)) as [|x l] eqn:E.
  - cbn [length Z.of_nat Z.ltb Z.compare fst].
    apply insert_subject_unique; assumption.
  - exact Hu.
Qed.

Lemma delete_subject_unique (d : db) (user_id sub_id owner : Z) :
  names_unique d owner ->
  names_unique (fst (delete_subject d user_id sub_id)) owner.
Proof.
  unfold names_unique, delete_subject. cbn [fst subjects set_subjects].
  rewrite filter_comm. apply NoDup_map_filter.
Qed.

(** Every button of the page but Save Changes keeps the names of the
    user's subjects distinct. *)
Lemma manage_subjects_unique (d : db) (user_id : Z) (a : subject_action) :
  (forall sub_id f, a <> SaveChanges sub_id f) ->
  names_unique d user_id ->
  names_unique (fst (manage_subjects d user_id a)) user_id.
Proof.
  intros Hnot Hu. unfold manage_subjects.
  destruct (subjects_of d user_id) as [|s0 l] eqn:E.
  - destruct a; try exact Hu.
    unfold add_first_subject.
    destruct (String.eqb (form_subject_name f) ""); [exact Hu|].
    cbn [fst]. apply insert_subject_unique; [|exact Hu].
    unfold subjects_of in E. apply sort_by_nil in E.
    apply filter_nil_weaken
      with (f := fun s => Subject.user_id s =? user_id); [|exact E].
    intros s Hs. apply andb_true_iff in Hs as [Hs _]. exact Hs.
  - destruct a.
    + exfalso. apply (Hnot sub_id f). reflexivity.
    + destruct (existsb _ (s0 :: l)); [|exact Hu].
      apply delete_subject_unique, Hu.
    + apply add_new_subject_unique, Hu.
    + exact Hu.
Qed.

(** C8, where the code departs from it.  In the store with the subjects
    Mathematics and Physics, whose names are distinct, Save Changes on
    Physics with the name Mathematics is accepted: the user then has two
    subjects named Mathematics. *)
Theorem save_changes_duplicates_name :
  names_unique store_two_subjects 1
  /\ manage_subjects store_two_subjects 1
       (SaveChanges 2
          (mk_subject_form "Mathematics" (3 # 2) 100 2 1 "Hard" 739030))
     = (fst (save_changes store_two_subjects 1 2
               (mk_subject_form "Mathematics" (3 # 2) 100 2 1 "Hard" 739030)),
        Success "✅ Subject updated successfully!")
  /\ List.map Subject.subject_name
       (subjects
          (fst (manage_subjects store_two_subjects 1
                  (SaveChanges 2
                     (mk_subject_form "Mathematics" (3 # 2) 100 2 1 "Hard"
                        739030)))))
     = ["Mathematics"; "Mathematics"]
  /\ ~ names_unique
         (fst (manage_subjects store_two_subjects 1
                 (SaveChanges 2
                    (mk_subject_form "Mathematics" (3 # 2) 100 2 1 "Hard"
                       739030)))) 1.
Proof.
  split; [|split; [|split]].
  - unfold names_unique. vm_compute.
    constructor; [|constructor; [intros []|constructor]].
    intros [H|[]]. discriminate H.
  - reflexivity.
  - reflexivity.
  - unfold names_unique. vm_compute. intros H.
    apply List.NoDup_cons_iff in H as [H _]. apply H. left. reflexivity.
Qed.

(** ** The properties at the sample store *)




Lemma weekly_analysis_single_entry_witness :
  List.filter
    (fun r => (DailyProgress.user_id r =? 1) && (DailyProgress.date r =? 739000))
    (daily_progress store_one_day)
  = [DailyProgress.mk 1 1 1 739000 2 1 5 true 30 "🙂 Good" ""]
  /\ fst (get_weekly_analysis store_one_day 1 739000 739000)
     = [mk_day_summary 739000 2 1 5 1 1].
Proof.
  split; [reflexivity|].
  exact (weekly_analysis_single_entry store_one_day 1 739000
           (DailyProgress.mk 1 1 1 739000 2 1 5 true 30 "🙂 Good" "")
           eq_refl eq_refl eq_refl eq_refl).
Defined.

Lemma register_user_duplicate_rejected_witness :
  users_named empty_db "ann" = []
  /\ register_user sample_digest store_registered "ann" "other" "Annie" "" ""
     = (store_registered, (false, "Username already exists"))
  /\ List.map User.password (users store_registered) = ["sha256:secret"]
  /\ List.map
       (fun st => (Student.user_id st, Student.target_study_hours st,
                   Student.wakeup_time st, Student.bedtime st))
       (students store_registered)
     = [(1, 6, "07:00", "23:00")].
Proof.
  pose proof (register_user_duplicate_rejected sample_digest empty_db
                "ann" "secret" "Ann" "ann@example.org" "555-0100"
                "other" "Annie" "" "") as H.
  split; [reflexivity|]. split; [exact (proj1 H)|].
  destruct (proj2 H eq_refl) as (_ & Husers & Hstudents).
  split.
  - change (users store_registered)
      with (users (fst (register_user sample_digest empty_db "ann" "secret"
                          "Ann" "ann@example.org" "555-0100"))).
    rewrite Husers. reflexivity.
  - change (students store_registered)
      with (students (fst (register_user sample_digest empty_db "ann" "secret"
                             "Ann" "ann@example.org" "555-0100"))).
    rewrite Hstudents. reflexivity.
Defined.

Lemma login_failures_indistinguishable_witness :
  fetchone (users_named store_registered "bob") = None
  /\ fetchone (users_named store_registered "ann")
     = Some (User.mk 1 "ann" "sha256:secret" "Ann" "ann@example.org" "555-0100")
  /\ verify_password sample_digest "sha256:secret" "guess" = false
  /\ login_user sample_digest store_registered "bob" "secret"
     = login_user sample_digest store_registered "ann" "guess".
Proof.
  split; [reflexivity|]. split; [reflexivity|]. split; [reflexivity|].
  exact (proj1
           (login_failures_indistinguishable sample_digest
              store_registered store_registered "bob" "secret" "ann" "guess"
              (User.mk 1 "ann" "sha256:secret" "Ann" "ann@example.org" "555-0100")
              eq_refl eq_refl eq_refl)).
Defined.

Lemma store_one_day_ids_unique : subject_ids_unique store_one_day.
Proof.
  unfold subject_ids_unique. simpl.
  constructor; [|constructor; [intros []|constructor]].
  intros [H|[]]. discriminate H.
Defined.

Lemma store_one_day_week :
  Forall
    (fun item =>
       item_subject item <> ""
       /\ exists s,
            In s (subjects store_one_day) /\ Subject.user_id s = 1
            /\ Subject.subject_name s = item_subject item)
    week_backwards.
Proof.
  assert (Hm : forall item, item_subject item = "Mathematics" ->
                 item_subject item <> ""
                 /\ exists s,
                      In s (subjects store_one_day) /\ Subject.user_id s = 1
                      /\ Subject.subject_name s = item_subject item).
  { intros item E. rewrite E. split; [discriminate|].
    exists (Subject.mk 1 1 "Mathematics" 1 100 2 1 "Medium" 739030).
    split; [left; reflexivity|split; reflexivity]. }
  assert (Hp : forall item, item_subject item = "Physics" ->
                 item_subject item <> ""
                 /\ exists s,
                      In s (subjects store_one_day) /\ Subject.user_id s = 1
                      /\ Subject.subject_name s = item_subject item).
  { intros item E. rewrite E. split; [discriminate|].
    exists (Subject.mk 2 1 "Physics" (3 # 2) 100 2 1 "Hard" 739030).
    split; [right; left; reflexivity|split; reflexivity]. }
  unfold week_backwards.
  repeat (constructor;
          [first [apply Hm; reflexivity|apply Hp; reflexivity]|]).
  constructor.
Defined.

Lemma get_study_schedule_ordered_witness :
  subject_ids_unique store_one_day
  /\ get_study_schedule store_scheduled 1
     = [("Monday", "Mathematics", "09:00", "11:00", "Morning", 1);
        ("Monday", "Physics", "18:00", "20:00", "Evening", 3)]
  /\ List.map item_day week_backwards
     = ["Sunday"; "Saturday"; "Friday"; "Thursday"; "Wednesday"; "Tuesday";
        "Monday"]
  /\ get_study_schedule (save_study_schedule store_one_day 1 week_backwards) 1
     = [("Monday", "Mathematics", "18:00", "20:00", "Evening", 3);
        ("Tuesday", "Physics", "18:00", "20:00", "Evening", 3);
        ("Wednesday", "Mathematics", "14:00", "16:00", "Afternoon", 2);
        ("Thursday", "Physics", "09:00", "11:00", "Morning", 1);
        ("Friday", "Mathematics", "18:00", "20:00", "Evening", 3);
        ("Saturday", "Physics", "14:00", "16:00", "Afternoon", 2);
        ("Sunday", "Mathematics", "09:00", "11:00", "Morning", 1)].
Proof.
  split; [exact store_one_day_ids_unique|]. split; [|split; [reflexivity|]].
  - exact (proj1 (proj2 (proj2 (get_study_schedule_ordered store_one_day 1)))
             (Subject.mk 1 1 "Mathematics" 1 100 2 1 "Medium" 739030)
             (Subject.mk 2 1 "Physics" (3 # 2) 100 2 1 "Hard" 739030)
             "09:00" "11:00" "18:00" "20:00"
             store_one_day_ids_unique
             (or_introl eq_refl) eq_refl eq_refl
             (or_intror (or_introl eq_refl)) eq_refl eq_refl).
  - exact (proj2
             (proj2 (proj2 (proj2 (get_study_schedule_ordered store_one_day 1)))
                week_backwards store_one_day_ids_unique store_one_day_week
                eq_refl)).
Defined.

Lemma store_scheduled_physics_owner :
  forall s, In s (subjects store_scheduled) -> Subject.id s = 2 ->
            Subject.user_id s = 1.
Proof.
  intros s [<-|[<-|[]]] _; reflexivity.
Defined.

Lemma get_study_schedule_omits_orphans_witness :
  In (StudySchedule.mk 1 1 "Monday" 1 "09:00" "11:00" "Morning" 1,
      Subject.mk 1 1 "Mathematics" 1 100 2 1 "Medium" 739030)
     (schedule_join (fst (delete_subject store_scheduled 1 2)) 1)
  /\ StudySchedule.subject_id
       (StudySchedule.mk 1 1 "Monday" 1 "09:00" "11:00" "Morning" 1) <> 2
  /\ get_study_schedule (fst (delete_subject store_scheduled 1 2)) 1
     = [("Monday", "Mathematics", "09:00", "11:00", "Morning", 1)]
  /\ List.length (study_schedule (fst (delete_subject store_scheduled 1 2)))
     = 2%nat.
Proof.
  pose proof (get_study_schedule_omits_orphans store_scheduled 1 2 1) as H.
  destruct H as (_ & _ & Hkept & Hquery & Hgone).
  assert (Hin : In (StudySchedule.mk 1 1 "Monday" 1 "09:00" "11:00" "Morning" 1,
                    Subject.mk 1 1 "Mathematics" 1 100 2 1 "Medium" 739030)
                   (schedule_join (fst (delete_subject store_scheduled 1 2)) 1)).
  { left. reflexivity. }
  split; [exact Hin|].
  split; [exact (Hgone store_scheduled_physics_owner _ _ Hin)|].
  split.
  - rewrite Hquery. reflexivity.
  - rewrite Hkept. reflexivity.
Defined.

(** * Further properties of the pages *)

(** ** Login and registration *)

Section FormProperties.

Variable sha256_hexdigest : string -> string.


Lemma py_len_nonneg (s : string) : 0 <= py_len s.
Proof.
  induction s as [|c s IH]; simpl; [lia|].
  destruct ((128 <=? N_of_ascii c)%N && (N_of_ascii c <? 192)%N); lia.
Qed.

Lemma register_submit_validates_aux
    (d : db) (reg_username reg_password confirm_password reg_name
       reg_email reg_phone : string) :
  match register_submit sha256_hexdigest d reg_username reg_password
          confirm_password reg_name reg_email reg_phone with
  | (d', Success _) =>
      reg_username <> "" /\ reg_password <> "" /\ reg_name <> ""
      /\ reg_password = confirm_password
      /\ 6 <= py_len reg_password
      /\ users_named d reg_username = []
      /\ d' = fst (register_user sha256_hexdigest d reg_username reg_password
                     reg_name reg_email reg_phone)
  | (d', _) => d' = d
  end.
Proof.
  unfold register_submit.
  destruct (String.eqb_spec reg_username "") as [|Hu]; [reflexivity|].
  destruct (String.eqb_spec reg_password "") as [|Hp]; [reflexivity|].
  destruct (String.eqb_spec reg_name "") as [|Hn]; [reflexivity|].
  cbn [orb].
  destruct (String.eqb_spec reg_password confirm_password) as [Hc|];
    [|reflexivity].
  cbn [negb].
  destruct (Z.ltb_spec (py_len reg_password) 6) as [|Hlen]; [reflexivity|].
  unfold register_user.
  destruct (fetchone (users_named d reg_username)) as [u|] eqn:E.
  - reflexivity.
  - apply fetchone_None in E. cbn [fst]. auto 10.
Qed.

(** X2. The Register submit changes the store only when it reports
    success, and it reports success only for a form whose username,
    password and name are filled in, whose two passwords agree, whose
    password has at least 6 characters and whose username no user has. *)
Theorem register_submit_validates
    (d : db) (reg_username reg_password confirm_password reg_name
       reg_email reg_phone : string) :
  match register_submit sha256_hexdigest d reg_username reg_password
          confirm_password reg_name reg_email reg_phone with
  | (d', Success _) =>
      reg_username <> "" /\ reg_password <> "" /\ reg_name <> ""
      /\ reg_password = confirm_password
      /\ 6 <= py_len reg_password
      /\ users_named d reg_username = []
      /\ d' = fst (register_user sha256_hexdigest d reg_username reg_password
                     reg_name reg_email reg_phone)
  | (d', _) => d' = d
  end.
Proof.
  exact (register_submit_validates_aux d reg_username reg_password
           confirm_password reg_name reg_email reg_phone).
Qed.

Lemma next_rowid_gt_seq (ids : list Z) (seq : Z) : seq < next_rowid ids seq.
Proof. unfold next_rowid. lia. Qed.

Lemma next_rowid_gt_ids (ids : list Z) (seq : Z) :
  Forall (fun i => i < next_rowid ids seq) ids.
Proof.
  unfold next_rowid. apply List.Forall_forall. intros i Hi.
  assert (H : i <= fold_right Z.max 0 ids).
  { induction ids as [|x ids IH]; [destruct Hi|]. simpl.
    destruct Hi as [->|Hi]; [lia|]. specialize (IH Hi). lia. }
  lia.
Qed.

Lemma next_rowid_fresh (ids : list Z) (seq : Z) : ~ In (next_rowid ids seq) ids.
Proof.
  intros H. pose proof (next_rowid_gt_ids ids seq) as Hall.
  rewrite List.Forall_forall in Hall. specialize (Hall _ H). lia.
Qed.

Lemma rowids_ok_insert (ids : list Z) (seq : Z) :
  rowids_ok ids seq ->
  rowids_ok (ids ++ [next_rowid ids seq]) (next_rowid ids seq).
Proof.
  intros [Hnd Hle]. split.
  - apply List.NoDup_app; [exact Hnd|repeat constructor; intros []|].
    intros i Hi [<-|[]]. exact (next_rowid_fresh ids seq Hi).
  - apply Forall_app. split.
    + pose proof (next_rowid_gt_ids ids seq) as H.
      eapply List.Forall_impl; [|exact H]. intros i Hi. simpl in Hi. lia.
    + repeat constructor. lia.
Qed.

Lemma users_named_nil_not_in (d : db) (username : string) :
  users_named d username = [] ->
  ~ In username (List.map User.username (users d)).
Proof.
  intros E H. apply in_map_iff in H as (u & Hu & Hin).
  assert (Hf : In u (users_named d username)).
  { apply filter_In. split; [exact Hin|]. rewrite Hu. apply String.eqb_refl. }
  rewrite E in Hf. destruct Hf.
Qed.

(** X3. [register_user] keeps the usernames of the users table distinct
    and its rowids distinct and below the AUTOINCREMENT counter, whether it
    accepts the registration or refuses it: the UNIQUE constraint on
    username is never put to the test. *)
Theorem register_user_keeps_unique
    (d : db) (username password name email phone : string) :
  usernames_unique d ->
  rowids_ok (List.map User.id (users d)) (users_seq d) ->
  let d' := fst (register_user sha256_hexdigest d username password name
                   email phone) in
  usernames_unique d'
  /\ rowids_ok (List.map User.id (users d')) (users_seq d').
Proof.
  intros Hnames Hids d'. subst d'. unfold register_user.
  destruct (fetchone (users_named d username)) as [u|] eqn:E; cbn [fst].
  - split; assumption.
  - apply fetchone_None in E. split.
    + unfold usernames_unique. cbn [users set_users_students].
      rewrite List.map_app. cbn [List.map User.username].
      apply List.NoDup_app; [exact Hnames|repeat constructor; intros []|].
      intros x Hx [<-|[]]. exact (users_named_nil_not_in d username E Hx).
    + cbn [users users_seq set_users_students].
      rewrite List.map_app. cbn [List.map User.id].
      apply rowids_ok_insert, Hids.
Qed.

(** X4. A registration the Register submit accepts can be used at once:
    the Login submit with the same username and password logs that user
    in under the name it registered, with the id of a users row that holds
    the digest of the password, with a profile id, and on the Dashboard
    rather than on the Complete Profile page. *)
Theorem register_then_login
    (d d' : db) (username password confirm name email phone msg : string) :
  register_submit sha256_hexdigest d username password confirm name email phone
  = (d', Success msg) ->
  exists user_id student_id,
    login_submit sha256_hexdigest d' username password
    = LoggedIn username user_id (Some student_id) Dashboard
        ("Welcome back, " ++ name ++ "!")
    /\ In (User.mk user_id username
             (hash_password sha256_hexdigest password) name email phone)
          (users d')
    /\ exists st, In st (students d') /\ Student.id st = student_id
                  /\ Student.user_id st = user_id.
Proof.
  intros Hreg.
  pose proof (register_submit_validates_aux d username password confirm name
                email phone) as H.
  rewrite Hreg in H.
  destruct H as (Hu & Hp & _ & _ & _ & Hfree & ->).
  set (user_id := next_rowid (List.map User.id (users d)) (users_seq d)).
  set (new_user := User.mk user_id username
                     (hash_password sha256_hexdigest password) name email phone).
  assert (Husers : users (fst (register_user sha256_hexdigest d username
                                 password name email phone))
                   = (users d ++ [new_user])%list).
  { unfold register_user. rewrite Hfree. reflexivity. }
  assert (Hstudents :
    students (fst (register_user sha256_hexdigest d username password name
                     email phone))
    = (students d ++
       [Student.mk (next_rowid (List.map Student.id (students d))
                      (students_seq d))
          user_id name None email phone 6 "07:00" "23:00"])%list).
  { unfold register_user. rewrite Hfree. reflexivity. }
  set (d1 := fst (register_user sha256_hexdigest d username password name
                    email phone)) in *.
  assert (Hfound : fetchone (users_named d1 username) = Some new_user).
  { unfold users_named. rewrite Husers, List.filter_app.
    fold (users_named d username). rewrite Hfree.
    cbn [List.filter app new_user User.username].
    rewrite String.eqb_refl. reflexivity. }
  assert (Hprofile :
    exists st rest,
      List.filter (fun st => Student.user_id st =? user_id) (students d1)
      = st :: rest).
  { rewrite Hstudents, List.filter_app.
    cbn [List.filter Student.user_id]. rewrite Z.eqb_refl.
    destruct (List.filter _ (students d)) as [|st rest]; simpl; eauto. }
  destruct Hprofile as (st & rest & Hst).
  exists user_id, (Student.id st). split; [|split].
  - unfold login_submit.
    apply String.eqb_neq in Hu, Hp. rewrite Hu, Hp. cbn [orb].
    unfold login_user. rewrite Hfound.
    cbn [new_user User.password User.id User.name].
    unfold verify_password. rewrite String.eqb_refl.
    rewrite Hst. cbn [fetchone session_username session_user_id
                      session_student_id session_name].
    unfold check_user_profile_exists. rewrite Hst.
    cbn [length]. rewrite Nat2Z.inj_succ.
    destruct (Z.ltb_spec 0 (Z.succ (Z.of_nat (length rest)))); [reflexivity|lia].
  - rewrite Husers. apply in_or_app. right. left. reflexivity.
  - exists st.
    assert (Hin : In st (List.filter (fun st => Student.user_id st =? user_id)
                           (students d1))).
    { rewrite Hst. left. reflexivity. }
    apply filter_In in Hin as [Hin Hid]. apply Z.eqb_eq in Hid. auto.
Qed.

End FormProperties.

(** ** Rowids and deletion of subjects *)

Lemma rowids_ok_filter {A : Type} (id : A -> Z) (f : A -> bool) (l : list A)
    (seq : Z) :
  rowids_ok (List.map id l) seq ->
  rowids_ok (List.map id (List.filter f l)) seq.
Proof.
  intros [Hnd Hle]. split.
  - apply NoDup_map_filter, Hnd.
  - apply List.Forall_forall. intros i Hi.
    apply in_map_iff in Hi as (x & <- & Hx). apply filter_In in Hx as [Hx _].
    rewrite List.Forall_forall in Hle. apply Hle, in_map, Hx.
Qed.

Lemma insert_subject_rowids (d : db) (user_id : Z) (f : subject_form) :
  rowids_ok (List.map Subject.id (subjects d)) (subjects_seq d) ->
  rowids_ok (List.map Subject.id (subjects (insert_subject d user_id f)))
    (subjects_seq (insert_subject d user_id f)).
Proof.
  intros H. unfold insert_subject. cbn [subjects subjects_seq set_subjects].
  rewrite List.map_app. cbn [List.map Subject.id].
  apply rowids_ok_insert, H.
Qed.

(** X5. Every button of the Manage Subjects page keeps the ids of the
    subjects table distinct and below its AUTOINCREMENT counter: an added
    subject gets an id no stored subject has, Save Changes leaves ids as
    they are, and Delete removes rows. *)
Theorem manage_subjects_keeps_ids (d : db) (user_id : Z) (a : subject_action) :
  rowids_ok (List.map Subject.id (subjects d)) (subjects_seq d) ->
  let d' := fst (manage_subjects d user_id a) in
  rowids_ok (List.map Subject.id (subjects d')) (subjects_seq d')
  /\ subject_ids_unique d'.
Proof.
  intros H d'.
  assert (Hok : rowids_ok (List.map Subject.id (subjects d')) (subjects_seq d')).
  { subst d'. unfold manage_subjects.
    destruct (subjects_of d user_id) as [|s0 l]; destruct a; try exact H.
    - unfold add_first_subject.
      destruct (String.eqb (form_subject_name f) ""); [exact H|].
      apply insert_subject_rowids, H.
    - destruct (existsb _ (s0 :: l)); [|exact H].
      unfold save_changes. cbn [fst subjects subjects_seq set_subjects].
      rewrite List.map_map.
      replace (List.map _ (subjects d)) with (List.map Subject.id (subjects d));
        [exact H|].
      apply map_ext. intros s.
      destruct ((Subject.id s =? sub_id) && (Subject.user_id s =? user_id));
        reflexivity.
    - destruct (existsb _ (s0 :: l)); [|exact H].
      unfold delete_subject. cbn [fst subjects subjects_seq set_subjects].
      apply rowids_ok_filter, H.
    - unfold add_new_subject.
      destruct (String.eqb (form_subject_name f) ""); [exact H|].
      destruct (0 <? _); [exact H|].
      apply insert_subject_rowids, H. }
  split; [exact Hok|]. exact (proj1 Hok).
Qed.

Lemma select_subject_after_delete (d : db) (user_id sub_id : Z) :
  select_subject (fst (delete_subject d user_id sub_id)) sub_id user_id = [].
Proof.
  unfold select_subject, delete_subject. cbn [fst subjects set_subjects].
  apply (filter_filter_negb
           (fun s => (Subject.id s =? sub_id) && (Subject.user_id s =? user_id))).
Qed.

(** X6. Deleting a subject deletes only rows that match both the id and
    the user, and does not cascade: subjects of other users stay, and
    daily_progress and study_schedule are as they were, so the per-date
    rows of every weekly analysis are unchanged, while the progress of the
    deleted subject reads (0, 0, 0) from then on. *)
Theorem delete_subject_no_cascade (d : db) (user_id sub_id : Z) :
  let d' := fst (delete_subject d user_id sub_id) in
  daily_progress d' = daily_progress d
  /\ study_schedule d' = study_schedule d
  /\ (forall viewer start_date end_date,
        fst (get_weekly_analysis d' viewer start_date end_date)
        = fst (get_weekly_analysis d viewer start_date end_date))
  /\ calculate_subject_progress d' user_id sub_id = (0%Q, 0%Q, 0)
  /\ (forall s, In s (subjects d) ->
                (Subject.user_id s <> user_id \/ Subject.id s <> sub_id) ->
                In s (subjects d'))
  /\ (forall s, In s (subjects d') -> In s (subjects d)).
Proof.
  intros d'. subst d'.
  split; [reflexivity|]. split; [reflexivity|]. split; [reflexivity|].
  split; [|split].
  - unfold calculate_subject_progress.
    rewrite select_subject_after_delete. reflexivity.
  - intros s Hs Hne. unfold delete_subject. cbn [fst subjects set_subjects].
    apply filter_In. split; [exact Hs|]. apply negb_true_iff.
    apply andb_false_iff.
    destruct Hne as [Hne|Hne]; [right|left]; apply Z.eqb_neq, Hne.
  - intros s Hs. unfold delete_subject in Hs. cbn [fst subjects set_subjects] in Hs.
    apply filter_In in Hs as [Hs _]. exact Hs.
Qed.

(** ** The Daily Entry: keys, read-back and report *)

Lemma same_key_progress_key (v : progress_values) (r : DailyProgress.row) :
  same_key v r = true
  <-> progress_key r = (v_user_id v, v_subject_id v, v_date v).
Proof.
  unfold same_key, progress_key. rewrite !andb_true_iff, !Z.eqb_eq.
  split.
  - intros [[-> ->] ->]. reflexivity.
  - intros [= -> -> ->]. auto.
Qed.

Lemma insert_or_replace_keys_unique (d : db) (v : progress_values) :
  progress_keys_unique d -> progress_keys_unique (insert_or_replace d v).
Proof.
  unfold progress_keys_unique, insert_or_replace.
  cbn [daily_progress set_daily_progress]. intros H.
  rewrite List.map_app. cbn [List.map].
  apply List.NoDup_app.
  - apply NoDup_map_filter, H.
  - repeat constructor. intros [].
  - intros k Hk [<-|[]].
    apply in_map_iff in Hk as (r & Hr & Hin).
    apply filter_In in Hin as [_ Hneg]. apply negb_true_iff in Hneg.
    assert (Hsame : same_key v r = true).
    { apply same_key_progress_key. rewrite Hr. reflexivity. }
    congruence.
Qed.

(** X7. The Daily Entry submit keeps UNIQUE(user_id, subject_id, date):
    a table with at most one row per key has at most one row per key after
    any number of INSERT OR REPLACE statements. *)
Theorem save_daily_entry_keeps_keys_unique
    (d : db) (user_id : Z) (entry_date : date)
    (daily_data : list subject_entry) (exercise_done : bool)
    (exercise_minutes : Z) (mood notes : string) :
  progress_keys_unique d ->
  progress_keys_unique
    (save_daily_entry d user_id entry_date daily_data exercise_done
       exercise_minutes mood notes).
Proof.
  unfold save_daily_entry. revert d.
  induction daily_data as [|e l IH]; intros d H; [exact H|].
  cbn [fold_left]. apply IH, insert_or_replace_keys_unique, H.
Qed.

Lemma progress_on_insert_same (d : db) (v : progress_values) :
  progress_on (insert_or_replace d v) (v_user_id v) (v_subject_id v) (v_date v)
  = [row_of (daily_progress_seq (insert_or_replace d v)) v].
Proof. exact (insert_or_replace_key d v). Qed.

Lemma progress_on_insert_other (d : db) (v : progress_values)
    (user_id subject_id : Z) (day : date) :
  (v_user_id v, v_subject_id v, v_date v) <> (user_id, subject_id, day) ->
  progress_on (insert_or_replace d v) user_id subject_id day
  = progress_on d user_id subject_id day.
Proof.
  intros Hne. unfold progress_on, insert_or_replace.
  cbn [daily_progress set_daily_progress].
  rewrite List.filter_app. cbn [List.filter row_of DailyProgress.user_id
    DailyProgress.subject_id DailyProgress.date].
  replace ((v_user_id v =? user_id) && (v_subject_id v =? subject_id)
           && (v_date v =? day)) with false.
  2:{ symmetry. apply not_true_is_false. intros H.
      apply andb_true_iff in H as [H H3]. apply andb_true_iff in H as [H1 H2].
      apply Z.eqb_eq in H1, H2, H3. apply Hne. congruence. }
  rewrite app_nil_r, filter_filter_andb. apply filter_ext_in.
  intros r _.
  destruct ((DailyProgress.user_id r =? user_id)
            && (DailyProgress.subject_id r =? subject_id)
            && (DailyProgress.date r =? day)) eqn:E;
    [|apply andb_false_r].
  rewrite andb_true_r. apply negb_true_iff. apply not_true_is_false.
  intros Hsame. apply same_key_progress_key in Hsame.
  apply andb_true_iff in E as [E E3]. apply andb_true_iff in E as [E1 E2].
  apply Z.eqb_eq in E1, E2, E3. apply Hne.
  unfold progress_key in Hsame. congruence.
Qed.

Lemma save_daily_entry_subjects (d : db) (user_id : Z) (entry_date : date)
    (daily_data : list subject_entry) (exercise_done : bool)
    (exercise_minutes : Z) (mood notes : string) :
  subjects (save_daily_entry d user_id entry_date daily_data exercise_done
              exercise_minutes mood notes) = subjects d
  /\ exercises (save_daily_entry d user_id entry_date daily_data exercise_done
                  exercise_minutes mood notes) = exercises d.
Proof.
  unfold save_daily_entry. revert d.
  induction daily_data as [|e l IH]; intros d; [split; reflexivity|].
  cbn [fold_left]. destruct (IH (insert_or_replace d
    (mk_progress_values user_id (entry_subject_id e) entry_date
       (entry_lecture_hours e) (entry_question_hours e)
       (entry_questions_solved e) exercise_done exercise_minutes mood notes)))
    as [-> ->].
  split; reflexivity.
Qed.

(** The row a saved entry leaves for its subject, when the form has one
    entry per subject. *)
Lemma save_daily_entry_progress_on (user_id : Z) (entry_date : date)
    (exercise_done : bool) (exercise_minutes : Z) (mood notes : string)
    (daily_data : list subject_entry) :
  forall (d : db) (e : subject_entry),
    List.NoDup (List.map entry_subject_id daily_data) ->
    In e daily_data ->
    exists rowid,
      progress_on
        (save_daily_entry d user_id entry_date daily_data exercise_done
           exercise_minutes mood notes)
        user_id (entry_subject_id e) entry_date
      = [row_of rowid
           (mk_progress_values user_id (entry_subject_id e) entry_date
              (entry_lecture_hours e) (entry_question_hours e)
              (entry_questions_solved e) exercise_done exercise_minutes
              mood notes)].
Proof.
  unfold save_daily_entry.
  induction daily_data as [|x l IH]; intros d e Hnd Hin; [destruct Hin|].
  cbn [List.map] in Hnd. apply List.NoDup_cons_iff in Hnd as [Hx Hnd].
  cbn [fold_left].
  destruct Hin as [<-|Hin]; [|apply IH; assumption].
  set (vx := mk_progress_values user_id (entry_subject_id x) entry_date
               (entry_lecture_hours x) (entry_question_hours x)
               (entry_questions_solved x) exercise_done exercise_minutes
               mood notes).
  exists (daily_progress_seq (insert_or_replace d vx)).
  rewrite <- (progress_on_insert_same d vx). cbn [vx v_user_id v_subject_id v_date].
  clear IH Hnd. revert Hx. generalize (insert_or_replace d vx). clear d.
  induction l as [|y l IHl]; intros d Hx; [reflexivity|].
  cbn [fold_left]. rewrite IHl.
  - apply progress_on_insert_other. cbn [v_user_id v_subject_id v_date].
    intros [= E]. apply Hx. left. exact E.
  - intros H. apply Hx. right. exact H.
Qed.

Lemma or_zero_Some (q : Q) : (or_zero_Q (Some q) == q)%Q.
Proof.
  unfold or_zero_Q. destruct (Qeq_bool q 0) eqn:E; [|reflexivity].
  apply Qeq_bool_iff in E. symmetry. exact E.
Qed.

(** X8. What the Daily Entry submit saves is what the form reads back:
    when the form has one entry per subject, [get_existing_progress_data]
    for the user, a subject of the form and the entry date returns that
    entry's hours and questions solved, and the exercise flag, minutes and
    notes of the submit; the mood too, unless it is empty. *)
Theorem save_then_get_existing_progress
    (d : db) (user_id : Z) (entry_date : date)
    (daily_data : list subject_entry) (exercise_done : bool)
    (exercise_minutes : Z) (mood notes : string) (e : subject_entry) :
  List.NoDup (List.map entry_subject_id daily_data) ->
  In e daily_data ->
  exists found,
    get_existing_progress_data
      (save_daily_entry d user_id entry_date daily_data exercise_done
         exercise_minutes mood notes)
      user_id (entry_subject_id e) entry_date = Some found
    /\ (ep_lecture_hours found == entry_lecture_hours e)%Q
    /\ (ep_question_hours found == entry_question_hours e)%Q
    /\ ep_questions_solved found = entry_questions_solved e
    /\ ep_exercise_done found = exercise_done
    /\ ep_exercise_minutes found = exercise_minutes
    /\ ep_mood found = or_text mood "🙂 Good"
    /\ ep_notes found = notes.
Proof.
  intros Hnd Hin.
  destruct (save_daily_entry_progress_on user_id entry_date exercise_done
              exercise_minutes mood notes daily_data d e Hnd Hin)
    as [rowid Hrow].
  unfold get_existing_progress_data. rewrite Hrow.
  cbn [fetchone row_of DailyProgress.lecture_hours_actual
       DailyProgress.question_hours_actual DailyProgress.questions_solved
       DailyProgress.exercise_done DailyProgress.exercise_minutes
       DailyProgress.mood DailyProgress.notes
       v_lecture_hours_actual v_question_hours_actual v_questions_solved
       v_exercise_done v_exercise_minutes v_mood v_notes].
  eexists. split; [reflexivity|].
  cbn [ep_lecture_hours ep_question_hours ep_questions_solved ep_exercise_done
       ep_exercise_minutes ep_mood ep_notes].
  repeat split; apply or_zero_Some.
Qed.









(** ** The weekly analysis *)

Lemma with_exercise_dates (daily : list (date * Q * Q * Z * Z))
    (exercise : list (bool * Z)) (i : nat) :
  List.map ds_date (with_exercise daily exercise i)
  = List.map (fun t => fst (fst (fst (fst t)))) daily.
Proof.
  revert i. induction daily as [|[[[[day tl] tq] tn] sc] rest IH]; intros i;
    [reflexivity|].
  cbn [with_exercise List.map ds_date fst]. f_equal. apply IH.
Qed.

Lemma weekly_dates (d : db) (user_id : Z) (start_date end_date : date) :
  List.map ds_date (fst (get_weekly_analysis d user_id start_date end_date))
  = sort_by Z.leb
      (nodup Z.eq_dec
         (List.map DailyProgress.date
            (progress_between d user_id start_date end_date))).
Proof.
  unfold get_weekly_analysis. cbn [fst]. rewrite with_exercise_dates.
  unfold daily_data. rewrite List.map_map. cbn [fst]. apply map_id.
Qed.

Lemma Zleb_total (a b : Z) : (a <=? b) = false -> (b <=? a) = true.
Proof. rewrite Z.leb_gt, Z.leb_le. lia. Qed.

Lemma Zleb_trans (a b c : Z) :
  (a <=? b) = true -> (b <=? c) = true -> (a <=? c) = true.
Proof. rewrite !Z.leb_le. lia. Qed.

Lemma sorted_nodup_strict (l : list Z) :
  StronglySorted (fun a b => (a <=? b) = true) l -> List.NoDup l ->
  StronglySorted Z.lt l.
Proof.
  induction 1 as [|x l Hl IH Hx]; intros Hnd; constructor.
  - apply IH. apply List.NoDup_cons_iff in Hnd as [_ Hnd]. exact Hnd.
  - apply List.NoDup_cons_iff in Hnd as [Hnot _].
    apply List.Forall_forall. intros y Hy.
    rewrite List.Forall_forall in Hx. specialize (Hx y Hy).
    apply Z.leb_le in Hx.
    assert (x <> y) by (intros ->; contradiction). lia.
Qed.

Lemma progress_between_In (d : db) (user_id : Z) (start_date end_date : date)
    (r : DailyProgress.row) :
  In r (progress_between d user_id start_date end_date)
  <-> In r (daily_progress d) /\ DailyProgress.user_id r = user_id
      /\ start_date <= DailyProgress.date r <= end_date.
Proof.
  unfold progress_between. rewrite filter_In, !andb_true_iff, Z.eqb_eq,
    !Z.leb_le. tauto.
Qed.

(** X10. The per-date rows of the weekly analysis are in strictly
    ascending order of date, one for each date of the range on which the
    user has a daily_progress row and none for any other date: a day
    without an entry is left out, not filled with zeros. *)
Theorem weekly_analysis_dates (d : db) (user_id : Z) (start_date end_date : date) :
  let dates :=
    List.map ds_date
      (fst (get_weekly_analysis d user_id start_date end_date)) in
  StronglySorted Z.lt dates
  /\ forall day,
       In day dates
       <-> start_date <= day <= end_date
           /\ exists r, In r (daily_progress d)
                        /\ DailyProgress.user_id r = user_id
                        /\ DailyProgress.date r = day.
Proof.
  intros dates. subst dates. rewrite weekly_dates. split.
  - apply sorted_nodup_strict.
    + apply sort_by_sorted; [exact Zleb_total|exact Zleb_trans].
    + eapply Permutation_NoDup; [symmetry; apply sort_by_perm|].
      apply List.NoDup_nodup.
  - intros day. rewrite sort_by_In, nodup_In, in_map_iff. split.
    + intros (r & <- & Hr). apply progress_between_In in Hr as (Hin & Hu & Hd).
      split; [exact Hd|]. exists r. auto.
    + intros (Hd & r & Hin & Hu & <-). exists r. split; [reflexivity|].
      apply progress_between_In. auto.
Qed.

Lemma sort_by_all_le {A : Type} (leb : A -> A -> bool) (l : list A) :
  (forall a b, In a l -> In b l -> leb a b = true) -> sort_by leb l = l.
Proof.
  induction l as [|x l IH]; intros H; [reflexivity|].
  cbn [sort_by fold_right]. fold (sort_by leb l).
  rewrite IH by (intros a b Ha Hb; apply H; right; assumption).
  destruct l as [|y l]; [reflexivity|]. cbn [insert_by].
  rewrite H; [reflexivity|left; reflexivity|right; left; reflexivity].
Qed.

(** X11. When the user has no daily_progress row dated within the range
    (in particular when the range is inverted), the weekly analysis has no
    per-date row, and its per-subject list has one row per subject of the
    user, in the order of the subjects table, all zeros. *)
Theorem weekly_analysis_without_entries
    (d : db) (user_id : Z) (start_date end_date : date) :
  (forall r, In r (daily_progress d) -> DailyProgress.user_id r = user_id ->
             ~ (start_date <= DailyProgress.date r <= end_date)) ->
  get_weekly_analysis d user_id start_date end_date
  = ([],
     List.map (fun s => mk_subject_summary (Subject.subject_name s) 0 0 0 0)
       (List.filter (fun s => Subject.user_id s =? user_id) (subjects d))).
Proof.
  intros Hnone.
  assert (Hbetween : progress_between d user_id start_date end_date = []).
  { destruct (progress_between d user_id start_date end_date) as [|r l] eqn:E;
      [reflexivity|].
    assert (Hr : In r (progress_between d user_id start_date end_date))
      by (rewrite E; left; reflexivity).
    apply progress_between_In in Hr as (Hin & Hu & Hd).
    exfalso. exact (Hnone r Hin Hu Hd). }
  unfold get_weekly_analysis. f_equal.
  - unfold daily_data. rewrite Hbetween. reflexivity.
  - unfold subject_data.
    assert (Hjoin : forall s,
      List.filter
        (fun dp => (Subject.id s =? DailyProgress.subject_id dp)
                   && (start_date <=? DailyProgress.date dp)
                   && (DailyProgress.date dp <=? end_date)
                   && (DailyProgress.user_id dp =? user_id))
        (daily_progress d) = []).
    { intros s.
      destruct (List.filter _ (daily_progress d)) as [|r l] eqn:E;
        [reflexivity|].
      assert (Hr : In r (r :: l)) by (left; reflexivity).
      rewrite <- E in Hr. apply filter_In in Hr as [Hin Hc].
      rewrite !andb_true_iff, !Z.leb_le, !Z.eqb_eq in Hc.
      exfalso. apply (Hnone r Hin); [tauto|lia]. }
    rewrite (map_ext _
               (fun s => mk_subject_summary (Subject.subject_name s) 0 0 0 0)).
    2:{ intros s. rewrite Hjoin. reflexivity. }
    apply sort_by_all_le. intros a b Ha Hb.
    apply in_map_iff in Ha as (sa & <- & _).
    apply in_map_iff in Hb as (sb & <- & _). reflexivity.
Qed.

Lemma with_exercise_length (daily : list (date * Q * Q * Z * Z))
    (exercise : list (bool * Z)) (i : nat) :
  length (with_exercise daily exercise i) = length daily.
Proof.
  revert i. induction daily as [|[[[[day tl] tq] tn] sc] rest IH]; intros i;
    [reflexivity|].
  cbn [with_exercise length]. f_equal. apply IH.
Qed.

Lemma with_exercise_rate (daily : list (date * Q * Q * Z * Z))
    (exercise : list (bool * Z)) :
  forall (k i : nat) (row : day_summary),
    nth_error (with_exercise daily exercise k) i = Some row ->
    ds_exercise_rate row
    = match nth_error exercise (k + i) with
      | Some (done, _) => if done then 1%Q else 0%Q
      | None => 0%Q
      end.
Proof.
  induction daily as [|[[[[day tl] tq] tn] sc] rest IH]; intros k i row H.
  - destruct i; discriminate H.
  - destruct i as [|i]; cbn [with_exercise nth_error] in H.
    + injection H as <-. rewrite Nat.add_0_r. reflexivity.
    + rewrite (IH (S k) i row H). rewrite Nat.add_succ_r. reflexivity.
Qed.

Lemma dates_from_to_In (start_date end_date day : date) :
  In day (dates_from_to start_date end_date)
  <-> start_date <= day <= end_date.
Proof.
  unfold dates_from_to. rewrite in_map_iff. split.
  - intros (i & <- & Hi). apply in_seq in Hi. lia.
  - intros H. exists (Z.to_nat (day - start_date)). split; [lia|].
    apply in_seq. lia.
Qed.

Lemma dates_from_to_nth (start_date end_date : date) (i : nat) :
  (i < Z.to_nat (end_date - start_date + 1))%nat ->
  nth_error (dates_from_to start_date end_date) i
  = Some (start_date + Z.of_nat i).
Proof.
  intros H. unfold dates_from_to.
  rewrite nth_error_map, nth_error_seq.
  destruct (Nat.ltb_spec i (Z.to_nat (end_date - start_date + 1)));
    [reflexivity|lia].
Qed.

Lemma daily_data_length (d : db) (user_id : Z) (start_date end_date : date) :
  (length (daily_data d user_id start_date end_date)
   <= Z.to_nat (end_date - start_date + 1))%nat.
Proof.
  unfold daily_data. rewrite length_map.
  rewrite (Permutation_length (sort_by_perm Z.leb _)).
  replace (Z.to_nat (end_date - start_date + 1))
    with (length (dates_from_to start_date end_date))
    by (unfold dates_from_to; rewrite length_map, length_seq; reflexivity).
  apply List.NoDup_incl_length; [apply List.NoDup_nodup|].
  intros day Hday. apply nodup_In in Hday.
  apply in_map_iff in Hday as (r & <- & Hr).
  apply progress_between_In in Hr as (_ & _ & Hd).
  apply dates_from_to_In, Hd.
Qed.

(** X12. The exercise rate of the i-th per-date row of the weekly
    analysis is that of the i-th day of the range, start_date + i, whatever
    the date of the row: 1.0 when the user has a row with the exercise flag
    on that day, else 0.0.  The two agree only for the rows that come
    before the first day without an entry. *)
Theorem weekly_analysis_exercise_rate_by_position
    (d : db) (user_id : Z) (start_date end_date : date)
    (i : nat) (row : day_summary) :
  nth_error (fst (get_weekly_analysis d user_id start_date end_date)) i
  = Some row ->
  start_date + Z.of_nat i <= end_date
  /\ ds_exercise_rate row
     = if fst (exercise_on d user_id (start_date + Z.of_nat i))
       then 1%Q else 0%Q.
Proof.
  unfold get_weekly_analysis. cbn [fst]. intros H.
  assert (Hi : (i < Z.to_nat (end_date - start_date + 1))%nat).
  { assert (Hlt : (i < length (with_exercise
                                 (daily_data d user_id start_date end_date)
                                 (exercise_data d user_id start_date end_date) 0))%nat).
    { apply nth_error_Some. rewrite H. discriminate. }
    rewrite with_exercise_length in Hlt.
    pose proof (daily_data_length d user_id start_date end_date). lia. }
  split; [lia|].
  rewrite (with_exercise_rate _ _ 0 i row H). cbn [Nat.add].
  unfold exercise_data. rewrite nth_error_map.
  rewrite (dates_from_to_nth start_date end_date i Hi). cbn [option_map].
  destruct (exercise_on d user_id (start_date + Z.of_nat i)) as [done minutes].
  reflexivity.
Qed.

Lemma Qle_bool_total (a b : Q) : Qle_bool a b = false -> Qle_bool b a = true.
Proof.
  intros H. apply Qle_bool_iff. apply Qlt_le_weak. apply Qnot_le_lt.
  intros Hle. apply Qle_bool_iff in Hle. congruence.
Qed.

Lemma Qle_bool_trans (a b c : Q) :
  Qle_bool a b = true -> Qle_bool b c = true -> Qle_bool a c = true.
Proof. rewrite !Qle_bool_iff. apply Qle_trans. Qed.

(** X13. The per-subject list of the weekly analysis has one row for
    each subject of the user, whether it was studied in the range or not
    (its names are those of the user's subjects, rearranged), in descending
    order of lecture plus question hours. *)
Theorem weekly_analysis_subjects
    (d : db) (user_id : Z) (start_date end_date : date) :
  let rows := snd (get_weekly_analysis d user_id start_date end_date) in
  Permutation (List.map ss_subject_name rows)
    (List.map Subject.subject_name
       (List.filter (fun s => Subject.user_id s =? user_id) (subjects d)))
  /\ StronglySorted
       (fun a b => (ss_total_lecture b + ss_total_question b
                    <= ss_total_lecture a + ss_total_question a)%Q)
       rows.
Proof.
  intros rows. subst rows. unfold get_weekly_analysis. cbn [snd].
  unfold subject_data. split.
  - rewrite (Permutation_map ss_subject_name (sort_by_perm _ _)).
    rewrite List.map_map. cbn [ss_subject_name]. reflexivity.
  - rewrite <- (map_id (sort_by _ _)).
    apply StronglySorted_map
      with (R := fun a b =>
                   Qle_bool (ss_total_lecture b + ss_total_question b)
                            (ss_total_lecture a + ss_total_question a) = true).
    + intros a b Hab. apply Qle_bool_iff, Hab.
    + apply sort_by_sorted.
      * intros a b. apply Qle_bool_total.
      * intros a b c Hab Hbc. exact (Qle_bool_trans _ _ _ Hbc Hab).
Qed.

(** ** Saving the study schedule *)

Lemma filter_all_false {A : Type} (f : A -> bool) (l : list A) :
  Forall (fun x => f x = false) l -> List.filter f l = [].
Proof.
  induction 1 as [|x l Hx _ IH]; [reflexivity|]. simpl. rewrite Hx. exact IH.
Qed.

(** What a save leaves in the store: the subjects and the slots of other
    users as they were, and for the user the slots of the items that name a
    subject of theirs. *)
Lemma save_study_schedule_slots (d : db) (user_id : Z)
    (items : list schedule_item) :
  subjects (save_study_schedule d user_id items) = subjects d
  /\ List.filter (fun ss => negb (StudySchedule.user_id ss =? user_id))
       (study_schedule (save_study_schedule d user_id items))
     = List.filter (fun ss => negb (StudySchedule.user_id ss =? user_id))
         (study_schedule d)
  /\ Forall2
       (fun ss item =>
          exists s,
            List.find
              (fun s =>
                 String.eqb (Subject.subject_name s) (item_subject item)
                 && (Subject.user_id s =? user_id))
              (subjects d) = Some s
            /\ slot_values ss
               = (user_id, item_day item, Subject.id s,
                  item_start_time item, item_end_time item,
                  item_session_type item,
                  priority_of (item_session_type item)))
       (List.filter (fun ss => StudySchedule.user_id ss =? user_id)
          (study_schedule (save_study_schedule d user_id items)))
       (List.filter (item_resolves d user_id) items).
Proof.
  unfold save_study_schedule.
  set (others := List.filter
                   (fun ss => negb (StudySchedule.user_id ss =? user_id))
                   (study_schedule d)).
  destruct (save_schedule_items_slots user_id d items
              (set_study_schedule d others (study_schedule_seq d)) eq_refl)
    as (Hsub & added & Hsch & Hall).
  cbn [study_schedule set_study_schedule] in Hsch.
  rewrite Hsch, !List.filter_app.
  assert (Hown : Forall (fun ss => StudySchedule.user_id ss = user_id) added).
  { clear -Hall.
    induction Hall as [|ss item l l' (s & _ & Hval) _ IH];
      constructor; [|exact IH].
    unfold slot_values in Hval. congruence. }
  assert (Hadded_mine :
    List.filter (fun ss => StudySchedule.user_id ss =? user_id) added = added).
  { apply filter_all_true. eapply List.Forall_impl; [|exact Hown].
    intros ss Hu. apply Z.eqb_eq, Hu. }
  assert (Hadded_others :
    List.filter (fun ss => negb (StudySchedule.user_id ss =? user_id)) added = []).
  { apply filter_all_false. eapply List.Forall_impl; [|exact Hown].
    intros ss Hu. apply negb_false_iff, Z.eqb_eq, Hu. }
  rewrite Hadded_mine, Hadded_others, app_nil_r.
  unfold others.
  rewrite filter_negb_idem.
  rewrite (filter_filter_negb (fun ss => StudySchedule.user_id ss =? user_id)).
  cbn [app].
  split; [exact Hsub|]. split; [reflexivity|exact Hall].
Qed.

(** X14. Saving a study schedule replaces the slots of that user and of
    no one else: the slots of other users and the subjects are as they
    were, and the user's slots afterwards are, in the order of the form, one
    for each submitted item that names a subject of the user, and no other.
    The slot of an item has the item's day, times and session, priority 1, 2
    or 3 as the session is Morning, Afternoon or anything else, and the id
    of the first subject of the user that has the item's subject name.  An
    item whose subject box is empty or names no subject of the user leaves no
    slot: when no item names a subject of the user, the user has no slot
    left. *)
Theorem save_study_schedule_replaces (d : db) (user_id : Z)
    (schedule_data : list schedule_item) :
  let d' := save_study_schedule d user_id schedule_data in
  let mine := List.filter (fun ss => StudySchedule.user_id ss =? user_id)
                (study_schedule d') in
  List.filter (fun ss => negb (StudySchedule.user_id ss =? user_id))
    (study_schedule d')
  = List.filter (fun ss => negb (StudySchedule.user_id ss =? user_id))
      (study_schedule d)
  /\ subjects d' = subjects d
  /\ (length mine <= length schedule_data)%nat
  /\ Forall2
       (fun ss item =>
          StudySchedule.user_id ss = user_id
          /\ StudySchedule.day_of_week ss = item_day item
          /\ StudySchedule.start_time ss = item_start_time item
          /\ StudySchedule.end_time ss = item_end_time item
          /\ StudySchedule.session_type ss = item_session_type item
          /\ StudySchedule.priority ss
             = (if String.eqb (item_session_type item) "Morning" then 1
                else if String.eqb (item_session_type item) "Afternoon" then 2
                     else 3)
          /\ item_subject item <> ""
          /\ exists s,
               List.find
                 (fun s =>
                    String.eqb (Subject.subject_name s) (item_subject item)
                    && (Subject.user_id s =? user_id))
                 (subjects d) = Some s
               /\ In s (subjects d)
               /\ Subject.user_id s = user_id
               /\ Subject.subject_name s = item_subject item
               /\ StudySchedule.subject_id ss = Subject.id s)
       mine (List.filter (item_resolves d user_id) schedule_data)
  /\ ((forall item s,
         In item schedule_data -> In s (subjects d) ->
         Subject.user_id s = user_id ->
         Subject.subject_name s <> item_subject item) ->
      mine = []).
Proof.
  intros d' mine. subst mine d'.
  destruct (save_study_schedule_slots d user_id schedule_data)
    as (Hsub & Hothers & Hall).
  split; [exact Hothers|]. split; [exact Hsub|]. split; [|split].
  - rewrite (List.Forall2_length Hall). apply List.filter_length_le.
  - assert (Hres : Forall (fun item => item_resolves d user_id item = true)
                     (List.filter (item_resolves d user_id) schedule_data)).
    { apply List.Forall_forall. intros item Hitem.
      apply filter_In in Hitem as [_ H]. exact H. }
    revert Hres. clear -Hall.
    induction Hall as [|ss item l l' (s & Hfind & Hval) _ IH];
      intros Hres; [constructor|].
    apply List.Forall_cons_iff in Hres as [Hitem Hres].
    constructor; [|exact (IH Hres)].
    unfold item_resolves in Hitem. apply andb_true_iff in Hitem as [Hne _].
    apply negb_true_iff, String.eqb_neq in Hne.
    pose proof (List.find_some _ _ Hfind) as [Hin Hp].
    apply andb_true_iff in Hp as [Hname Huser].
    apply String.eqb_eq in Hname. apply Z.eqb_eq in Huser.
    unfold slot_values in Hval.
    injection Hval as Hu Hday Hid Hstart Hend Hsess Hprio.
    repeat (split; [assumption|]).
    exists s. repeat (split; [assumption|]). exact Hid.
  - intros Hnone.
    replace (List.filter (item_resolves d user_id) schedule_data)
      with (@nil schedule_item) in Hall; [inversion Hall; reflexivity|].
    symmetry. apply filter_all_false. apply List.Forall_forall.
    intros item Hitem. unfold item_resolves.
    apply andb_false_iff. right.
    destruct (existsb _ (subjects d)) eqn:E; [|reflexivity].
    exfalso. apply existsb_exists in E as (s & Hin & Hp).
    apply andb_true_iff in Hp as [Hname Huser].
    apply String.eqb_eq in Hname. apply Z.eqb_eq in Huser.
    exact (Hnone item s Hitem Hin Huser Hname).
Qed.

Lemma Forall2_refl_eq {A : Type} (R : A -> A -> Prop) (l : list A) :
  (forall x, R x x) -> Forall2 R l l.
Proof. intros H. induction l; constructor; auto. Qed.

Lemma save_schedule_item_related (user_id : Z) (item : schedule_item)
    (d1 d2 : db) :
  subjects d1 = subjects d2 ->
  Forall2 (fun a b => slot_values a = slot_values b)
    (study_schedule d1) (study_schedule d2) ->
  subjects (save_schedule_item user_id d1 item)
  = subjects (save_schedule_item user_id d2 item)
  /\ Forall2 (fun a b => slot_values a = slot_values b)
       (study_schedule (save_schedule_item user_id d1 item))
       (study_schedule (save_schedule_item user_id d2 item)).
Proof.
  intros Hsub Hsch. unfold save_schedule_item. rewrite Hsub.
  destruct (String.eqb (item_subject item) ""); [split; assumption|].
  destruct (fetchone _) as [s|]; [|split; assumption].
  cbn [subjects study_schedule set_study_schedule]. split; [exact Hsub|].
  apply Forall2_app; [exact Hsch|]. constructor; [reflexivity|constructor].
Qed.

Lemma save_schedule_items_related (user_id : Z) (items : list schedule_item) :
  forall d1 d2 : db,
    subjects d1 = subjects d2 ->
    Forall2 (fun a b => slot_values a = slot_values b)
      (study_schedule d1) (study_schedule d2) ->
    subjects (fold_left (save_schedule_item user_id) items d1)
    = subjects (fold_left (save_schedule_item user_id) items d2)
    /\ Forall2 (fun a b => slot_values a = slot_values b)
         (study_schedule (fold_left (save_schedule_item user_id) items d1))
         (study_schedule (fold_left (save_schedule_item user_id) items d2)).
Proof.
  induction items as [|item items IH]; intros d1 d2 Hsub Hsch;
    [split; assumption|].
  cbn [fold_left].
  destruct (save_schedule_item_related user_id item d1 d2 Hsub Hsch) as [H1 H2].
  apply IH; assumption.
Qed.

(** The schedule query reads the slots through their columns, not their
    rowids. *)
Lemma get_study_schedule_related (d1 d2 : db) (viewer : Z) :
  subjects d1 = subjects d2 ->
  Forall2 (fun a b => slot_values a = slot_values b)
    (study_schedule d1) (study_schedule d2) ->
  get_study_schedule d1 viewer = get_study_schedule d2 viewer.
Proof.
  intros Hsub Hsch. unfold get_study_schedule.
  set (R2 := fun a b : StudySchedule.row * Subject.row =>
               slot_values (fst a) = slot_values (fst b) /\ snd a = snd b).
  assert (Hjoin : Forall2 R2 (schedule_join d1 viewer) (schedule_join d2 viewer)).
  { unfold schedule_join. rewrite Hsub.
    induction Hsch as [|a b l l' Hab Hl IH]; [constructor|].
    cbn [List.filter].
    assert (Hu : StudySchedule.user_id a = StudySchedule.user_id b)
      by (unfold slot_values in Hab; congruence).
    assert (Hs : StudySchedule.subject_id a = StudySchedule.subject_id b)
      by (unfold slot_values in Hab; congruence).
    rewrite Hu. destruct (StudySchedule.user_id b =? viewer); [|exact IH].
    cbn [flat_map]. apply Forall2_app; [|exact IH].
    rewrite Hs.
    induction (List.filter _ (subjects d2)) as [|s rest IHr];
      constructor; [split; [exact Hab|reflexivity]|exact IHr]. }
  assert (Hsorted :
    Forall2 R2 (sort_by schedule_order (schedule_join d1 viewer))
               (sort_by schedule_order (schedule_join d2 viewer))).
  { apply sort_by_along with (R := R2); [|exact Hjoin].
    intros [a s] [b t] [c u] [e v] [Hab _] [Hce _]. cbn [fst] in Hab, Hce.
    unfold schedule_order, schedule_key. cbn [fst].
    unfold slot_values in Hab, Hce.
    injection Hab as _ Hday _ Hstart _ _ Hprio.
    injection Hce as _ Hday' _ Hstart' _ _ Hprio'.
    congruence. }
  induction Hsorted as [|[a s] [b t] l l' [Hab Hst] _ IH]; [reflexivity|].
  cbn [List.map]. f_equal; [|exact IH].
  cbn [fst snd] in Hab, Hst. subst t. unfold schedule_select.
  unfold slot_values in Hab. injection Hab as _ Hday _ Hstart Hend Hsess Hprio.
  congruence.
Qed.

(** X15. Saving the same schedule form a second time changes nothing any
    user can see: the schedule query returns after two saves what it
    returned after one, for every user. *)
Theorem save_study_schedule_twice (d : db) (user_id viewer : Z)
    (schedule_data : list schedule_item) :
  get_study_schedule
    (save_study_schedule (save_study_schedule d user_id schedule_data)
       user_id schedule_data) viewer
  = get_study_schedule (save_study_schedule d user_id schedule_data) viewer.
Proof.
  set (d1 := save_study_schedule d user_id schedule_data).
  destruct (save_study_schedule_slots d user_id schedule_data)
    as (Hsub1 & Hother & _).
  fold d1 in Hsub1, Hother.
  destruct (save_schedule_items_related user_id schedule_data
              (set_study_schedule d1
                 (List.filter
                    (fun ss => negb (StudySchedule.user_id ss =? user_id))
                    (study_schedule d1))
                 (study_schedule_seq d1))
              (set_study_schedule d
                 (List.filter
                    (fun ss => negb (StudySchedule.user_id ss =? user_id))
                    (study_schedule d))
                 (study_schedule_seq d)))
    as [Hs Hv].
  - exact Hsub1.
  - cbn [study_schedule set_study_schedule]. rewrite Hother.
    apply Forall2_refl_eq. reflexivity.
  - apply get_study_schedule_related; assumption.
Qed.

(** ** What a repair does to the file *)

Section RepairEffects.

Variable alter_refused : string -> string -> string -> bool.

Local Open Scope list_scope.

Lemma repair_table_effect (schema : gmap string (list string))
    (repairs : list string) (entry : string * list (string * string)) :
  let schema' := fst (repair_table alter_refused (schema, repairs) entry) in
  forall t,
    (t <> fst entry -> schema' !! t = schema !! t)
    /\ (schema !! t = None -> schema' !! t = None)
    /\ (forall cols, schema !! t = Some cols ->
          exists added, schema' !! t = Some (cols ++ added)).
Proof.
  destruct entry as [name columns]. cbn [fst]. unfold repair_table.
  destruct (schema !! name) as [existing|] eqn:E.
  - destruct (repair_columns_settle alter_refused name existing columns
                existing repairs) as (added & Hfold & _).
    { intros c Hc. apply has_column_exact, Hc. }
    destruct (fold_left _ columns (existing, repairs)) as [live repairs'].
    cbn [fst] in Hfold. subst live. cbn [fst]. intros t.
    destruct (decide (name = t)) as [<-|Hne].
    + rewrite lookup_insert_eq. split; [congruence|]. split; [congruence|].
      intros cols Hcols. rewrite E in Hcols. injection Hcols as <-.
      exists added. reflexivity.
    + rewrite lookup_insert_ne by exact Hne.
      split; [reflexivity|]. split; [auto|].
      intros cols Hcols. exists []. rewrite app_nil_r. exact Hcols.
  - cbn [fst]. intros t. split; [reflexivity|]. split; [auto|].
    intros cols Hcols. exists []. rewrite app_nil_r. exact Hcols.
Qed.

Lemma repair_tables_effect (tables : list (string * list (string * string))) :
  forall (schema : gmap string (list string)) (repairs : list string) t,
    let schema' :=
      fst (fold_left (repair_table alter_refused) tables (schema, repairs)) in
    (~ In t (List.map fst tables) -> schema' !! t = schema !! t)
    /\ (schema !! t = None -> schema' !! t = None)
    /\ (forall cols, schema !! t = Some cols ->
          exists added, schema' !! t = Some (cols ++ added)).
Proof.
  induction tables as [|entry tables IH]; intros schema repairs t; cbn zeta.
  - cbn [fold_left fst]. split; [reflexivity|]. split; [auto|].
    intros cols Hcols. exists []. rewrite app_nil_r. exact Hcols.
  - cbn [fold_left].
    destruct (repair_table_effect schema repairs entry t) as (Hne & Hnone & Hsome).
    destruct (repair_table alter_refused (schema, repairs) entry)
      as [schema1 repairs1] eqn:E.
    cbn [fst] in Hne, Hnone, Hsome.
    destruct (IH schema1 repairs1 t) as (Hne' & Hnone' & Hsome').
    cbn zeta in Hne', Hnone', Hsome'.
    split; [|split].
    + intros Hnot. cbn [List.map] in Hnot.
      rewrite Hne' by (intros H; apply Hnot; right; exact H).
      apply Hne. intros ->. apply Hnot. left. reflexivity.
    + intros Ht. apply Hnone', Hnone, Ht.
    + intros cols Hcols. destruct (Hsome cols Hcols) as [added1 H1].
      destruct (Hsome' _ H1) as [added2 H2].
      exists (added1 ++ added2). rewrite H2, app_assoc. reflexivity.
Qed.

(** X16. [repair_database] only adds columns: a table that is in the file
    keeps its columns, in their order, as the first columns of the repaired
    table; a table that is not in the file is not created; and a table the
    repair does not list (users) is left as it is. *)
Theorem repair_database_only_adds (schema : gmap string (list string))
    (t : string) :
  let repaired := fst (repair_database alter_refused schema) in
  (forall cols, schema !! t = Some cols ->
     exists added, repaired !! t = Some (cols ++ added))
  /\ (schema !! t = None -> repaired !! t = None)
  /\ (~ In t ["students"; "subjects"; "exercises"; "daily_progress";
              "study_schedule"] ->
      repaired !! t = schema !! t).
Proof.
  intros repaired. subst repaired. unfold repair_database.
  destruct (repair_tables_effect tables_to_repair schema [] t)
    as (Hne & Hnone & Hsome).
  cbn zeta in Hne, Hnone, Hsome.
  split; [|split].
  - exact Hsome.
  - exact Hnone.
  - exact Hne.
Qed.

(** X17. After [repair_database], every table of the file that the
    repair lists has each of its required columns, under some spelling of
    upper and lower case, unless sqlite refuses to add that column. *)
Theorem repair_database_completes (schema : gmap string (list string))
    (t : string) (required : list (string * string)) (cols : list string)
    (column_name column_type : string) :
  In (t, required) tables_to_repair ->
  In (column_name, column_type) required ->
  fst (repair_database alter_refused schema) !! t = Some cols ->
  has_column cols column_name = true
  \/ alter_refused t column_name column_type = true.
Proof.
  intros Ht Hc Hcols. unfold repair_database in Hcols.
  pose proof (repair_tables_settle alter_refused tables_to_repair schema [])
    as Hall.
  rewrite List.Forall_forall in Hall. specialize (Hall _ Ht cols Hcols).
  cbn [fst snd] in Hall. rewrite List.Forall_forall in Hall.
  specialize (Hall _ Hc). unfold column_settled in Hall. cbn [fst snd] in Hall.
  apply orb_true_iff, Hall.
Qed.

End RepairEffects.

Section RepairReports.

Variable alter_refused : string -> string -> string -> bool.

Local Open Scope list_scope.

Lemma repair_columns_count (t : string) (existing : list string)
    (columns : list (string * string)) :
  forall live repairs,
    let st := fold_left (repair_column alter_refused t existing) columns
                (live, repairs) in
    (length (fst st) + length repairs = length live + length (snd st))%nat
    /\ (length live <= length (fst st))%nat.
Proof.
  induction columns as [|[c ty] columns IH]; intros live repairs; cbn zeta;
    [split; reflexivity|].
  cbn [fold_left]. unfold repair_column at 2 4 6.
  destruct (existsb (String.eqb c) existing); [apply IH|].
  unfold alter_add_column.
  destruct (has_column live c || alter_refused t c ty); [apply IH|].
  specialize (IH (live ++ [c])
                (repairs ++ [("Added " ++ c ++ " to " ++ t)%string])).
  cbn zeta in IH. rewrite !length_app in IH. cbn [length] in IH. lia.
Qed.

Lemma list_sum_update (f g : string -> nat) (names : list string)
    (t : string) (k : nat) :
  List.NoDup names -> In t names ->
  (forall t', t' <> t -> g t' = f t') -> g t = (f t + k)%nat ->
  list_sum (List.map g names) = (list_sum (List.map f names) + k)%nat.
Proof.
  intros Hnd Hin Hother Ht.
  induction names as [|x names IH]; [destruct Hin|].
  apply List.NoDup_cons_iff in Hnd as [Hx Hnd].
  unfold list_sum in *. cbn [List.map fold_right].
  destruct Hin as [->|Hin].
  - rewrite Ht.
    replace (List.map g names) with (List.map f names); [lia|].
    apply map_ext_in. intros y Hy. symmetry. apply Hother.
    intros ->. contradiction.
  - rewrite (IH Hnd Hin). rewrite Hother; [lia|].
    intros ->. contradiction.
Qed.

Lemma repair_table_count (schema : gmap string (list string))
    (repairs : list string) (entry : string * list (string * string))
    (names : list string) :
  List.NoDup names -> In (fst entry) names ->
  let st := repair_table alter_refused (schema, repairs) entry in
  (list_sum (List.map (column_count (fst st)) names) + length repairs
   = list_sum (List.map (column_count schema) names) + length (snd st))%nat.
Proof.
  destruct entry as [t columns]. cbn [fst]. intros Hnd Hin. cbn zeta.
  unfold repair_table.
  destruct (schema !! t) as [existing|] eqn:E; [|reflexivity].
  pose proof (repair_columns_count t existing columns existing repairs)
    as [Hc Hle].
  cbn zeta in Hc, Hle.
  destruct (fold_left _ columns (existing, repairs)) as [live repairs'].
  cbn [fst snd] in *.
  rewrite (list_sum_update (column_count schema)
             (column_count (<[t:=live]> schema)) names t
             (length live - length existing) Hnd Hin).
  - lia.
  - intros t' Hne. unfold column_count.
    rewrite lookup_insert_ne by congruence. reflexivity.
  - unfold column_count. rewrite lookup_insert_eq, E. lia.
Qed.

Lemma repair_tables_count (names : list string)
    (tables : list (string * list (string * string))) :
  List.NoDup names ->
  Forall (fun entry => In (fst entry) names) tables ->
  forall schema repairs,
    let st := fold_left (repair_table alter_refused) tables (schema, repairs) in
    (list_sum (List.map (column_count (fst st)) names) + length repairs
     = list_sum (List.map (column_count schema) names) + length (snd st))%nat.
Proof.
  intros Hnd Hall.
  induction Hall as [|entry tables Hentry _ IH]; intros schema repairs;
    cbn zeta; [reflexivity|].
  cbn [fold_left].
  pose proof (repair_table_count schema repairs entry names Hnd Hentry) as H1.
  cbn zeta in H1.
  destruct (repair_table alter_refused (schema, repairs) entry)
    as [schema1 repairs1].
  cbn [fst snd] in H1. specialize (IH schema1 repairs1). cbn zeta in IH. lia.
Qed.

(** X18. The repairs [repair_database] reports are as many as the columns
    it added: the five tables it lists have, after the repair, as many
    columns more than before as there are lines in [repairs_made].  A
    refused ALTER TABLE adds no column and no line. *)
Theorem repair_database_reports_additions (schema : gmap string (list string)) :
  let names := ["students"; "subjects"; "exercises"; "daily_progress";
                "study_schedule"] in
  let result := repair_database alter_refused schema in
  (list_sum (List.map (column_count schema) names) + length (snd result)
   = list_sum (List.map (column_count (fst result)) names))%nat.
Proof.
  intros names result. subst result. unfold repair_database.
  pose proof (repair_tables_count names tables_to_repair) as H.
  assert (Hnd : List.NoDup names).
  { subst names. repeat constructor; simpl; intuition discriminate. }
  assert (Hall : Forall (fun entry => In (fst entry) names) tables_to_repair).
  { subst names. unfold tables_to_repair.
    repeat (constructor; [cbn; auto 10|]). constructor. }
  specialize (H Hnd Hall schema []). cbn zeta in H. cbn [length] in H. lia.
Qed.

End RepairReports.

(** ** Saving a profile *)

Lemma filter_map_stable {A : Type} (p : A -> bool) (g : A -> A) (l : list A) :
  (forall x, p (g x) = p x) ->
  List.filter p (List.map g l) = List.map g (List.filter p l).
Proof.
  intros H. induction l as [|x l IH]; simpl; [reflexivity|].
  rewrite H. destruct (p x); simpl; rewrite IH; reflexivity.
Qed.

Lemma update_students_mine (d : db) (user_id : Z) (f : profile_form) :
  List.filter (fun st => Student.user_id st =? user_id)
    (students (update_students d user_id f))
  = List.map
      (fun st =>
         Student.mk (Student.id st) user_id (pf_name f) (pf_photo f)
           (pf_email f) (pf_phone f) (pf_target_study_hours f)
           (pf_wakeup_time f) (pf_bedtime f))
      (List.filter (fun st => Student.user_id st =? user_id) (students d)).
Proof.
  unfold update_students. cbn [students set_students].
  rewrite filter_map_stable.
  - apply map_ext_in. intros st Hst. apply filter_In in Hst as [_ Hu].
    rewrite Hu. apply Z.eqb_eq in Hu. rewrite Hu. reflexivity.
  - intros st. destruct (Student.user_id st =? user_id) eqn:E; [|exact E].
    cbn [Student.user_id]. exact E.
Qed.

Lemma update_students_others (d : db) (user_id : Z) (f : profile_form) :
  List.filter (fun st => negb (Student.user_id st =? user_id))
    (students (update_students d user_id f))
  = List.filter (fun st => negb (Student.user_id st =? user_id)) (students d).
Proof.
  unfold update_students. cbn [students set_students].
  induction (students d) as [|st l IH]; [reflexivity|]. cbn [List.map List.filter].
  destruct (Student.user_id st =? user_id) eqn:E.
  - cbn [Student.user_id]. rewrite E. exact IH.
  - rewrite E. cbn [negb]. f_equal. exact IH.
Qed.

(** X19. Save Profile with an empty name changes nothing.  With a name,
    the profile the pages read back for the user is the one submitted (name,
    photo, contact fields, target hours, wake-up time and bedtime), under
    the student id the session receives; the user then has a profile, as
    many rows as before or one if there was none, and the profiles of other
    users are untouched. *)
Theorem save_profile_read_back (d : db) (user_id : Z) (f : profile_form) :
  (pf_name f = "" -> save_profile d user_id f = (d, Error "Name is required!", None))
  /\ (pf_name f <> "" ->
      let d' := fst (fst (save_profile d user_id f)) in
      exists student_id,
        snd (save_profile d user_id f) = Some student_id
        /\ get_user_profile d' user_id
           = Some (mk_profile student_id (pf_name f) (pf_photo f) (pf_email f)
                     (pf_phone f) (pf_target_study_hours f)
                     (pf_wakeup_time f) (pf_bedtime f))
        /\ check_user_profile_exists d' user_id = true
        /\ length (List.filter (fun st => Student.user_id st =? user_id)
                     (students d'))
           = Nat.max 1
               (length (List.filter (fun st => Student.user_id st =? user_id)
                          (students d)))
        /\ List.filter (fun st => negb (Student.user_id st =? user_id))
             (students d')
           = List.filter (fun st => negb (Student.user_id st =? user_id))
               (students d)).
Proof.
  split.
  - intros E. unfold save_profile. rewrite E. reflexivity.
  - intros Hne d'. subst d'. unfold save_profile.
    apply String.eqb_neq in Hne. rewrite Hne. cbn [fst snd].
    destruct (List.filter (fun st => Student.user_id st =? user_id) (students d))
      as [|st rest] eqn:E.
    + assert (Hg : get_user_profile d user_id = None)
        by (unfold get_user_profile; rewrite E; reflexivity).
      rewrite Hg. unfold get_user_profile, check_user_profile_exists,
        insert_student. cbn [students set_students].
      rewrite !List.filter_app, E. cbn [List.filter Student.user_id app].
      rewrite Z.eqb_refl. cbn [negb app fetchone length].
      eexists. split; [reflexivity|]. split; [reflexivity|].
      split; [reflexivity|]. split; [reflexivity|]. apply app_nil_r.
    + assert (Hg : exists p, get_user_profile d user_id = Some p)
        by (unfold get_user_profile; rewrite E; eexists; reflexivity).
      destruct Hg as [p ->].
      unfold get_user_profile, check_user_profile_exists.
      rewrite update_students_mine, E.
      cbn [List.map fetchone Student.id Student.name Student.photo
           Student.email Student.phone Student.target_study_hours
           Student.wakeup_time Student.bedtime length].
      exists (Student.id st). split; [reflexivity|]. split; [reflexivity|].
      split; [|split].
      * rewrite Nat2Z.inj_succ. apply Z.ltb_lt. lia.
      * rewrite length_map. lia.
      * apply update_students_others.
Qed.

(** ** Planned exercises in the daily report *)

Lemma day_name_next_week (day : date) : day_name (day + 7) = day_name day.
Proof.
  unfold day_name. replace ((day + 7 + 6) mod 7) with ((day + 6) mod 7);
    [reflexivity|].
  replace (day + 7 + 6) with (day + 6 + 1 * 7) by lia.
  rewrite Z.mod_add by lia. reflexivity.
Qed.

(** X20. An exercise added for a day of the week appears among the planned
    exercises of the daily report of every date that falls on that day, after
    the ones already planned, and of no other date; the planned exercises of
    a date are those of the date a week later.  But a user without subjects
    gets a report without planned exercises, whatever the routine holds. *)
Theorem add_exercise_in_daily_report
    (d : db) (user_id : Z) (f : exercise_form) (report_date : date) :
  xf_exercise_type f <> "" ->
  let d' := fst (add_exercise d user_id f) in
  (subjects_of d user_id = [] ->
   report_exercises (get_daily_report d' user_id report_date) = [])
  /\ (subjects_of d user_id <> [] ->
      report_exercises (get_daily_report d' user_id report_date)
      = (report_exercises (get_daily_report d user_id report_date)
         ++ if String.eqb (xf_day_of_week f) (day_name report_date)
            then [(xf_exercise_type f, xf_duration f, xf_intensity f,
                   xf_notes f)]
            else [])%list)
  /\ report_exercises (get_daily_report d' user_id (report_date + 7))
     = report_exercises (get_daily_report d' user_id report_date).
Proof.
  intros Hne d'. subst d'. unfold add_exercise.
  apply String.eqb_neq in Hne. rewrite Hne. cbn [fst].
  set (d' := set_exercises d _ _).
  assert (Hsubs : subjects_of d' user_id = subjects_of d user_id) by reflexivity.
  unfold get_daily_report. rewrite Hsubs, day_name_next_week.
  destruct (subjects_of d user_id) as [|s0 l].
  - split; [reflexivity|]. split; [intros H; contradiction|reflexivity].
  - split; [discriminate|]. split; [|reflexivity].
    intros _. cbn [report_exercises]. subst d'.
    cbn [exercises set_exercises].
    rewrite List.filter_app, List.map_app. f_equal.
    cbn [List.filter Exercise.user_id Exercise.day_of_week].
    rewrite Z.eqb_refl. cbn [andb].
    destruct (String.eqb (xf_day_of_week f) (day_name report_date));
      reflexivity.
Qed.

(** ** The figures of the Daily Report page *)

Lemma achievement_nonneg (actual target : Q) :
  (0 <= actual)%Q -> (0 <= achievement actual target)%Q.
Proof.
  intros H. unfold achievement.
  destruct (Qlt_bool 0 target) eqn:E; [|apply Qle_refl].
  apply percent_nonneg; [exact H|]. apply Qlt_bool_iff, E.
Qed.

Lemma progress_value_bounds (percent : Q) :
  (0 <= percent)%Q ->
  (0 <= progress_value percent)%Q /\ (progress_value percent <= 1)%Q.
Proof.
  intros H. unfold progress_value. split; [|apply py_min_le_r].
  apply py_min_nonneg; [|discriminate].
  apply Qmult_le_0_compat; [exact H|discriminate].
Qed.

(** X21. For a subject of the report whose logged hours and questions are
    not negative, the two values the page passes to the progress bars lie
    between 0.0 and 1.0, however far the hours exceed the targets, and the
    questions per hour are not negative; with no logged question hours
    (no row, or 0 hours) the questions per hour are 0 rather than a division
    by zero, and with a target that is not positive the percentage is 0. *)
Theorem subject_card_in_range (s : subject_progress) :
  (0 <= value_or_zero_Q (sp_lecture_actual s))%Q ->
  (0 <= value_or_zero_Q (sp_question_actual s))%Q ->
  0 <= or_zero_Z (sp_questions_solved s) ->
  let card := subject_card_of s in
  (0 <= card_lecture_bar card)%Q /\ (card_lecture_bar card <= 1)%Q
  /\ (0 <= card_question_bar card)%Q /\ (card_question_bar card <= 1)%Q
  /\ (0 <= card_efficiency card)%Q
  /\ ((value_or_zero_Q (sp_question_actual s) <= 0)%Q ->
      card_efficiency card = 0%Q)
  /\ ((sp_daily_lecture s <= 0)%Q -> card_lecture_percent card = 0%Q)
  /\ ((sp_daily_question s <= 0)%Q -> card_question_percent card = 0%Q).
Proof.
  intros Hl Hq Hn card. subst card. unfold subject_card_of.
  cbn [card_lecture_bar card_question_bar card_efficiency
       card_lecture_percent card_question_percent].
  destruct (progress_value_bounds _ (achievement_nonneg _ (sp_daily_lecture s) Hl))
    as [L0 L1].
  destruct (progress_value_bounds _ (achievement_nonneg _ (sp_daily_question s) Hq))
    as [Q0 Q1].
  repeat split; try assumption.
  - unfold efficiency.
    destruct (Qlt_bool 0 (value_or_zero_Q (sp_question_actual s))) eqn:E;
      [|apply Qle_refl].
    apply Qlt_bool_iff in E.
    apply Qmult_le_0_compat.
    + change 0%Q with (inject_Z 0). rewrite <- Zle_Qle. exact Hn.
    + apply Qlt_le_weak, Qinv_lt_0_compat, E.
  - intros H. unfold efficiency. apply Qlt_bool_false in H. rewrite H.
    reflexivity.
  - intros H. unfold achievement. apply Qlt_bool_false in H. rewrite H.
    reflexivity.
  - intros H. unfold achievement. apply Qlt_bool_false in H. rewrite H.
    reflexivity.
Qed.

(** ** More on the writers *)

(** X22. Adding and deleting subjects never gives any user two subjects
    of one name: Add New Subject refuses a name the user already has and
    changes nothing, and every button of the Manage Subjects page other than
    Save Changes keeps the names of each user's subjects distinct. *)
Theorem manage_subjects_keeps_names
    (d : db) (user_id owner : Z) (a : subject_action) :
  (forall sub_id f, a <> SaveChanges sub_id f) ->
  names_unique d owner ->
  names_unique (fst (manage_subjects d user_id a)) owner
  /\ forall f s,
       a = AddNewSubject f -> In s (subjects d) ->
       Subject.user_id s = user_id ->
       Subject.subject_name s = form_subject_name f ->
       fst (manage_subjects d user_id a) = d.
Proof.
  intros Hnot Howner. split.
  - unfold manage_subjects.
    destruct (subjects_of d user_id) as [|s0 l] eqn:E.
    + destruct a; try exact Howner.
      unfold add_first_subject.
      destruct (String.eqb (form_subject_name f) ""); [exact Howner|].
      cbn [fst]. apply insert_subject_unique; [|exact Howner].
      unfold subjects_of in E. apply sort_by_nil in E.
      apply filter_nil_weaken
        with (f := fun s => Subject.user_id s =? user_id); [|exact E].
      intros s Hs. apply andb_true_iff in Hs as [Hs _]. exact Hs.
    + destruct a.
      * exfalso. apply (Hnot sub_id f). reflexivity.
      * destruct (existsb _ (s0 :: l)); [|exact Howner].
        apply delete_subject_unique, Howner.
      * apply add_new_subject_unique, Howner.
      * exact Howner.
  - intros f s -> Hs Hu Hn. unfold manage_subjects.
    destruct (subjects_of d user_id) as [|s0 l]; [reflexivity|].
    unfold add_new_subject.
    destruct (String.eqb (form_subject_name f) ""); [reflexivity|].
    destruct (List.filter _ (subjects d)) as [|x rest] eqn:E; [|reflexivity].
    exfalso.
    assert (Hin : In s []).
    { rewrite <- E. apply filter_In. split; [exact Hs|].
      rewrite Hu, Hn, Z.eqb_refl, String.eqb_refl. reflexivity. }
    destruct Hin.
Qed.

(** X23. The Daily Entry submit keeps every logged hour at or above 0
    when the hours entered are: the number inputs of the form have
    [min_value] 0.0, so no page can store a negative hour. *)
Theorem submit_daily_entry_hours_nonneg
    (d : db) (user_id : Z) (entry_date : date) (entered : Z -> Q * Q * Z)
    (exercise_done : bool) (minutes_input : Z) (mood notes : string) :
  hours_nonneg d ->
  (forall sub_id, (0 <= fst (fst (entered sub_id)))%Q
                  /\ (0 <= snd (fst (entered sub_id)))%Q) ->
  hours_nonneg
    (submit_daily_entry d user_id entry_date entered exercise_done
       minutes_input mood notes).
Proof.
  intros Hd Hentered. unfold submit_daily_entry.
  apply save_daily_entry_hours_nonneg; [exact Hd|].
  unfold daily_data_of. apply List.Forall_forall. intros e He.
  apply in_map_iff in He as (s & <- & _).
  specialize (Hentered (Subject.id s)).
  destruct (entered (Subject.id s)) as [[l q] n]. exact Hentered.
Qed.

(** X24. The Exercise Routine page lists the user's exercises, each
    once, in the order of the weekdays Monday to Sunday: of two rows of the
    list, the later one has the later place in the list Monday, Tuesday,
    ..., Sunday, or the same place, and an exercise whose day names no
    weekday stands before those whose day does.  Exercises stored for the
    seven days from Sunday back to Monday are listed from Monday on to
    Sunday. *)
Theorem existing_exercises_ordered (d : db) (user_id : Z) :
  let week := ["Monday"; "Tuesday"; "Wednesday"; "Thursday"; "Friday";
               "Saturday"; "Sunday"] in
  Permutation (existing_exercises d user_id)
    (List.filter (fun e => Exercise.user_id e =? user_id) (exercises d))
  /\ (forall (m n : nat) (a b : Exercise.row),
        (m < n)%nat ->
        nth_error (existing_exercises d user_id) m = Some a ->
        nth_error (existing_exercises d user_id) n = Some b ->
        (In (Exercise.day_of_week a) week -> In (Exercise.day_of_week b) week)
        /\ forall i j : nat,
             nth_error week i = Some (Exercise.day_of_week a) ->
             nth_error week j = Some (Exercise.day_of_week b) ->
             (i <= j)%nat)
  /\ (List.map Exercise.day_of_week
        (List.filter (fun e => Exercise.user_id e =? user_id) (exercises d))
      = rev week ->
      List.map Exercise.day_of_week (existing_exercises d user_id) = week
      /\ existing_exercises d user_id
         = rev (List.filter (fun e => Exercise.user_id e =? user_id)
                  (exercises d))).
Proof.
  intros week. unfold existing_exercises.
  split; [apply sort_by_perm|]. split.
  - intros m n a b Hmn Ha Hb. apply rank_order_week.
    refine (StronglySorted_nth_error
              (fun a b =>
                 not_gt (rank_compare (day_rank (Exercise.day_of_week a))
                                      (day_rank (Exercise.day_of_week b)))
                 = true)
              _ _ m n a b Hmn Ha Hb).
    apply sort_by_sorted.
    + intros x y. apply (cmp_order_leb_total _ cmp_order_rank).
    + intros x y z. apply (cmp_order_leb_trans _ cmp_order_rank).
  - subst week. cbn [rev app].
    destruct (List.filter _ (exercises d)) as [|e l]; [discriminate|].
    intros Hdays. injection Hdays as He Hdays.
    do 6 (destruct l as [|? l]; [discriminate Hdays|];
          injection Hdays as ? Hdays).
    destruct l; [|discriminate Hdays].
    repeat match goal with
           | r : Exercise.row |- _ => destruct r
           end.
    cbn [Exercise.day_of_week] in *. subst. split; reflexivity.
Qed.

Lemma save_daily_entry_other_key (user_id : Z) (entry_date : date)
    (exercise_done : bool) (exercise_minutes : Z) (mood notes : string)
    (daily_data : list subject_entry) :
  forall (d : db) (viewer subject_id : Z) (day : date),
    (viewer <> user_id \/ day <> entry_date) ->
    progress_on
      (save_daily_entry d user_id entry_date daily_data exercise_done
         exercise_minutes mood notes) viewer subject_id day
    = progress_on d viewer subject_id day.
Proof.
  unfold save_daily_entry.
  induction daily_data as [|e l IH]; intros d viewer subject_id day Hne;
    [reflexivity|].
  cbn [fold_left]. rewrite IH by exact Hne.
  apply progress_on_insert_other. cbn [v_user_id v_subject_id v_date].
  intros [= E1 _ E3]. destruct Hne as [H|H]; apply H; congruence.
Qed.

(** X25. A Daily Entry submit of one user for one date changes the daily
    report of no other date and of no other user. *)
Theorem submit_daily_entry_other_reports
    (d : db) (user_id : Z) (entry_date : date) (entered : Z -> Q * Q * Z)
    (exercise_done : bool) (minutes_input : Z) (mood notes : string)
    (viewer : Z) (report_date : date) :
  viewer <> user_id \/ report_date <> entry_date ->
  get_daily_report
    (submit_daily_entry d user_id entry_date entered exercise_done
       minutes_input mood notes) viewer report_date
  = get_daily_report d viewer report_date.
Proof.
  intros Hne. unfold submit_daily_entry.
  set (d' := save_daily_entry d user_id entry_date _ _ _ _ _).
  destruct (save_daily_entry_subjects d user_id entry_date
              (daily_data_of d user_id entered) exercise_done
              (if exercise_done then minutes_input else 0) mood notes)
    as [Hsub Hex].
  fold d' in Hsub, Hex.
  unfold get_daily_report, subjects_of. rewrite Hsub, Hex.
  destruct (sort_by subject_order _) as [|s0 l]; [reflexivity|].
  rewrite (map_ext (subject_progress_on d' viewer report_date)
             (subject_progress_on d viewer report_date)); [reflexivity|].
  intros s. unfold subject_progress_on, d'.
  rewrite save_daily_entry_other_key by exact Hne. reflexivity.
Qed.

Lemma filter_map_fixed {A : Type} (p : A -> bool) (g : A -> A) (l : list A) :
  (forall x, p x = true -> g x = x) -> (forall x, p (g x) = p x) ->
  List.filter p (List.map g l) = List.filter p l.
Proof.
  intros Hfix Hp. induction l as [|x l IH]; simpl; [reflexivity|].
  rewrite Hp. destruct (p x) eqn:E; [|exact IH].
  rewrite (Hfix x E), IH. reflexivity.
Qed.

(** X26. The edit and delete buttons of the Manage Subjects and Exercise
    Routine pages act on rows of the logged-in user only: whatever id they
    are given, the subjects and exercises of every other user are the rows
    they were. *)
Theorem edits_spare_other_users
    (d : db) (user_id row_id owner : Z) (sf : subject_form)
    (xf : exercise_form) :
  owner <> user_id ->
  List.filter (fun s => Subject.user_id s =? owner)
    (subjects (fst (save_changes d user_id row_id sf)))
  = List.filter (fun s => Subject.user_id s =? owner) (subjects d)
  /\ List.filter (fun s => Subject.user_id s =? owner)
       (subjects (fst (delete_subject d user_id row_id)))
     = List.filter (fun s => Subject.user_id s =? owner) (subjects d)
  /\ List.filter (fun e => Exercise.user_id e =? owner)
       (exercises (fst (update_exercise d user_id row_id xf)))
     = List.filter (fun e => Exercise.user_id e =? owner) (exercises d)
  /\ List.filter (fun e => Exercise.user_id e =? owner)
       (exercises (fst (delete_exercise d user_id row_id)))
     = List.filter (fun e => Exercise.user_id e =? owner) (exercises d).
Proof.
  intros Hne. split; [|split; [|split]].
  - unfold save_changes. cbn [fst subjects set_subjects].
    apply filter_map_fixed.
    + intros s Hs. apply Z.eqb_eq in Hs.
      destruct (Z.eqb_spec (Subject.user_id s) user_id) as [E|_];
        [congruence|]. rewrite andb_false_r. reflexivity.
    + intros s.
      destruct ((Subject.id s =? row_id) && (Subject.user_id s =? user_id));
        reflexivity.
  - unfold delete_subject. cbn [fst subjects set_subjects].
    rewrite filter_filter_andb. apply filter_ext. intros s.
    destruct (Z.eqb_spec (Subject.user_id s) owner) as [E|_];
      [|apply andb_false_r].
    destruct (Z.eqb_spec (Subject.user_id s) user_id) as [E'|_];
      [congruence|]. rewrite andb_false_r. reflexivity.
  - unfold update_exercise. cbn [fst exercises set_exercises].
    apply filter_map_fixed.
    + intros e He. apply Z.eqb_eq in He.
      destruct (Z.eqb_spec (Exercise.user_id e) user_id) as [E|_];
        [congruence|]. rewrite andb_false_r. reflexivity.
    + intros e.
      destruct ((Exercise.id e =? row_id) && (Exercise.user_id e =? user_id));
        reflexivity.
  - unfold delete_exercise. cbn [fst exercises set_exercises].
    rewrite filter_filter_andb. apply filter_ext. intros e.
    destruct (Z.eqb_spec (Exercise.user_id e) owner) as [E|_];
      [|apply andb_false_r].
    destruct (Z.eqb_spec (Exercise.user_id e) user_id) as [E'|_];
      [congruence|]. rewrite andb_false_r. reflexivity.
Qed.

(** ** The further properties at the sample stores *)


Lemma store_registered_usernames : usernames_unique store_registered.
Proof.
  unfold usernames_unique. simpl. constructor; [intros []|constructor].
Defined.

Lemma store_registered_user_ids :
  rowids_ok (List.map User.id (users store_registered))
    (users_seq store_registered).
Proof.
  split; simpl.
  - constructor; [intros []|constructor].
  - constructor; [|constructor]. discriminate.
Defined.

Lemma register_user_keeps_unique_witness :
  usernames_unique store_registered
  /\ rowids_ok (List.map User.id (users store_registered))
       (users_seq store_registered)
  /\ usernames_unique
       (fst (register_user sample_digest store_registered "bob" "hunter22"
               "Bob" "" "")).
Proof.
  split; [exact store_registered_usernames|].
  split; [exact store_registered_user_ids|].
  exact (proj1 (register_user_keeps_unique sample_digest store_registered
                  "bob" "hunter22" "Bob" "" ""
                  store_registered_usernames store_registered_user_ids)).
Defined.

Lemma register_then_login_witness :
  register_submit sample_digest empty_db "ann" "secret" "secret" "Ann"
    "ann@example.org" "555-0100"
  = (store_registered, Success "Registration successful! Please login.")
  /\ exists user_id student_id,
       login_submit sample_digest store_registered "ann" "secret"
       = LoggedIn "ann" user_id (Some student_id) Dashboard
           "Welcome back, Ann!".
Proof.
  split; [reflexivity|].
  destruct (register_then_login sample_digest empty_db store_registered
              "ann" "secret" "secret" "Ann" "ann@example.org" "555-0100"
              "Registration successful! Please login." eq_refl)
    as (user_id & student_id & H & _).
  exists user_id, student_id. exact H.
Defined.

Lemma store_one_subject_ids :
  rowids_ok (List.map Subject.id (subjects store_one_subject))
    (subjects_seq store_one_subject).
Proof.
  split; simpl.
  - constructor; [intros []|constructor].
  - constructor; [|constructor]. discriminate.
Defined.

Lemma manage_subjects_keeps_ids_witness :
  rowids_ok (List.map Subject.id (subjects store_one_subject))
    (subjects_seq store_one_subject)
  /\ subject_ids_unique store_two_subjects.
Proof.
  split; [exact store_one_subject_ids|].
  exact (proj2 (manage_subjects_keeps_ids store_one_subject 1
                  (AddNewSubject physics) store_one_subject_ids)).
Defined.

Lemma store_one_day_keys : progress_keys_unique store_one_day.
Proof.
  unfold progress_keys_unique. simpl. constructor; [intros []|constructor].
Defined.

Lemma save_daily_entry_keeps_keys_unique_witness :
  progress_keys_unique store_one_day
  /\ progress_keys_unique
       (save_daily_entry store_one_day 1 739000
          [mk_subject_entry 1 3 2 7; mk_subject_entry 2 1 1 4]
          false 0 "😐 Neutral" "revision").
Proof.
  split; [exact store_one_day_keys|].
  exact (save_daily_entry_keeps_keys_unique store_one_day 1 739000
           [mk_subject_entry 1 3 2 7; mk_subject_entry 2 1 1 4]
           false 0 "😐 Neutral" "revision" store_one_day_keys).
Defined.

Lemma two_entries_nodup :
  List.NoDup
    (List.map entry_subject_id
       [mk_subject_entry 1 3 2 7; mk_subject_entry 2 1 1 4]).
Proof.
  simpl. constructor; [|constructor; [intros []|constructor]].
  intros [H|[]]. discriminate H.
Defined.

Lemma save_then_get_existing_progress_witness :
  List.NoDup
    (List.map entry_subject_id
       [mk_subject_entry 1 3 2 7; mk_subject_entry 2 1 1 4])
  /\ In (mk_subject_entry 2 1 1 4)
        [mk_subject_entry 1 3 2 7; mk_subject_entry 2 1 1 4]
  /\ exists found,
       get_existing_progress_data
         (save_daily_entry store_one_day 1 739000
            [mk_subject_entry 1 3 2 7; mk_subject_entry 2 1 1 4]
            false 0 "😐 Neutral" "revision") 1 2 739000 = Some found
       /\ ep_questions_solved found = 4
       /\ ep_notes found = "revision".
Proof.
  split; [exact two_entries_nodup|].
  split; [right; left; reflexivity|].
  destruct (save_then_get_existing_progress store_one_day 1 739000
              [mk_subject_entry 1 3 2 7; mk_subject_entry 2 1 1 4]
              false 0 "😐 Neutral" "revision" (mk_subject_entry 2 1 1 4)
              two_entries_nodup (or_intror (or_introl eq_refl)))
    as (found & Hfound & _ & _ & Hn & _ & _ & _ & Hnotes).
  exists found. split; [exact Hfound|]. split; [exact Hn|exact Hnotes].
Defined.



Lemma store_one_day_out_of_range :
  forall r, In r (daily_progress store_one_day) ->
            DailyProgress.user_id r = 1 ->
            ~ (739010 <= DailyProgress.date r <= 739020).
Proof.
  intros r [<-|[]] _ [H _]. simpl in H. apply H. reflexivity.
Defined.

Lemma weekly_analysis_without_entries_witness :
  (forall r, In r (daily_progress store_one_day) ->
             DailyProgress.user_id r = 1 ->
             ~ (739010 <= DailyProgress.date r <= 739020))
  /\ get_weekly_analysis store_one_day 1 739010 739020
     = ([], [mk_subject_summary "Mathematics" 0 0 0 0;
             mk_subject_summary "Physics" 0 0 0 0]).
Proof.
  split; [exact store_one_day_out_of_range|].
  exact (weekly_analysis_without_entries store_one_day 1 739010 739020
           store_one_day_out_of_range).
Defined.

(** The entry is for the second day of the range and has the exercise box
    ticked, but its row is the first of the list and takes the rate of the
    first day. *)
Lemma weekly_analysis_exercise_rate_by_position_witness :
  nth_error (fst (get_weekly_analysis store_second_day 1 739000 739001)) 0
  = Some (mk_day_summary 739001 4 2 10 2 0)
  /\ fst (exercise_on store_second_day 1 739001) = true
  /\ ds_exercise_rate (mk_day_summary 739001 4 2 10 2 0) = 0%Q.
Proof.
  split; [reflexivity|]. split; [reflexivity|].
  exact (proj2 (weekly_analysis_exercise_rate_by_position store_second_day 1
                  739000 739001 0 (mk_day_summary 739001 4 2 10 2 0) eq_refl)).
Defined.

Lemma repair_database_completes_witness :
  In (nth 0 tables_to_repair ("", [])) tables_to_repair
  /\ In ("email", "TEXT") (snd (nth 0 tables_to_repair ("", [])))
  /\ fst (repair_database refuse_created_at legacy_schema) !! "students"
     = Some ["id"; "name"; "user_id"; "target_study_hours"; "wakeup_time";
             "bedtime"; "photo"; "email"; "phone"]
  /\ (has_column
        ["id"; "name"; "user_id"; "target_study_hours"; "wakeup_time";
         "bedtime"; "photo"; "email"; "phone"] "email" = true
      \/ refuse_created_at "students" "email" "TEXT" = true).
Proof.
  assert (H1 : In (nth 0 tables_to_repair ("", [])) tables_to_repair)
    by (left; reflexivity).
  assert (H2 : In ("email", "TEXT") (snd (nth 0 tables_to_repair ("", []))))
    by (simpl; auto 10).
  assert (H3 : fst (repair_database refuse_created_at legacy_schema)
               !! "students"
               = Some ["id"; "name"; "user_id"; "target_study_hours";
                       "wakeup_time"; "bedtime"; "photo"; "email"; "phone"])
    by (vm_compute; reflexivity).
  split; [exact H1|]. split; [exact H2|]. split; [exact H3|].
  exact (repair_database_completes refuse_created_at legacy_schema "students"
           (snd (nth 0 tables_to_repair ("", []))) _ "email" "TEXT" H1 H2 H3).
Defined.

Lemma repair_database_only_adds_witness :
  legacy_schema !! "students" = Some ["id"; "name"]
  /\ (exists added,
        fst (repair_database refuse_created_at legacy_schema) !! "students"
        = Some (["id"; "name"] ++ added)%list)
  /\ fst (repair_database refuse_created_at legacy_schema) !! "subjects" = None.
Proof.
  assert (H1 : legacy_schema !! "students" = Some ["id"; "name"])
    by (vm_compute; reflexivity).
  assert (H2 : legacy_schema !! "subjects" = None) by (vm_compute; reflexivity).
  split; [exact H1|]. split.
  - exact (proj1 (repair_database_only_adds refuse_created_at legacy_schema
                    "students") _ H1).
  - exact (proj1 (proj2 (repair_database_only_adds refuse_created_at
                           legacy_schema "subjects")) H2).
Defined.

Lemma save_profile_read_back_witness :
  pf_name sample_profile <> ""
  /\ exists student_id,
       snd (save_profile store_registered 1 sample_profile) = Some student_id
       /\ get_user_profile
            (fst (fst (save_profile store_registered 1 sample_profile))) 1
          = Some (mk_profile student_id "Ann B." None "ann@example.org"
                    "555-0100" 8 "06:30" "22:30").
Proof.
  assert (Hne : pf_name sample_profile <> "") by discriminate.
  split; [exact Hne|].
  destruct (proj2 (save_profile_read_back store_registered 1 sample_profile) Hne)
    as (student_id & Hs & Hp & _).
  exists student_id. split; [exact Hs|exact Hp].
Defined.

Lemma add_exercise_in_daily_report_witness :
  xf_exercise_type morning_run <> ""
  /\ subjects_of store_one_day 1 <> []
  /\ report_exercises
       (get_daily_report (fst (add_exercise store_one_day 1 morning_run))
          1 739000)
     = [("Running", 30, "Moderate", "")].
Proof.
  assert (Hne : xf_exercise_type morning_run <> "") by discriminate.
  assert (Hsubs : subjects_of store_one_day 1 <> []) by discriminate.
  split; [exact Hne|]. split; [exact Hsubs|].
  exact (proj1 (proj2 (add_exercise_in_daily_report store_one_day 1
                         morning_run 739000 Hne)) Hsubs).
Defined.

Lemma subject_card_in_range_witness :
  (0 <= value_or_zero_Q (sp_lecture_actual over_target))%Q
  /\ (0 <= value_or_zero_Q (sp_question_actual over_target))%Q
  /\ 0 <= or_zero_Z (sp_questions_solved over_target)
  /\ (card_lecture_bar (subject_card_of over_target) <= 1)%Q
  /\ card_efficiency (subject_card_of over_target) = 0%Q.
Proof.
  assert (H1 : (0 <= value_or_zero_Q (sp_lecture_actual over_target))%Q)
    by discriminate.
  assert (H2 : (0 <= value_or_zero_Q (sp_question_actual over_target))%Q)
    by discriminate.
  assert (H3 : 0 <= or_zero_Z (sp_questions_solved over_target))
    by discriminate.
  pose proof (subject_card_in_range over_target H1 H2 H3) as H.
  destruct H as (_ & Hbar & _ & _ & _ & Heff & _).
  split; [exact H1|]. split; [exact H2|]. split; [exact H3|].
  split; [exact Hbar|]. apply Heff. discriminate.
Defined.

Lemma add_new_is_not_save_changes :
  forall sub_id f, AddNewSubject physics <> SaveChanges sub_id f.
Proof. intros sub_id f. discriminate. Defined.

Lemma store_two_subjects_names : names_unique store_two_subjects 1.
Proof.
  unfold names_unique. simpl.
  constructor; [|constructor; [intros []|constructor]].
  intros [H|[]]. discriminate H.
Defined.

Lemma manage_subjects_keeps_names_witness :
  (forall sub_id f, AddNewSubject physics <> SaveChanges sub_id f)
  /\ names_unique store_two_subjects 1
  /\ names_unique
       (fst (manage_subjects store_two_subjects 1 (AddNewSubject physics))) 1
  /\ fst (manage_subjects store_two_subjects 1 (AddNewSubject physics))
     = store_two_subjects.
Proof.
  pose proof (manage_subjects_keeps_names store_two_subjects 1 1
                (AddNewSubject physics) add_new_is_not_save_changes
                store_two_subjects_names) as [Hkeep Hreject].
  split; [exact add_new_is_not_save_changes|].
  split; [exact store_two_subjects_names|].
  split; [exact Hkeep|].
  exact (Hreject physics (Subject.mk 2 1 "Physics" (3 # 2) 100 2 1 "Hard" 739030)
           eq_refl (or_intror (or_introl eq_refl)) eq_refl eq_refl).
Defined.

Lemma store_two_subjects_hours : hours_nonneg store_two_subjects.
Proof. unfold hours_nonneg. simpl. constructor. Defined.

Lemma entered_hours_nonneg :
  forall sub_id : Z,
    (0 <= fst (fst ((fun _ : Z => (2%Q, 1%Q, 5)) sub_id)))%Q
    /\ (0 <= snd (fst ((fun _ : Z => (2%Q, 1%Q, 5)) sub_id)))%Q.
Proof. intros sub_id. split; discriminate. Defined.

Lemma submit_daily_entry_hours_nonneg_witness :
  hours_nonneg store_two_subjects /\ hours_nonneg store_second_day.
Proof.
  split; [exact store_two_subjects_hours|].
  exact (submit_daily_entry_hours_nonneg store_two_subjects 1 739001
           (fun _ => (2%Q, 1%Q, 5)) true 30 "🙂 Good" ""
           store_two_subjects_hours entered_hours_nonneg).
Defined.

Lemma submit_daily_entry_other_reports_witness :
  (1 <> 1 \/ 739000 <> 739001)
  /\ get_daily_report store_second_day 1 739000
     = get_daily_report store_two_subjects 1 739000.
Proof.
  assert (H : 1 <> 1 \/ 739000 <> 739001) by (right; discriminate).
  split; [exact H|].
  exact (submit_daily_entry_other_reports store_two_subjects 1 739001
           (fun _ => (2%Q, 1%Q, 5)) true 30 "🙂 Good" "" 1 739000 H).
Defined.

Lemma edits_spare_other_users_witness :
  1 <> 2
  /\ List.filter (fun s => Subject.user_id s =? 1)
       (subjects (fst (delete_subject store_two_subjects 2 1)))
     = subjects store_two_subjects.
Proof.
  assert (H : 1 <> 2) by discriminate.
  split; [exact H|].
  exact (proj1 (proj2 (edits_spare_other_users store_two_subjects 2 1 1
                         mathematics morning_run H))).
Defined.

Lemma save_study_schedule_replaces_witness :
  List.filter (item_resolves store_one_day 1) [monday_chemistry; monday_evening]
  = [monday_evening]
  /\ List.map slot_values
       (List.filter (fun ss => StudySchedule.user_id ss =? 1)
          (study_schedule
             (save_study_schedule store_one_day 1
                [monday_chemistry; monday_evening])))
     = [(1, "Monday", 2, "18:00", "20:00", "Evening", 3)].
Proof.
  split; [reflexivity|].
  pose proof (save_study_schedule_replaces store_one_day 1
                [monday_chemistry; monday_evening]) as H.
  cbv zeta in H. destruct H as (_ & _ & _ & H & _).
  change (List.filter (item_resolves store_one_day 1)
            [monday_chemistry; monday_evening])
    with [monday_evening] in H.
  remember (List.filter (fun ss => StudySchedule.user_id ss =? 1)
              (study_schedule
                 (save_study_schedule store_one_day 1
                    [monday_chemistry; monday_evening]))) as mine eqn:Emine.
  clear Emine.
  inversion H as [|ss item l l' Hss Hl E1 E2]. clear H E1 E2.
  inversion Hl. clear Hl.
  destruct Hss as (Hu & Hday & Hstart & Hend & Hsess & Hprio & _
                   & s & Hfind & _ & _ & _ & Hid).
  injection Hfind as <-.
  destruct ss as [id u day sub start_time end_time sess prio].
  cbn in Hu, Hday, Hstart, Hend, Hsess, Hprio, Hid.
  subst. reflexivity.
Defined.

Lemma existing_exercises_ordered_witness :
  List.map Exercise.day_of_week
    (List.filter (fun e => Exercise.user_id e =? 1) (exercises store_exercised))
  = ["Sunday"; "Saturday"; "Friday"; "Thursday"; "Wednesday"; "Tuesday";
     "Monday"]
  /\ List.map Exercise.day_of_week (existing_exercises store_exercised 1)
     = ["Monday"; "Tuesday"; "Wednesday"; "Thursday"; "Friday"; "Saturday";
        "Sunday"].
Proof.
  split; [reflexivity|].
  exact (proj1 (proj2 (proj2 (existing_exercises_ordered store_exercised 1))
                  eq_refl)).
Defined.
